(** * BikeRecorder: resumable upload handlers

    A shallow embedding of the two upload routers of the server,
    [server/app/routers/uploads.py] (database-backed upload sessions) and
    [server/app/routers/tus_upload.py] (file-backed TUS uploads), and the
    properties of the resumable upload protocol checked against them.

    Python integers are [Z], byte strings are [list byte], text is [string],
    dictionaries and database tables are finite maps, and a handler is a
    function from the state it reads to the state it leaves and either the
    response it returns or the exception it raises.  What a handler has
    committed before it raises stays in the state it leaves.

    Requests are served one after the other.  The storage directory is a map
    from file paths to contents: directories are not represented, and reads
    and writes fail only where a handler can see it (a missing file, a line
    that is no number). *)

From Stdlib Require Import ZArith NArith Ascii String DecimalString DecimalZ Lia.
From Stdlib.Strings Require Import Byte.
From stdpp Require Import gmap strings list fin_maps.

(** ** SHA-256 ([hashlib.sha256]) *)

Module SHA256.
Local Open Scope N_scope.

Definition word (x : N) : N := x mod 2 ^ 32.
Definition add32 (x y : N) : N := word (x + y).
Definition rotr (n x : N) : N :=
  N.lor (N.shiftr x n) (word (N.shiftl x (32 - n))).
Definition ch (x y z : N) : N :=
  N.lxor (N.land x y) (N.land (N.lxor x (2 ^ 32 - 1)) z).
Definition maj (x y z : N) : N :=
  N.lxor (N.lxor (N.land x y) (N.land x z)) (N.land y z).
Definition bsig0 (x : N) : N := N.lxor (N.lxor (rotr 2 x) (rotr 13 x)) (rotr 22 x).
Definition bsig1 (x : N) : N := N.lxor (N.lxor (rotr 6 x) (rotr 11 x)) (rotr 25 x).
Definition ssig0 (x : N) : N := N.lxor (N.lxor (rotr 7 x) (rotr 18 x)) (N.shiftr x 3).
Definition ssig1 (x : N) : N := N.lxor (N.lxor (rotr 17 x) (rotr 19 x)) (N.shiftr x 10).

(* The round constants are the first 32 fractional bits of the cube roots
   of the first 64 primes, the initial state those of the square roots of
   the first 8: both are computed here, not tabulated. *)
Definition is_prime (n : nat) : bool :=
  (2 <=? n)%nat && forallb (fun d => negb (n mod d =? 0)%nat) (seq 2 (n - 2)).

Definition primes64 : list N :=
  Eval vm_compute in map N.of_nat (filter (fun n => is_prime n = true) (seq 2 310)).

Fixpoint cbrt_bisect (fuel : nat) (lo hi n : N) : N :=
  match fuel with
  | O => lo
  | S fuel' =>
      let mid := (lo + hi) / 2 in
      if mid * mid * mid <=? n then cbrt_bisect fuel' mid hi n
      else cbrt_bisect fuel' lo mid n
  end.

Definition K : list N :=
  Eval vm_compute in
    map (fun p => word (cbrt_bisect 40 0 (2 ^ 36) (p * 2 ^ 96))) primes64.

Definition H0 : list N :=
  Eval vm_compute in map (fun p => word (N.sqrt (p * 2 ^ 64))) (firstn 8 primes64).

Definition be_bytes (k : nat) (x : N) : list N :=
  map (fun i => (N.shiftr x (8 * N.of_nat i)) mod 256) (rev (seq 0 k)).

Definition pad (msg : list N) : list N :=
  let n := N.of_nat (length msg) in
  let zeros := (64 - (n + 9) mod 64) mod 64 in
  msg ++ [128] ++ repeat 0 (N.to_nat zeros) ++ be_bytes 8 (8 * n).

Fixpoint be_words (fuel : nat) (bs : list N) : list N :=
  match fuel, bs with
  | S fuel', b0 :: b1 :: b2 :: b3 :: rest =>
      (b0 * 2 ^ 24 + b1 * 2 ^ 16 + b2 * 2 ^ 8 + b3) :: be_words fuel' rest
  | _, _ => []
  end.

Definition at_ (l : list N) (i : nat) : N := nth i l 0.

Definition schedule (block : list N) : list N :=
  fold_left
    (fun W t =>
       W ++ [add32 (add32 (ssig1 (at_ W (t - 2))) (at_ W (t - 7)))
                   (add32 (ssig0 (at_ W (t - 15))) (at_ W (t - 16)))])
    (seq 16 48) block.

Definition round (W : list N) (st : list N) (t : nat) : list N :=
  match st with
  | [a; b; c; d; e; f; g; h] =>
      let t1 :=
        add32 (add32 (add32 h (bsig1 e)) (add32 (ch e f g) (at_ K t))) (at_ W t) in
      let t2 := add32 (bsig0 a) (maj a b c) in
      [add32 t1 t2; a; b; c; add32 d t1; e; f; g]
  | _ => st
  end.

Definition compress (st block : list N) : list N :=
  let W := schedule block in
  let st' := fold_left (round W) (seq 0 64) st in
  map (fun p => add32 (fst p) (snd p)) (combine st st').

Fixpoint blocks (fuel : nat) (ws : list N) : list (list N) :=
  match fuel with
  | O => []
  | S fuel' =>
      match ws with
      | [] => []
      | _ => firstn 16 ws :: blocks fuel' (skipn 16 ws)
      end
  end.

Definition digest_words (msg : list byte) : list N :=
  let bs := pad (map Byte.to_N msg) in
  let ws := be_words (length bs) bs in
  fold_left compress (blocks (length ws) ws) H0.

Definition hex_digit (d : N) : ascii :=
  ascii_of_N (if d <? 10 then 48 + d else 87 + d).

Definition hex_word (x : N) : string :=
  string_of_list_ascii
    (map (fun i => hex_digit ((N.shiftr x (4 * N.of_nat i)) mod 16)) (rev (seq 0 8))).

(** [hashlib.sha256(msg).hexdigest()] *)
Definition hexdigest (msg : list byte) : string :=
  String.concat "" (map hex_word (digest_words msg)).

End SHA256.

(** ** Python values and builtins *)

Module Py.
Local Open Scope Z_scope.

(** [len(x)] *)
Definition len {A} (l : list A) : Z := Z.of_nat (length l).

(** [str(n)] for an int *)
Definition str (n : Z) : string := NilZero.string_of_int (Z.to_int n).

(** [f"{x}"] for an [Optional[str]] *)
Definition str_opt (x : option string) : string :=
  match x with Some s => s | None => "None" end.

(** [text.encode()]: the handlers only encode text they built from ASCII. *)
Definition encode (s : string) : list byte := list_byte_of_string s.
Definition decode (b : list byte) : string := string_of_list_byte b.

(** The characters [str.strip()] removes. *)
Definition is_space (c : ascii) : bool :=
  let n := N_of_ascii c in
  ((9 <=? n) && (n <=? 13) || (28 <=? n) && (n <=? 32))%N.

Fixpoint lstrip (s : list ascii) : list ascii :=
  match s with
  | c :: r => if is_space c then lstrip r else s
  | [] => []
  end.

Definition strip (s : string) : string :=
  string_of_list_ascii
    (rev (lstrip (rev (lstrip (list_ascii_of_string s))))).

(** [s.rstrip('/')] *)
Fixpoint lstrip_slash (s : list ascii) : list ascii :=
  match s with
  | c :: r => if bool_decide (c = "/"%char) then lstrip_slash r else s
  | [] => []
  end.

Definition rstrip_slash (s : string) : string :=
  string_of_list_ascii (rev (lstrip_slash (rev (list_ascii_of_string s)))).

(** [f.readline()] on a file just opened: the text up to and including the
    first line feed, or all of it. *)
Fixpoint readline (s : string) : string :=
  match s with
  | EmptyString => EmptyString
  | String c r =>
      if bool_decide (c = "010"%char) then String c EmptyString
      else String c (readline r)
  end.

(** [int(s)]: an optional sign and decimal digits, surrounding white space
    ignored; [None] stands for [ValueError].  Digit-group underscores and
    non-ASCII digits are not accepted here. *)
Definition int (s : string) : option Z :=
  match strip s with
  | EmptyString => None
  | String c r =>
      if bool_decide (c = "+"%char) then
        (fun u => Z.of_int (Decimal.Pos u)) <$> NilZero.uint_of_string r
      else Z.of_int <$> NilZero.int_of_string (String c r)
  end.

End Py.

(** ** Exceptions and responses *)

Inductive Exception : Type :=
  | HTTPException (status_code : Z) (detail : string)
  | ValueError
  | AttributeError
  | IntegrityError
  | FileNotFoundError
  | WriterOffsetConflict.

Inductive Result (A : Type) : Type :=
  | Ok (a : A)
  | Raise (e : Exception).
Arguments Ok {A} a.
Arguments Raise {A} e.

(** [Response(status_code=..., headers={...})] *)
Record Response : Type := mkResponse {
  status_code : Z;
  headers : list (string * string)
}.

(** A header of a response, as a client reads it. *)
Fixpoint header (name : string) (hs : list (string * string)) : option string :=
  match hs with
  | [] => None
  | (k, v) :: r => if bool_decide (k = name) then Some v else header name r
  end.

Inductive JSON : Type :=
  | JStr (s : string)
  | JInt (n : Z).

(** [uuid.UUID] values, identified with their canonical text ([str(u)]). *)
Definition UUID : Type := string.

(** The authenticated caller ([current_user]); only its [id] is read. *)
Module User.
Record t : Type := mk { id : UUID }.
End User.

(** ** [pathlib]: pure POSIX paths

    A path is the root it starts from (none, [/] or [//]) and its
    components.  Parsing a text drops its empty and [.] components, joining
    a text that has a root discards the path on the left, and [relative_to]
    raises [ValueError] for a path that does not lie under the other. *)

Module Pathlib.

Record t : Type := mk { root : string; parts : list string }.

Definition is_sep (c : ascii) : bool := bool_decide (c = "/"%char).

(** [s.split("/")] *)
Fixpoint split (s : string) : list string :=
  match s with
  | EmptyString => [EmptyString]
  | String c r =>
      if is_sep c then EmptyString :: split r
      else match split r with
           | [] => [String c EmptyString]
           | p :: ps => String c p :: ps
           end
  end.

Definition starts_with_sep (s : string) : bool :=
  match s with
  | String c _ => is_sep c
  | EmptyString => false
  end.

(** Two leading slashes are a root of their own; one, or three and more,
    are the root [/]. *)
Definition parse_root (s : string) : string :=
  match s with
  | String c1 r1 =>
      if is_sep c1 then
        match r1 with
        | String c2 r2 => if is_sep c2 && negb (starts_with_sep r2) then "//" else "/"
        | EmptyString => "/"
        end
      else ""
  | EmptyString => ""
  end.

Definition is_part (p : string) : bool :=
  negb (bool_decide (p = "")) && negb (bool_decide (p = ".")).

(** [PurePosixPath(s)] *)
Definition parse (s : string) : t :=
  mk (parse_root s) (List.filter is_part (split s)).

(** [p / s] *)
Definition joinpath (p : t) (s : string) : t :=
  let q := parse s in
  if bool_decide (root q = "") then mk (root p) (parts p ++ parts q) else q.

(** ["/".join(ps)] *)
Fixpoint join (ps : list string) : string :=
  match ps with
  | [] => ""
  | p :: rest =>
      match rest with
      | [] => p
      | _ :: _ => p +:+ "/" +:+ join rest
      end
  end.

(** [str(p)] *)
Definition str (p : t) : string :=
  if bool_decide (root p = "") && bool_decide (parts p = []) then "."
  else root p +:+ join (parts p).

(** [p.relative_to(other)] *)
Definition relative_to (p other : t) : Result t :=
  if bool_decide (root p = root other
                  ∧ take (length (parts other)) (parts p) = parts other)
  then Ok (mk "" (drop (length (parts other)) (parts p)))
  else Raise ValueError.

(** A name of one component that names an entry of the directory it is
    joined to: not empty, without [/], and neither [.] nor [..].  These are
    the upload ids a route [/files/{upload_id}] can name a file with, and
    the file names that stay in the directory of their segment. *)
Definition plain_name (name : string) : bool :=
  is_part name && negb (bool_decide (name = ".."))
  && forallb (fun c => negb (is_sep c)) (list_ascii_of_string name).

End Pathlib.

(** [str(a / b)] for the text [a] of a path with a component and a plain
    name [b] ([Pathlib.plain_name]): there the join is the two texts with a
    slash between.  For another [b] the text of [a / b] is another one
    ([Pathlib.joinpath]); what depends on the difference is stated for
    plain names. *)
Definition path_join (a b : string) : string := a +:+ "/" +:+ b.
Infix "//" := path_join (at level 40, left associativity).

(** The names the specification gives to the failures of the protocol. *)
Definition NotFound : Exception := HTTPException 404 "Upload not found".
Definition AlreadyTerminal : Exception := HTTPException 409 "Upload already complete".
Definition OffsetConflict : Exception := HTTPException 409 "Offset mismatch".
Definition ChecksumMismatch : Exception := HTTPException 422 "Checksum mismatch".
Definition TooLarge : Exception := HTTPException 413 "File too large".

(** ** [tus_upload.py]: file-backed TUS uploads

    The state of these handlers is the storage directory alone: a finite
    map from file paths to file contents.  Each handler also receives the
    authenticated [current_user], which only [tus_create_upload] reads. *)

Module Tus.
Local Open Scope Z_scope.
Import Py.

Section Handlers.

(** [STORAGE_DIR = Path(os.getenv("BIKE_RECORDER_STORAGE_DIR", "./storage"))] *)
Variable STORAGE_DIR : string.

Definition TUS_VERSION : string := "1.0.0".
Definition MAX_FILE_SIZE : Z := 1024 * 1024 * 1024.

(** The two files of an upload, for an [upload_id] that is a plain name.
    For other ids ([.], [..], [./x]) the paths are the uploads directory,
    its parent or the files of another id; what depends on the difference
    is stated for plain names. *)
Definition get_upload_path (upload_id : string) : string :=
  STORAGE_DIR // "uploads" // upload_id.

Definition get_metadata_path (upload_id : string) : string :=
  STORAGE_DIR // "uploads" // (upload_id +:+ ".metadata").

(** [hashlib.sha256(f"{current_user.id}-{upload_length}-{upload_metadata}"
    .encode()).hexdigest()[:16]] *)
Definition make_upload_id (current_user : User.t) (upload_length : Z)
    (upload_metadata : option string) : string :=
  substring 0 16
    (SHA256.hexdigest
       (encode (User.id current_user +:+ "-" +:+ str upload_length +:+ "-"
                +:+ str_opt upload_metadata))).

(** [Path.touch()]: creates an empty file, leaves an existing one as it is. *)
Definition touch (path : string) (fs : gmap string (list byte)) : gmap string (list byte) :=
  match fs !! path with
  | Some _ => fs
  | None => <[path := []]> fs
  end.

Definition tus_create_upload (fs : gmap string (list byte)) (request_url : string)
    (upload_length : Z) (upload_metadata : option string) (current_user : User.t)
    : gmap string (list byte) * Result Response :=
  if bool_decide (upload_length > MAX_FILE_SIZE) then
    (fs, Raise (HTTPException 413 "File too large"))
  else
    let upload_id := make_upload_id current_user upload_length upload_metadata in
    let upload_path := get_upload_path upload_id in
    let metadata_path := get_metadata_path upload_id in
    let text :=
      str upload_length +:+ String "010" EmptyString +:+
      match upload_metadata with
      | Some m => m   (* [if upload_metadata: f.write(upload_metadata)] *)
      | None => ""
      end in
    let fs := <[metadata_path := encode text]> fs in
    let fs := touch upload_path fs in
    let upload_url := rstrip_slash request_url +:+ "/" +:+ upload_id in
    (fs, Ok (mkResponse 201
               [("Tus-Resumable", TUS_VERSION);
                ("Location", upload_url);
                ("Upload-Offset", "0");
                ("Access-Control-Expose-Headers", "Location, Upload-Offset")])).

Definition tus_check_offset (fs : gmap string (list byte)) (upload_id : string)
    (current_user : User.t) : Result Response :=
  let upload_path := get_upload_path upload_id in
  let metadata_path := get_metadata_path upload_id in
  match fs !! upload_path, fs !! metadata_path with
  | Some data, Some meta =>
      let current_offset := len data in
      match int (strip (readline (decode meta))) with
      | None => Raise ValueError
      | Some upload_length =>
          Ok (mkResponse 200
                [("Tus-Resumable", TUS_VERSION);
                 ("Upload-Offset", str current_offset);
                 ("Upload-Length", str upload_length);
                 ("Cache-Control", "no-store");
                 ("Access-Control-Expose-Headers", "Upload-Offset, Upload-Length")])
      end
  | _, _ => Raise (HTTPException 404 "Upload not found")
  end.

(** The loop [async for chunk in request.stream(): f.write(chunk);
    bytes_written += len(chunk)] on a file opened for appending: the file
    and the counter after it. *)
Definition write_stream (data : list byte) (stream : list (list byte))
    : list byte * Z :=
  fold_left (fun '(f, bytes_written) chunk => (f ++ chunk, bytes_written + len chunk))
            stream (data, 0).

(** The handler returns the storage it leaves, the lines it printed and
    its response. *)
Definition tus_upload_chunk (fs : gmap string (list byte)) (upload_id : string)
    (stream : list (list byte)) (upload_offset : Z) (content_type : string)
    (current_user : User.t)
    : gmap string (list byte) * list string * Result Response :=
  let upload_path := get_upload_path upload_id in
  let metadata_path := get_metadata_path upload_id in
  match fs !! upload_path, fs !! metadata_path with
  | Some data, Some meta =>
      if bool_decide (content_type ≠ "application/offset+octet-stream") then
        (fs, [], Raise (HTTPException 415
                          "Content-Type must be application/offset+octet-stream"))
      else
        let current_size := len data in
        if bool_decide (current_size ≠ upload_offset) then
          (fs, [], Raise (HTTPException 409
                            ("Upload offset mismatch. Expected " +:+ str current_size
                             +:+ ", got " +:+ str upload_offset)))
        else
          match int (strip (readline (decode meta))) with
          | None => (fs, [], Raise ValueError)
          | Some expected_length =>
              let '(data', bytes_written) := write_stream data stream in
              let fs := <[upload_path := data']> fs in
              let new_offset := len data' in
              let printed :=
                if bool_decide (new_offset >= expected_length) then
                  ["Upload " +:+ upload_id +:+ " complete: " +:+ str new_offset
                   +:+ " bytes"]
                else [] in
              (fs, printed,
               Ok (mkResponse 204
                     [("Tus-Resumable", TUS_VERSION);
                      ("Upload-Offset", str new_offset);
                      ("Access-Control-Expose-Headers", "Upload-Offset")]))
          end
  | _, _ => (fs, [], Raise (HTTPException 404 "Upload not found"))
  end.

(** Each [unlink()] removes a regular file; on a directory, which only an
    id that is no plain name can name, it would raise. *)
Definition tus_delete_upload (fs : gmap string (list byte)) (upload_id : string)
    (current_user : User.t) : gmap string (list byte) * Result Response :=
  let upload_path := get_upload_path upload_id in
  let metadata_path := get_metadata_path upload_id in
  let fs := delete upload_path fs in
  let fs := delete metadata_path fs in
  (fs, Ok (mkResponse 204 [("Tus-Resumable", TUS_VERSION)])).

(** [tus_options_create] and [tus_options_file] answer with fixed headers. *)
Definition tus_options_create : Response :=
  mkResponse 204
    [("Tus-Resumable", TUS_VERSION);
     ("Tus-Version", TUS_VERSION);
     ("Tus-Extension", "creation,creation-with-upload,termination");
     ("Tus-Max-Size", str MAX_FILE_SIZE);
     ("Access-Control-Allow-Origin", "*");
     ("Access-Control-Allow-Methods", "POST, HEAD, PATCH, OPTIONS");
     ("Access-Control-Allow-Headers",
      "Upload-Length, Upload-Metadata, Tus-Resumable, Content-Type");
     ("Access-Control-Expose-Headers",
      "Upload-Offset, Location, Upload-Length, Tus-Resumable")].

Definition tus_options_file (upload_id : string) : Response :=
  mkResponse 204
    [("Tus-Resumable", TUS_VERSION);
     ("Tus-Version", TUS_VERSION);
     ("Tus-Extension", "creation,creation-with-upload,termination");
     ("Access-Control-Allow-Origin", "*");
     ("Access-Control-Allow-Methods", "HEAD, PATCH, DELETE, OPTIONS");
     ("Access-Control-Allow-Headers", "Upload-Offset, Content-Type, Tus-Resumable");
     ("Access-Control-Expose-Headers", "Upload-Offset, Upload-Length")].

(** The offset a TUS upload is at: the size of its data file. *)
Definition received_offset (fs : gmap string (list byte)) (upload_id : string)
    : option Z :=
  len <$> fs !! get_upload_path upload_id.

End Handlers.
End Tus.


(** ** [uploads.py]: database-backed upload sessions *)

(** The columns of the tables the handlers read and write.  The model
    classes ([app/models.py]) are not part of the sources at hand: the
    fields are the ones the handlers use, each row is keyed by its primary
    key [id], and a relationship ([upload.trip]) is a lookup by foreign key. *)

Inductive UploadStatus : Type := PENDING | RECEIVING | COMPLETE | FAILED.

Inductive FileType : Type :=
  | VIDEO_MP4
  | OtherFileType (name : string).

Global Instance UploadStatus_eq_dec : EqDecision UploadStatus.
Proof. solve_decision. Defined.

Global Instance FileType_eq_dec : EqDecision FileType.
Proof. solve_decision. Defined.

Module Trip.
Record t : Type := mk { user_id : UUID }.
End Trip.

Module Segment.
Record t : Type := mk {
  trip_id : UUID;
  file_size_bytes : option Z;
  sha256 : option string
}.
End Segment.

Module UploadSession.
Record t : Type := mk {
  trip_id : UUID;
  segment_id : UUID;
  filename : string;
  file_type : FileType;
  sha256 : option string;
  upload_length : Z;
  offset : Z;
  status : UploadStatus;
  updated_at : Z
}.

(** Modelled from the spec: the column defaults of [UploadSession] are
    missing ([app/models.py]); a session is created at offset 0
    (section 4.1). *)
Definition default_offset : Z := 0.

Definition set_offset (o : Z) (u : t) : t :=
  mk (trip_id u) (segment_id u) (filename u) (file_type u) (sha256 u)
     (upload_length u) o (status u) (updated_at u).
Definition set_status (s : UploadStatus) (u : t) : t :=
  mk (trip_id u) (segment_id u) (filename u) (file_type u) (sha256 u)
     (upload_length u) (offset u) s (updated_at u).
Definition set_updated_at (now : Z) (u : t) : t :=
  mk (trip_id u) (segment_id u) (filename u) (file_type u) (sha256 u)
     (upload_length u) (offset u) (status u) now.
End UploadSession.

Module StoredFile.
Record t : Type := mk {
  segment_id : UUID;
  type : FileType;
  storage_uri : string;
  sha256 : string;
  bytes : Z
}.
End StoredFile.

(** [UploadCreateRequest] *)
Module UploadCreateRequest.
Record t : Type := mk {
  trip_id : UUID;
  segment_id : UUID;
  filename : string;
  file_type : FileType;
  sha256 : option string;
  upload_length : Z
}.
End UploadCreateRequest.

(** [UploadRead] *)
Module UploadRead.
Record t : Type := mk {
  id : UUID;
  trip_id : UUID;
  segment_id : UUID;
  filename : string;
  file_type : FileType;
  sha256 : option string;
  upload_length : Z;
  offset : Z;
  status : UploadStatus
}.
End UploadRead.

(** What the handlers of [uploads.py] act on: the committed tables and the
    files under the storage directory. *)
Record World : Type := mkWorld {
  trips : gmap UUID Trip.t;
  segments : gmap UUID Segment.t;
  uploads : gmap UUID UploadSession.t;
  stored_files : list StoredFile.t;
  fs : gmap string (list byte)
}.

Definition set_uploads (m : gmap UUID UploadSession.t) (w : World) : World :=
  mkWorld (trips w) (segments w) m (stored_files w) (fs w).
Definition set_segments (m : gmap UUID Segment.t) (w : World) : World :=
  mkWorld (trips w) m (uploads w) (stored_files w) (fs w).
Definition set_stored_files (l : list StoredFile.t) (w : World) : World :=
  mkWorld (trips w) (segments w) (uploads w) l (fs w).
Definition set_fs (f : gmap string (list byte)) (w : World) : World :=
  mkWorld (trips w) (segments w) (uploads w) (stored_files w) f.

(** *** [services/storage.py]

    The storage helpers the handlers import are not part of the sources at
    hand either. *)

Module Storage.
Local Open Scope Z_scope.
Import Py.

Section Helpers.
Variable storage_dir : string.

(** Modelled from the spec: [get_upload_path] is missing; the partial
    artifact of a session is one object keyed by the session id (section 6),
    laid out as [tus_upload.get_upload_path] lays it out. *)
Definition get_upload_path (upload_id : string) : string :=
  storage_dir // "uploads" // upload_id.

(** Modelled from the spec: [write_chunk] is missing; the Chunk Writer of
    section 4.2 appends [body] when [offset] is the observed length of the
    backing artifact (an artifact not written yet has length 0) and signals
    an offset conflict, writing nothing, when it is not. *)
Definition write_chunk (fs : gmap string (list byte)) (path : string)
    (body : list byte) (offset : Z) : Result (gmap string (list byte)) :=
  let current := default [] (fs !! path) in
  if bool_decide (len current = offset) then Ok (<[path := current ++ body]> fs)
  else Raise WriterOffsetConflict.

(** Modelled from the spec: [finalize_upload] is missing; the Finalizer of
    section 2 computes the content hash of the temporary artifact, moves it
    to its permanent location and reports hash and size. *)
Definition finalize_upload (fs : gmap string (list byte)) (path final_path : string)
    : Result (gmap string (list byte) * (string * Z)) :=
  match fs !! path with
  | None => Raise FileNotFoundError
  | Some data =>
      Ok (<[final_path := data]> (delete path fs), (SHA256.hexdigest data, len data))
  end.

End Helpers.
End Storage.

Module Uploads.
Local Open Scope Z_scope.
Import Py.

Section Handlers.

(** [settings.storage_dir] *)
Variable storage_dir : string.

(** The check [not upload or upload.trip.user_id != current_user.id] of
    [head_upload], [patch_upload] and [direct_put_upload]: the row, or the
    exception the handler stops with.  [upload.trip] of a row whose trip is
    gone is [None], and reading its [user_id] raises. *)
Definition load_upload (w : World) (upload_id : UUID) (current_user : User.t)
    : Result UploadSession.t :=
  match uploads w !! upload_id with
  | None => Raise (HTTPException 404 "Upload not found")
  | Some upload =>
      match trips w !! UploadSession.trip_id upload with
      | None => Raise AttributeError
      | Some trip =>
          if bool_decide (Trip.user_id trip ≠ User.id current_user) then
            Raise (HTTPException 404 "Upload not found")
          else Ok upload
      end
  end.

(** [create_upload].  [new_id] is the [uuid] the model class draws for the
    new row's primary key; the commit of a key already taken fails. *)
Definition create_upload (w : World) (payload : UploadCreateRequest.t)
    (current_user : User.t) (new_id : UUID) (now : Z)
    : World * Result UploadRead.t :=
  match trips w !! UploadCreateRequest.trip_id payload,
        segments w !! UploadCreateRequest.segment_id payload with
  | Some trip, Some segment =>
      if bool_decide (Segment.trip_id segment ≠ UploadCreateRequest.trip_id payload)
         || bool_decide (Trip.user_id trip ≠ User.id current_user) then
        (w, Raise (HTTPException 404 "Trip or segment not found"))
      else
        match uploads w !! new_id with
        | Some _ => (w, Raise IntegrityError)
        | None =>
            let upload :=
              UploadSession.mk
                (UploadCreateRequest.trip_id payload)
                (UploadCreateRequest.segment_id payload)
                (UploadCreateRequest.filename payload)
                (UploadCreateRequest.file_type payload)
                (UploadCreateRequest.sha256 payload)
                (UploadCreateRequest.upload_length payload)
                UploadSession.default_offset PENDING now in
            (set_uploads (<[new_id := upload]> (uploads w)) w,
             Ok (UploadRead.mk new_id
                   (UploadSession.trip_id upload)
                   (UploadSession.segment_id upload)
                   (UploadSession.filename upload)
                   (UploadSession.file_type upload)
                   (UploadSession.sha256 upload)
                   (UploadSession.upload_length upload)
                   (UploadSession.offset upload)
                   (UploadSession.status upload)))
        end
  | _, _ => (w, Raise (HTTPException 404 "Trip or segment not found"))
  end.

Definition head_upload (w : World) (upload_id : UUID) (current_user : User.t)
    : Result Response :=
  match load_upload w upload_id current_user with
  | Raise e => Raise e
  | Ok upload =>
      Ok (mkResponse 204
            [("Upload-Offset", str (UploadSession.offset upload));
             ("Upload-Length", str (UploadSession.upload_length upload))])
  end.

(** The rows written when an upload is finalized with a matching hash:
    the [StoredFile], and the segment's size and hash for a video. *)
Definition record_stored_file (w : World) (upload : UploadSession.t)
    (computed_sha : string) (size : Z) : World :=
  let stored_file :=
    StoredFile.mk (UploadSession.segment_id upload) (UploadSession.file_type upload)
      ("segments" // UploadSession.segment_id upload // UploadSession.filename upload)
      computed_sha size in
  let w := set_stored_files (stored_files w ++ [stored_file]) w in
  match segments w !! UploadSession.segment_id upload with
  | Some segment =>
      let segment :=
        if bool_decide (UploadSession.file_type upload = VIDEO_MP4) then
          Segment.mk (Segment.trip_id segment) (Some size) (Some computed_sha)
        else segment in
      set_segments (<[UploadSession.segment_id upload := segment]> (segments w)) w
  | None => w
  end.

(** [computed_sha != upload.sha256] *)
Definition sha_differs (computed_sha : string) (expected : option string) : bool :=
  match expected with
  | Some s => bool_decide (computed_sha ≠ s)
  | None => true
  end.

(** [upload.sha256 and computed_sha != upload.sha256] *)
Definition sha_given_and_differs (computed_sha : string) (expected : option string)
    : bool :=
  match expected with
  | Some s => bool_decide (s ≠ "") && bool_decide (computed_sha ≠ s)
  | None => false
  end.

Definition patch_upload (w : World) (upload_id : UUID) (body : list byte)
    (current_user : User.t) (upload_offset : Z) (now : Z)
    : World * Result Response :=
  match load_upload w upload_id current_user with
  | Raise e => (w, Raise e)
  | Ok upload =>
      if bool_decide (UploadSession.status upload = COMPLETE) then
        (w, Raise (HTTPException 409 "Upload already complete"))
      else if bool_decide (UploadSession.offset upload ≠ upload_offset) then
        (w, Raise (HTTPException 409 "Offset mismatch"))
      else if bool_decide (body = []) then
        (w, Ok (mkResponse 204
                  [("Upload-Offset", str (UploadSession.offset upload))]))
      else
        let path := Storage.get_upload_path storage_dir upload_id in
        match Storage.write_chunk (fs w) path body (UploadSession.offset upload) with
        | Raise e => (w, Raise e)
        | Ok fs1 =>
            let upload :=
              UploadSession.set_offset (UploadSession.offset upload + len body) upload in
            let upload := UploadSession.set_status RECEIVING upload in
            let upload := UploadSession.set_updated_at now upload in
            let w := set_uploads (<[upload_id := upload]> (uploads w)) (set_fs fs1 w) in
            if bool_decide (UploadSession.offset upload >= UploadSession.upload_length upload)
            then
              let final_path :=
                storage_dir // "segments" // UploadSession.segment_id upload
                            // UploadSession.filename upload in
              match Storage.finalize_upload (fs w) path final_path with
              | Raise e => (w, Raise e)
              | Ok (fs2, (computed_sha, size)) =>
                  let w := set_fs fs2 w in
                  if sha_differs computed_sha (UploadSession.sha256 upload) then
                    let w := set_fs (delete final_path (fs w)) w in
                    let upload := UploadSession.set_status FAILED upload in
                    let w := set_uploads (<[upload_id := upload]> (uploads w)) w in
                    (w, Raise (HTTPException 422 "Checksum mismatch"))
                  else
                    let w := record_stored_file w upload computed_sha size in
                    let upload := UploadSession.set_status COMPLETE upload in
                    let w := set_uploads (<[upload_id := upload]> (uploads w)) w in
                    (w, Ok (mkResponse 204
                              [("Upload-Offset", str (UploadSession.offset upload))]))
              end
            else
              (w, Ok (mkResponse 204
                        [("Upload-Offset", str (UploadSession.offset upload))]))
        end
  end.

(** [direct_put_upload]: the whole body in one request.  The [finally]
    clause removes the temporary file on every path. *)
Definition direct_put_upload (w : World) (upload_id : UUID)
    (stream : list (list byte)) (current_user : User.t)
    : World * Result (list (string * JSON)) :=
  match load_upload w upload_id current_user with
  | Raise e => (w, Raise e)
  | Ok upload =>
      let tmp_path := storage_dir // "uploads" // (upload_id +:+ ".upload") in
      let w := set_fs (<[tmp_path := concat stream]> (fs w)) w in
      let final_path :=
        storage_dir // "segments" // UploadSession.segment_id upload
                    // UploadSession.filename upload in
      match Storage.finalize_upload (fs w) tmp_path final_path with
      | Raise e => (set_fs (delete tmp_path (fs w)) w, Raise e)
      | Ok (fs2, (computed_sha, size)) =>
          let w := set_fs fs2 w in
          if sha_given_and_differs computed_sha (UploadSession.sha256 upload) then
            let w := set_fs (delete final_path (fs w)) w in
            let upload := UploadSession.set_status FAILED upload in
            let w := set_uploads (<[upload_id := upload]> (uploads w)) w in
            (set_fs (delete tmp_path (fs w)) w,
             Raise (HTTPException 422 "Checksum mismatch"))
          else
            let w := record_stored_file w upload computed_sha size in
            let upload := UploadSession.set_status COMPLETE upload in
            let w := set_uploads (<[upload_id := upload]> (uploads w)) w in
            (set_fs (delete tmp_path (fs w)) w,
             Ok [("status", JStr "ok"); ("sha", JStr computed_sha); ("size", JInt size)])
      end
  end.

(** [presign_upload]: the session of [create_upload], answered with the
    path the client is to PUT the body to. *)
Definition presign_upload (w : World) (payload : UploadCreateRequest.t)
    (current_user : User.t) (new_id : UUID) (now : Z)
    : World * Result (list (string * JSON)) :=
  match trips w !! UploadCreateRequest.trip_id payload,
        segments w !! UploadCreateRequest.segment_id payload with
  | Some trip, Some segment =>
      if bool_decide (Segment.trip_id segment ≠ UploadCreateRequest.trip_id payload)
         || bool_decide (Trip.user_id trip ≠ User.id current_user) then
        (w, Raise (HTTPException 404 "Trip or segment not found"))
      else
        match uploads w !! new_id with
        | Some _ => (w, Raise IntegrityError)
        | None =>
            let upload :=
              UploadSession.mk
                (UploadCreateRequest.trip_id payload)
                (UploadCreateRequest.segment_id payload)
                (UploadCreateRequest.filename payload)
                (UploadCreateRequest.file_type payload)
                (UploadCreateRequest.sha256 payload)
                (UploadCreateRequest.upload_length payload)
                UploadSession.default_offset PENDING now in
            (set_uploads (<[new_id := upload]> (uploads w)) w,
             Ok [("id", JStr new_id);
                 ("upload_path", JStr ("/uploads/direct/" +:+ new_id))])
        end
  | _, _ => (w, Raise (HTTPException 404 "Trip or segment not found"))
  end.

(** The size [multipart_upload] asks [file.read] for. *)
Definition read_size : nat := Z.to_nat (1024 * 1024).

(** The loop [while True: chunk = await file.read(1024 * 1024); if not
    chunk: break; out.write(chunk)] of [multipart_upload]: [file] is what is
    left to read, [out] what was written, and each turn of the loop takes
    one unit of [fuel]. *)
Fixpoint copy_file (fuel : nat) (file out : list byte) : list byte :=
  match fuel with
  | O => out
  | S fuel' =>
      let chunk := firstn read_size file in
      if bool_decide (chunk = []) then out
      else copy_file fuel' (skipn read_size file) (out ++ chunk)
  end.

(** [multipart_upload]: the whole file in one form, with no upload session.
    [tmp_name] is the name [tempfile.NamedTemporaryFile] settles on in the
    uploads directory (it names no existing file and ends in [.upload]);
    [file] is the content of the uploaded form field.  The [finally] clause
    removes the temporary file on every path after it was made. *)
Definition multipart_upload (w : World) (file : list byte) (trip_id segment_id : UUID)
    (filename : string) (file_type : FileType) (sha256 : option string)
    (current_user : User.t) (tmp_name : string)
    : World * Result (list (string * JSON)) :=
  match trips w !! trip_id, segments w !! segment_id with
  | Some trip, Some segment =>
      if bool_decide (Segment.trip_id segment ≠ trip_id)
         || bool_decide (Trip.user_id trip ≠ User.id current_user) then
        (w, Raise (HTTPException 404 "Trip or segment not found"))
      else
        let tmp_file := storage_dir // "uploads" // tmp_name in
        let w := set_fs (<[tmp_file := copy_file (S (length file)) file []]> (fs w)) w in
        let final_path := storage_dir // "segments" // segment_id // filename in
        match Storage.finalize_upload (fs w) tmp_file final_path with
        | Raise e => (set_fs (delete tmp_file (fs w)) w, Raise e)
        | Ok (fs2, (computed_sha, size)) =>
            let w := set_fs fs2 w in
            if sha_given_and_differs computed_sha sha256 then
              let w := set_fs (delete final_path (fs w)) w in
              (set_fs (delete tmp_file (fs w)) w,
               Raise (HTTPException 422 "Checksum mismatch"))
            else
              let stored_file :=
                StoredFile.mk segment_id file_type
                  ("segments" // segment_id // filename) computed_sha size in
              let w := set_stored_files (stored_files w ++ [stored_file]) w in
              let w :=
                if bool_decide (file_type = VIDEO_MP4) then
                  set_segments
                    (<[segment_id := Segment.mk (Segment.trip_id segment) (Some size)
                                       (Some computed_sha)]> (segments w)) w
                else w in
              (set_fs (delete tmp_file (fs w)) w,
               Ok [("status", JStr "ok"); ("path", JStr final_path);
                   ("sha", JStr computed_sha); ("size", JInt size)])
        end
  | _, _ => (w, Raise (HTTPException 404 "Trip or segment not found"))
  end.

End Handlers.
End Uploads.

(** ** Sequences of chunk requests *)

(** One [PATCH] of a client: the offset it claims, the bytes it sends and
    the time the server reads from its clock while serving it. *)
Record Call : Type := mkCall {
  claimed_offset : Z;
  payload : list byte;
  served_at : Z
}.

(** The bytes a sequence of calls carries, in order. *)
Definition payloads (calls : list Call) : list byte :=
  concat (map payload calls).

(** The calls claim correct successive offsets from [start] on: each one
    claims the offset the bytes before it add up to. *)
Fixpoint successive (start : Z) (calls : list Call) : Prop :=
  match calls with
  | [] => True
  | c :: rest =>
      claimed_offset c = start ∧ successive (start + Py.len (payload c)) rest
  end.

Global Instance successive_dec start calls : Decision (successive start calls).
Proof.
  revert start. induction calls as [|c rest IH]; intros start; simpl;
    [left; exact I|].
  destruct (decide (claimed_offset c = start)) as [He|Hne].
  - destruct (IH (start + Py.len (payload c))%Z) as [Hs|Hn];
      [left; split; assumption | right; intros [_ H]; exact (Hn H)].
  - right. intros [H _]. exact (Hne H).
Defined.

(** The world after [patch_upload] served the calls one after the other,
    whatever each one returned. *)
Fixpoint accept_chunks (storage_dir : string) (w : World) (upload_id : UUID)
    (current_user : User.t) (calls : list Call) : World :=
  match calls with
  | [] => w
  | c :: rest =>
      accept_chunks storage_dir
        (fst (Uploads.patch_upload storage_dir w upload_id (payload c) current_user
                (claimed_offset c) (served_at c)))
        upload_id current_user rest
  end.

(** The offset and the declared length of a TUS upload, as
    [tus_check_offset] and [tus_upload_chunk] read them from its two files. *)
Definition tus_session (STORAGE_DIR : string) (fs : gmap string (list byte))
    (upload_id : string) : option (Z * Z) :=
  match fs !! Tus.get_upload_path STORAGE_DIR upload_id,
        fs !! Tus.get_metadata_path STORAGE_DIR upload_id with
  | Some data, Some meta =>
      (fun n => (Py.len data, n)) <$> Py.int (Py.strip (Py.readline (Py.decode meta)))
  | _, _ => None
  end.

(** The storage after [tus_upload_chunk] served the calls in order, each
    with the protocol's content type. *)
Fixpoint tus_accept_chunks (STORAGE_DIR : string) (fs : gmap string (list byte))
    (upload_id : string) (current_user : User.t) (calls : list Call)
    : gmap string (list byte) :=
  match calls with
  | [] => fs
  | c :: rest =>
      tus_accept_chunks STORAGE_DIR
        (fst (fst (Tus.tus_upload_chunk STORAGE_DIR fs upload_id [payload c]
                     (claimed_offset c) "application/offset+octet-stream"
                     current_user)))
        upload_id current_user rest
  end.

(** ** Names for what a chunk request leaves behind *)

(** The row of a session once [patch_upload] has credited [body] to it
    (lines 91-93 of [uploads.py]). *)
Definition credited (upload : UploadSession.t) (body : list byte) (now : Z)
    : UploadSession.t :=
  UploadSession.set_updated_at now
    (UploadSession.set_status RECEIVING
       (UploadSession.set_offset
          (UploadSession.offset upload + Py.len body)%Z upload)).

(** [settings.storage_dir / "segments" / str(upload.segment_id) / upload.filename] *)
Definition final_path (storage_dir : string) (upload : UploadSession.t) : string :=
  storage_dir // "segments" // UploadSession.segment_id upload
              // UploadSession.filename upload.

(** The [StoredFile] row a finalized upload is recorded as. *)
Definition stored_file_of (upload : UploadSession.t) (sha : string) (size : Z)
    : StoredFile.t :=
  StoredFile.mk (UploadSession.segment_id upload) (UploadSession.file_type upload)
    ("segments" // UploadSession.segment_id upload // UploadSession.filename upload)
    sha size.

(** The bytes of the partial artifact of a session; none before the first
    chunk. *)
Definition partial_artifact (storage_dir : string) (w : World) (upload_id : UUID)
    : list byte :=
  default [] (fs w !! Storage.get_upload_path storage_dir upload_id).

(** A header of the response a handler returned, if it returned one. *)
Definition response_header (name : string) (r : Result Response) : option string :=
  match r with
  | Ok response => header name (headers response)
  | Raise _ => None
  end.

(** Text without any character that [str.strip] removes. *)
Definition no_space (s : string) : Prop :=
  Forall (fun c => Py.is_space c = false) (list_ascii_of_string s).

(** ** A recorded trip with one segment, and two users *)

Module Scenario.
Local Open Scope Z_scope.

Definition storage : string := "storage".
Definition url : string := "http://server/tus/files".
Definition alice : User.t := User.mk "alice".
Definition bob : User.t := User.mk "bob".

Definition world0 : World :=
  mkWorld {[ "trip-1" := Trip.mk "alice" ]}
          {[ "seg-1" := Segment.mk "trip-1" None None ]}
          ∅ [] ∅.

Definition zeros (n : nat) : list byte := repeat "000"%byte n.

Definition request (expected : option string) (upload_length : Z)
    : UploadCreateRequest.t :=
  UploadCreateRequest.mk "trip-1" "seg-1" "ride.mp4" VIDEO_MP4 expected upload_length.

(** Alice's session [upload-1] of ten bytes, just created. *)
Definition created (expected : option string) : World :=
  fst (Uploads.create_upload world0 (request expected 10) alice "upload-1" 100).

(** The hash of ten zero bytes. *)
Definition H10 : string := Eval vm_compute in SHA256.hexdigest (zeros 10).

Definition two_halves : list Call :=
  [mkCall 0 (zeros 5) 101; mkCall 5 (zeros 5) 102].

(** The session after both halves arrived while a different hash was
    expected. *)
Definition failed : World :=
  accept_chunks storage (created (Some "00")) "upload-1" alice two_halves.

(** The session after the first half arrived. *)
Definition half (expected : option string) : World :=
  fst (Uploads.patch_upload storage (created expected) "upload-1" (zeros 5) alice 0 101).

(** Alice's TUS upload of ten bytes, just created, and its id. *)
Definition tus_id : string := Eval vm_compute in Tus.make_upload_id alice 10 None.
Definition tus_created : gmap string (list byte) :=
  fst (Tus.tus_create_upload storage ∅ url 10 None alice).

(** The TUS upload after the first half arrived. *)
Definition tus_half : gmap string (list byte) :=
  fst (fst (Tus.tus_upload_chunk storage tus_created tus_id [zeros 5] 0
              "application/offset+octet-stream" alice)).

(** The session once both halves arrived with the expected hash. *)
Definition completed : World :=
  accept_chunks storage (created (Some H10)) "upload-1" alice two_halves.

(** A name [tempfile] may draw for the temporary file of a multipart upload. *)
Definition tmp_name : string := "tmpk3v9x2qa.upload".

End Scenario.

(** * Properties *)

(** ** The builtins on known values *)

Example sha256_empty :
  SHA256.hexdigest []
  = "e3b0c44298fc1c149afbf4c8996fb92427ae41e4649b934ca495991b7852b855".
Proof. vm_compute. reflexivity. Qed.

Example sha256_abc :
  SHA256.hexdigest (Py.encode "abc")
  = "ba7816bf8f01cfea414140de5dae2223b00361a396177a9cb410ff61f20015ad".
Proof. vm_compute. reflexivity. Qed.

Example sha256_two_blocks :
  SHA256.hexdigest
    (Py.encode "abcdbcdecdefdefgefghfghighijhijkijkljklmklmnlmnomnopnopq")
  = "248d6a61d20638b8e5c026930c3e6039a33ce45964ff2167f6ecedd419db06c1".
Proof. vm_compute. reflexivity. Qed.

Example str_of_ints : map Py.str [0; 10; -12; 1073741824]%Z
                      = ["0"; "10"; "-12"; "1073741824"].
Proof. vm_compute. reflexivity. Qed.

Example int_of_texts :
  map Py.int ["10"; " 42 "; "+5"; "-7"; "007"; ""; "-"; "12a"; "+-5"]
  = [Some 10; Some 42; Some 5; Some (-7); Some 7; None; None; None; None]%Z.
Proof. vm_compute. reflexivity. Qed.

Example readline_first_line :
  Py.readline (Py.decode (Py.encode ("10" +:+ String "010" "filename dmlkZW8=")))
  = "10" +:+ String "010" "".
Proof. vm_compute. reflexivity. Qed.

Example rstrip_slash_url :
  map Py.rstrip_slash ["http://server/tus/files/"; "http://server/tus/files"; "//"]
  = ["http://server/tus/files"; "http://server/tus/files"; ""].
Proof. vm_compute. reflexivity. Qed.

Example make_upload_id_alice :
  Tus.make_upload_id Scenario.alice 10 None = "f7a5d93593f44ca1" ∧
  Tus.make_upload_id Scenario.alice 10 (Some "None") = "f7a5d93593f44ca1".
Proof. vm_compute. split; reflexivity. Qed.

(** ** Lengths, strings and the text of integers *)

Section Basics.
Local Open Scope Z_scope.

Lemma len_nil_inv {A} (l : list A) : Py.len l = 0 → l = [].
Proof. unfold Py.len. destruct l; [done|]. cbn [length]. lia. Qed.

Lemma len_app {A} (l k : list A) : Py.len (l ++ k) = Py.len l + Py.len k.
Proof. unfold Py.len. rewrite length_app. lia. Qed.

Lemma len_nonneg {A} (l : list A) : 0 <= Py.len l.
Proof. unfold Py.len. lia. Qed.

Lemma string_app_inj_l (s a b : string) : s +:+ a = s +:+ b → a = b.
Proof. induction s as [|c s IH]; cbn; [done|]. intros [= H]. auto. Qed.

Lemma string_app_length (a b : string) :
  String.length (a +:+ b) = (String.length a + String.length b)%nat.
Proof. induction a as [|c a IH]; simpl; [done|]. f_equal. exact IH. Qed.

Lemma list_ascii_of_string_app (s t : string) :
  list_ascii_of_string (s +:+ t) = list_ascii_of_string s ++ list_ascii_of_string t.
Proof. induction s as [|c s IH]; simpl; [done|]. f_equal. exact IH. Qed.

Lemma uint_no_space d : no_space (NilEmpty.string_of_uint d).
Proof. induction d; simpl; constructor; done. Qed.

Lemma str_no_space n : no_space (Py.str n).
Proof.
  unfold Py.str. destruct n as [|p|p]; simpl.
  - repeat constructor.
  - unfold NilZero.string_of_uint. destruct (Pos.to_uint p) eqn:E;
      rewrite <- ?E; try apply uint_no_space. repeat constructor.
  - constructor; [done|]. unfold NilZero.string_of_uint.
    destruct (Pos.to_uint p) eqn:E; rewrite <- ?E; try apply uint_no_space.
    repeat constructor.
Qed.

Lemma str_not_plus n : ∀ r, Py.str n ≠ String "+" r.
Proof.
  intros r. unfold Py.str. destruct n as [|p|p]; simpl; [done| |done].
  unfold NilZero.string_of_uint. by destruct (Pos.to_uint p).
Qed.

Lemma lstrip_no_space l :
  Forall (fun c => Py.is_space c = false) l → Py.lstrip l = l.
Proof. destruct 1 as [|c l Hc Hl]; simpl; [done|]. by rewrite Hc. Qed.

Lemma strip_no_space s : no_space s → Py.strip s = s.
Proof.
  intros H. unfold Py.strip. rewrite (lstrip_no_space _ H).
  rewrite lstrip_no_space by (by apply Forall_rev).
  by rewrite rev_involutive, string_of_list_ascii_of_string.
Qed.

Lemma lstrip_line l :
  Forall (fun c => Py.is_space c = false) l →
  Py.lstrip (rev (Py.lstrip (l ++ ["010"%char]))) = rev l.
Proof.
  intros H. destruct H as [|c l Hc Hl]; [done|].
  assert (Hk : Py.lstrip ((c :: l) ++ ["010"%char]) = (c :: l) ++ ["010"%char])
    by (simpl; by rewrite Hc).
  rewrite Hk, rev_app_distr.
  change (rev ["010"%char] ++ rev (c :: l)) with ("010"%char :: rev (c :: l)).
  change (Py.lstrip ("010"%char :: rev (c :: l))) with (Py.lstrip (rev (c :: l))).
  apply lstrip_no_space, Forall_rev. by constructor.
Qed.

Lemma strip_line s : no_space s → Py.strip (s +:+ String "010" EmptyString) = s.
Proof.
  intros H. unfold Py.strip. rewrite list_ascii_of_string_app.
  change (list_ascii_of_string (String "010" EmptyString)) with ["010"%char].
  rewrite lstrip_line by done.
  by rewrite rev_involutive, string_of_list_ascii_of_string.
Qed.

Lemma readline_line s rest :
  no_space s → Py.readline (s +:+ String "010" rest) = s +:+ String "010" EmptyString.
Proof.
  unfold no_space. induction s as [|c s IH]; simpl; intros H.
  - done.
  - inversion H as [|? ? Hc Hs]; subst.
    rewrite bool_decide_eq_false_2 by (intros ->; done). by rewrite IH.
Qed.

(* [int(str(n)) == n] *)
Lemma int_str n : Py.int (Py.str n) = Some n.
Proof.
  unfold Py.int. rewrite strip_no_space by apply str_no_space.
  destruct (Py.str n) as [|c r] eqn:E.
  - exfalso. unfold Py.str in E. destruct n as [|p|p]; simpl in E; try done.
    unfold NilZero.string_of_uint in E. by destruct (Pos.to_uint p).
  - case_bool_decide as Hc; [subst c; by apply str_not_plus in E|].
    rewrite <- E. unfold Py.str. rewrite NilZero.isi.
    + simpl. by rewrite DecimalZ.of_to.
    + destruct n as [|p|p]; simpl; try done. intros [= H].
      by apply DecimalPos.Unsigned.to_uint_nonnil in H.
    + destruct n as [|p|p]; simpl; try done. intros [= H].
      by apply DecimalPos.Unsigned.to_uint_nonnil in H.
Qed.

(* What [tus_create_upload] writes to the metadata file reads back as the
   declared length. *)
Lemma metadata_roundtrip n rest :
  Py.int (Py.strip (Py.readline (Py.decode (Py.encode
    (Py.str n +:+ String "010" EmptyString +:+ rest))))) = Some n.
Proof.
  unfold Py.decode, Py.encode. rewrite string_of_list_byte_of_string.
  change (String "010" EmptyString +:+ rest) with (String "010" rest).
  rewrite readline_line by apply str_no_space.
  rewrite strip_line by apply str_no_space. apply int_str.
Qed.

End Basics.

(** ** The paths of [patch_upload] *)

(* A guard of a handler that is known to hold, or known not to. *)
Ltac guard_holds := rewrite bool_decide_eq_true_2 by (done || lia).
Ltac guard_fails :=
  rewrite bool_decide_eq_false_2
    by (done || lia || (let H := fresh in intros H; by apply H)).

(* The way of [patch_upload] through its checks to the written chunk, for
   a session [Hl] loads. *)
Ltac reach_write Hl :=
  unfold Uploads.patch_upload; rewrite Hl;
  do 3 guard_fails;
  unfold Storage.write_chunk; guard_holds;
  cbn [UploadSession.offset UploadSession.upload_length UploadSession.set_offset
       UploadSession.set_status UploadSession.set_updated_at UploadSession.sha256
       UploadSession.segment_id UploadSession.filename fs set_fs set_uploads].

Section UploadsFacts.
Local Open Scope Z_scope.
Variable storage_dir : string.

Lemma load_upload_Ok w upload_id current_user upload :
  Uploads.load_upload w upload_id current_user = Ok upload ↔
  uploads w !! upload_id = Some upload ∧
  ∃ trip, trips w !! UploadSession.trip_id upload = Some trip ∧
          Trip.user_id trip = User.id current_user.
Proof.
  unfold Uploads.load_upload. split.
  - destruct (uploads w !! upload_id) as [u|]; [|done].
    destruct (trips w !! UploadSession.trip_id u) as [t|] eqn:Ht; [|done].
    case_bool_decide as Hne; [done|]. intros [= <-]. split; [done|].
    exists t. split; [done|].
    by destruct (decide (Trip.user_id t = User.id current_user)).
  - intros [-> (t & -> & Ht)]. by rewrite bool_decide_eq_false_2 by (intros ?; done).
Qed.

Lemma load_upload_owned w upload_id current_user upload trip :
  uploads w !! upload_id = Some upload →
  trips w !! UploadSession.trip_id upload = Some trip →
  Trip.user_id trip = User.id current_user →
  Uploads.load_upload w upload_id current_user = Ok upload.
Proof. intros. apply load_upload_Ok. eauto. Qed.

Lemma load_upload_missing w upload_id current_user :
  uploads w !! upload_id = None →
  Uploads.load_upload w upload_id current_user = Raise NotFound.
Proof. intros H. unfold Uploads.load_upload. by rewrite H. Qed.

Lemma load_upload_not_owner w upload_id current_user upload trip :
  uploads w !! upload_id = Some upload →
  trips w !! UploadSession.trip_id upload = Some trip →
  Trip.user_id trip ≠ User.id current_user →
  Uploads.load_upload w upload_id current_user = Raise NotFound.
Proof.
  intros Hu Ht Hne. unfold Uploads.load_upload. rewrite Hu, Ht.
  by rewrite bool_decide_eq_true_2.
Qed.

Lemma patch_upload_complete w upload_id body current_user upload_offset now upload :
  Uploads.load_upload w upload_id current_user = Ok upload →
  UploadSession.status upload = COMPLETE →
  Uploads.patch_upload storage_dir w upload_id body current_user upload_offset now
  = (w, Raise AlreadyTerminal).
Proof.
  intros Hl Hs. unfold Uploads.patch_upload. rewrite Hl. by guard_holds.
Qed.

Lemma patch_upload_offset_mismatch w upload_id body current_user upload_offset now upload :
  Uploads.load_upload w upload_id current_user = Ok upload →
  UploadSession.status upload ≠ COMPLETE →
  UploadSession.offset upload ≠ upload_offset →
  Uploads.patch_upload storage_dir w upload_id body current_user upload_offset now
  = (w, Raise OffsetConflict).
Proof.
  intros Hl Hs Ho. unfold Uploads.patch_upload. rewrite Hl.
  guard_fails. by guard_holds.
Qed.

Lemma patch_upload_empty w upload_id current_user now upload :
  Uploads.load_upload w upload_id current_user = Ok upload →
  UploadSession.status upload ≠ COMPLETE →
  Uploads.patch_upload storage_dir w upload_id [] current_user
    (UploadSession.offset upload) now
  = (w, Ok (mkResponse 204 [("Upload-Offset", Py.str (UploadSession.offset upload))])).
Proof.
  intros Hl Hs. unfold Uploads.patch_upload. rewrite Hl.
  do 2 guard_fails. by guard_holds.
Qed.

(* A chunk that leaves the upload incomplete. *)
Lemma patch_upload_partial w upload_id body current_user now upload :
  Uploads.load_upload w upload_id current_user = Ok upload →
  UploadSession.status upload ≠ COMPLETE →
  body ≠ [] →
  Py.len (partial_artifact storage_dir w upload_id) = UploadSession.offset upload →
  UploadSession.offset upload + Py.len body < UploadSession.upload_length upload →
  Uploads.patch_upload storage_dir w upload_id body current_user
    (UploadSession.offset upload) now
  = (set_uploads (<[upload_id := credited upload body now]> (uploads w))
       (set_fs (<[Storage.get_upload_path storage_dir upload_id :=
                    partial_artifact storage_dir w upload_id ++ body]> (fs w)) w),
     Ok (mkResponse 204
           [("Upload-Offset", Py.str (UploadSession.offset upload + Py.len body))])).
Proof.
  unfold partial_artifact. intros Hl Hs Hb Hlen Hlt.
  reach_write Hl. by guard_fails.
Qed.

Lemma record_stored_file_fields w upload sha size :
  trips (Uploads.record_stored_file w upload sha size) = trips w ∧
  uploads (Uploads.record_stored_file w upload sha size) = uploads w ∧
  fs (Uploads.record_stored_file w upload sha size) = fs w ∧
  stored_files (Uploads.record_stored_file w upload sha size)
  = stored_files w ++ [stored_file_of upload sha size].
Proof.
  unfold Uploads.record_stored_file. cbn.
  by destruct (segments w !! UploadSession.segment_id upload).
Qed.

(* The chunk that reaches the declared length when the hash check fails. *)
Lemma patch_upload_completing_mismatch w upload_id body current_user now upload :
  Uploads.load_upload w upload_id current_user = Ok upload →
  UploadSession.status upload ≠ COMPLETE →
  body ≠ [] →
  Py.len (partial_artifact storage_dir w upload_id) = UploadSession.offset upload →
  UploadSession.offset upload + Py.len body >= UploadSession.upload_length upload →
  Uploads.sha_differs
    (SHA256.hexdigest (partial_artifact storage_dir w upload_id ++ body))
    (UploadSession.sha256 upload) = true →
  ∃ w',
    Uploads.patch_upload storage_dir w upload_id body current_user
      (UploadSession.offset upload) now = (w', Raise ChecksumMismatch) ∧
    uploads w' = <[upload_id := UploadSession.set_status FAILED (credited upload body now)]>
                   (uploads w) ∧
    trips w' = trips w ∧ segments w' = segments w ∧
    stored_files w' = stored_files w ∧
    fs w' !! final_path storage_dir upload = None.
Proof.
  unfold partial_artifact. intros Hl Hs Hb Hlen Hge Hsha.
  reach_write Hl. guard_holds.
  unfold Storage.finalize_upload. rewrite lookup_insert_eq.
  rewrite Hsha. eexists. split; [reflexivity|]. cbn.
  split; [by rewrite insert_insert_eq|]. repeat split; try done.
  apply lookup_delete_eq.
Qed.

(* The chunk that reaches the declared length when the hash check passes. *)
Lemma patch_upload_completing_match w upload_id body current_user now upload :
  Uploads.load_upload w upload_id current_user = Ok upload →
  UploadSession.status upload ≠ COMPLETE →
  body ≠ [] →
  Py.len (partial_artifact storage_dir w upload_id) = UploadSession.offset upload →
  UploadSession.offset upload + Py.len body >= UploadSession.upload_length upload →
  Uploads.sha_differs
    (SHA256.hexdigest (partial_artifact storage_dir w upload_id ++ body))
    (UploadSession.sha256 upload) = false →
  ∃ w',
    Uploads.patch_upload storage_dir w upload_id body current_user
      (UploadSession.offset upload) now
    = (w', Ok (mkResponse 204
                 [("Upload-Offset", Py.str (UploadSession.offset upload + Py.len body))])) ∧
    uploads w' = <[upload_id := UploadSession.set_status COMPLETE (credited upload body now)]>
                   (uploads w) ∧
    trips w' = trips w ∧
    stored_files w'
    = stored_files w ++
        [stored_file_of upload
           (SHA256.hexdigest (partial_artifact storage_dir w upload_id ++ body))
           (Py.len (partial_artifact storage_dir w upload_id ++ body))] ∧
    fs w' !! final_path storage_dir upload
    = Some (partial_artifact storage_dir w upload_id ++ body).
Proof.
  unfold partial_artifact. intros Hl Hs Hb Hlen Hge Hsha.
  reach_write Hl. guard_holds.
  unfold Storage.finalize_upload. rewrite lookup_insert_eq.
  rewrite Hsha. eexists. split; [reflexivity|].
  match goal with |- context [Uploads.record_stored_file ?w ?u ?s ?n] =>
    destruct (record_stored_file_fields w u s n) as (Ht & Hu & Hf & Hsf) end.
  cbn [uploads set_uploads trips stored_files fs].
  rewrite Ht, Hu, Hf, Hsf. cbn.
  split; [by rewrite insert_insert_eq|]. repeat split; try done.
  apply lookup_insert_eq.
Qed.

Lemma sha_differs_same s : Uploads.sha_differs s (Some s) = false.
Proof. cbn. by rewrite bool_decide_eq_false_2 by (intros H; by apply H). Qed.

(* Once a session is COMPLETE no call changes anything. *)
Lemma accept_chunks_complete calls w upload_id current_user upload :
  Uploads.load_upload w upload_id current_user = Ok upload →
  UploadSession.status upload = COMPLETE →
  accept_chunks storage_dir w upload_id current_user calls = w.
Proof.
  intros Hl Hs. induction calls as [|c rest IH]; [done|].
  cbn [accept_chunks]. by erewrite patch_upload_complete.
Qed.

(* The run of a sequence of calls, from any point of an upload on. *)
Lemma accept_chunks_completes calls : ∀ w upload_id current_user upload trip,
  uploads w !! upload_id = Some upload →
  trips w !! UploadSession.trip_id upload = Some trip →
  Trip.user_id trip = User.id current_user →
  UploadSession.status upload ≠ COMPLETE →
  Py.len (partial_artifact storage_dir w upload_id) = UploadSession.offset upload →
  successive (UploadSession.offset upload) calls →
  UploadSession.offset upload + Py.len (payloads calls)
    = UploadSession.upload_length upload →
  UploadSession.offset upload < UploadSession.upload_length upload →
  UploadSession.sha256 upload
    = Some (SHA256.hexdigest (partial_artifact storage_dir w upload_id ++ payloads calls)) →
  let w' := accept_chunks storage_dir w upload_id current_user calls in
  let content := partial_artifact storage_dir w upload_id ++ payloads calls in
  ∃ upload',
    uploads w' !! upload_id = Some upload' ∧
    UploadSession.status upload' = COMPLETE ∧
    UploadSession.offset upload' = UploadSession.upload_length upload ∧
    fs w' !! final_path storage_dir upload = Some content ∧
    stored_file_of upload (SHA256.hexdigest content) (UploadSession.upload_length upload)
    ∈ stored_files w'.
Proof.
  induction calls as [|c rest IH];
    intros w upload_id current_user upload trip Hu Ht Hown Hs Hlen Hsucc Htot Hlt Hsha.
  { unfold payloads in Htot. cbn in Htot. unfold Py.len in Htot. cbn in Htot. lia. }
  assert (Hl : Uploads.load_upload w upload_id current_user = Ok upload)
    by eauto using load_upload_owned.
  destruct Hsucc as [Hc Hsucc]. cbn [accept_chunks]. rewrite Hc.
  unfold payloads in *. cbn [map concat] in *. fold (payloads rest) in *.
  rewrite len_app in Htot.
  destruct (decide (payload c = [])) as [He|Hne].
  - (* a zero-byte call changes nothing *)
    rewrite He in *. rewrite patch_upload_empty by done. cbn [fst].
    cbn [app] in *. change (Py.len []) with 0 in *. rewrite Z.add_0_r in Hsucc.
    eapply IH; eauto; lia.
  - destruct (decide (UploadSession.offset upload + Py.len (payload c)
                      < UploadSession.upload_length upload)) as [Hpart|Hfull].
    + (* the upload is still incomplete after this chunk *)
      rewrite patch_upload_partial by done. cbn [fst].
      set (w1 := set_uploads _ _).
      assert (Hfs1 : partial_artifact storage_dir w1 upload_id
                     = partial_artifact storage_dir w upload_id ++ payload c).
      { subst w1. unfold partial_artifact at 1. cbn. by rewrite lookup_insert_eq. }
      specialize (IH w1 upload_id current_user
                    (credited upload (payload c) (served_at c)) trip).
      rewrite Hfs1 in IH. rewrite <- (assoc_L (++)) in IH.
      apply IH; clear IH; subst w1; cbn; try done.
      * apply lookup_insert_eq.
      * rewrite len_app. lia.
      * lia.
    + (* this chunk reaches the declared length: the rest carries nothing *)
      pose proof (len_nonneg (payloads rest)) as Hr.
      assert (Hrest : payloads rest = []) by (apply len_nil_inv; lia).
      rewrite Hrest in *. rewrite app_nil_r in *.
      destruct (patch_upload_completing_match w upload_id (payload c) current_user
                  (served_at c) upload) as (w1 & -> & Hu1 & Ht1 & Hsf1 & Hfs1);
        try done; try lia.
      { rewrite Hsha. apply sha_differs_same. }
      cbn [fst].
      erewrite accept_chunks_complete; cycle 1.
      { eapply load_upload_owned; [rewrite Hu1; apply lookup_insert_eq| |done].
        cbn. by rewrite Ht1. }
      { done. }
      eexists. split; [rewrite Hu1; apply lookup_insert_eq|].
      split; [done|]. split; [cbn; lia|]. split; [done|].
      rewrite Hsf1. apply elem_of_app. right. apply list_elem_of_singleton.
      unfold stored_file_of. f_equal. rewrite len_app. lia.
Qed.

End UploadsFacts.

Section UploadsSteps.
Local Open Scope Z_scope.
Variable storage_dir : string.

(* Every call either leaves the world as it was or credits the whole body
   to the session it was loaded for. *)
Lemma patch_upload_step w upload_id body current_user upload_offset now upload w' r :
  uploads w !! upload_id = Some upload →
  Uploads.patch_upload storage_dir w upload_id body current_user upload_offset now
  = (w', r) →
  w' = w ∨
  (Uploads.load_upload w upload_id current_user = Ok upload ∧
   UploadSession.status upload ≠ COMPLETE ∧
   upload_offset = UploadSession.offset upload ∧
   body ≠ [] ∧
   trips w' = trips w ∧
   ∃ s, uploads w'
        = <[upload_id := UploadSession.set_status s (credited upload body now)]>
            (uploads w)).
Proof.
  intros Hu. unfold Uploads.patch_upload.
  destruct (Uploads.load_upload w upload_id current_user) as [u|e] eqn:Hl;
    [|intros [= <- _]; by left].
  pose proof (proj1 (load_upload_Ok _ _ _ _) Hl) as [Hu' _].
  assert (u = upload) as -> by congruence.
  case_bool_decide as Hs; [intros [= <- _]; by left|].
  case_bool_decide as Ho; [intros [= <- _]; by left|].
  case_bool_decide as Hb; [intros [= <- _]; by left|].
  destruct (Storage.write_chunk _ _ _ _) as [fs1|e]; [|intros [= <- _]; by left].
  assert (Hoff : upload_offset = UploadSession.offset upload).
  { destruct (decide (UploadSession.offset upload = upload_offset)); [done|].
    by destruct Ho. }
  cbn [UploadSession.offset UploadSession.upload_length UploadSession.set_offset
       UploadSession.set_status UploadSession.set_updated_at UploadSession.sha256
       UploadSession.segment_id UploadSession.filename fs set_fs set_uploads].
  case_bool_decide as Hge.
  - destruct (Storage.finalize_upload _ _ _) as [[fs2 [sha size]]|e].
    + destruct (Uploads.sha_differs sha (UploadSession.sha256 upload)).
      * intros [= <- _]. right. repeat split; try done.
        exists FAILED. cbn. by rewrite insert_insert_eq.
      * intros [= <- _]. right.
        match goal with |- context [Uploads.record_stored_file ?w ?u ?s ?n] =>
          destruct (record_stored_file_fields w u s n) as (Ht & Hup & Hf & Hsf) end.
        repeat split; try done.
        exists COMPLETE. cbn [uploads set_uploads]. rewrite Hup. cbn.
        by rewrite insert_insert_eq.
    + intros [= <- _]. right. repeat split; try done. by exists RECEIVING.
  - intros [= <- _]. right. repeat split; try done. by exists RECEIVING.
Qed.

(* Only the hash check of the finalization raises a checksum mismatch. *)
Lemma patch_upload_mismatch_inv w upload_id body current_user upload_offset now upload w' :
  uploads w !! upload_id = Some upload →
  Uploads.patch_upload storage_dir w upload_id body current_user upload_offset now
  = (w', Raise ChecksumMismatch) →
  uploads w' = <[upload_id := UploadSession.set_status FAILED (credited upload body now)]>
                 (uploads w) ∧
  trips w' = trips w ∧
  stored_files w' = stored_files w ∧
  fs w' !! final_path storage_dir upload = None ∧
  Uploads.load_upload w upload_id current_user = Ok upload ∧
  UploadSession.offset upload + Py.len body >= UploadSession.upload_length upload.
Proof.
  intros Hu. unfold Uploads.patch_upload.
  destruct (Uploads.load_upload w upload_id current_user) as [u|e] eqn:Hl.
  2:{ intros [= <- He]. unfold Uploads.load_upload in Hl. rewrite Hu in Hl.
      destruct (trips w !! _); [|by simplify_eq].
      case_bool_decide; simplify_eq. }
  pose proof (proj1 (load_upload_Ok _ _ _ _) Hl) as [Hu' _].
  assert (u = upload) as -> by congruence.
  case_bool_decide as Hs; [intros [=]|].
  case_bool_decide as Ho; [intros [=]|].
  case_bool_decide as Hb; [intros [=]|].
  unfold Storage.write_chunk. case_bool_decide; [|intros [=]].
  cbn [UploadSession.offset UploadSession.upload_length UploadSession.set_offset
       UploadSession.set_status UploadSession.set_updated_at UploadSession.sha256
       UploadSession.segment_id UploadSession.filename fs set_fs set_uploads].
  case_bool_decide as Hge; [|intros [=]].
  unfold Storage.finalize_upload. rewrite lookup_insert_eq.
  destruct (Uploads.sha_differs _ _); [|intros [=]].
  intros [= <-]. cbn. rewrite insert_insert_eq. repeat split; try done.
  apply lookup_delete_eq.
Qed.

End UploadsSteps.

(** ** The paths of the TUS handlers *)

Section TusFacts.
Local Open Scope Z_scope.
Variable STORAGE_DIR : string.

Lemma upload_path_ne_metadata_path upload_id :
  Tus.get_upload_path STORAGE_DIR upload_id ≠ Tus.get_metadata_path STORAGE_DIR upload_id.
Proof.
  unfold Tus.get_upload_path, Tus.get_metadata_path, path_join.
  intros H. apply string_app_inj_l in H.
  apply (f_equal String.length) in H. rewrite !string_app_length in H.
  simpl in H. lia.
Qed.

Lemma write_stream_spec (stream : list (list byte)) : ∀ (data : list byte) n,
  fold_left (fun '(f, bytes_written) chunk => (f ++ chunk, bytes_written + Py.len chunk))
    stream (data, n)
  = (data ++ concat stream, n + Py.len (concat stream)).
Proof.
  induction stream as [|c r IH]; intros data n; cbn.
  - rewrite app_nil_r. unfold Py.len. cbn. f_equal. lia.
  - rewrite IH. rewrite <- (assoc_L (++)). f_equal.
    unfold Py.len. rewrite length_app. lia.
Qed.

Lemma write_stream_file data stream :
  Tus.write_stream data stream = (data ++ concat stream, Py.len (concat stream)).
Proof. unfold Tus.write_stream. by rewrite write_stream_spec. Qed.

Lemma tus_session_Some fs upload_id offset declared :
  tus_session STORAGE_DIR fs upload_id = Some (offset, declared) ↔
  ∃ data meta,
    fs !! Tus.get_upload_path STORAGE_DIR upload_id = Some data ∧
    fs !! Tus.get_metadata_path STORAGE_DIR upload_id = Some meta ∧
    Py.int (Py.strip (Py.readline (Py.decode meta))) = Some declared ∧
    offset = Py.len data.
Proof.
  unfold tus_session. split.
  - destruct (fs !! Tus.get_upload_path _ _) as [data|]; [|done].
    destruct (fs !! Tus.get_metadata_path _ _) as [meta|]; [|done].
    destruct (Py.int _) as [n|] eqn:Hn; [|done]. intros [= <- <-]. eauto 10.
  - intros (data & meta & -> & -> & -> & ->). done.
Qed.

Lemma tus_upload_chunk_accepts fs upload_id stream current_user data declared :
  fs !! Tus.get_upload_path STORAGE_DIR upload_id = Some data →
  tus_session STORAGE_DIR fs upload_id = Some (Py.len data, declared) →
  Tus.tus_upload_chunk STORAGE_DIR fs upload_id stream (Py.len data)
    "application/offset+octet-stream" current_user
  = (<[Tus.get_upload_path STORAGE_DIR upload_id := data ++ concat stream]> fs,
     if bool_decide (Py.len (data ++ concat stream) >= declared) then
       ["Upload " +:+ upload_id +:+ " complete: "
        +:+ Py.str (Py.len (data ++ concat stream)) +:+ " bytes"]
     else [],
     Ok (mkResponse 204
           [("Tus-Resumable", Tus.TUS_VERSION);
            ("Upload-Offset", Py.str (Py.len (data ++ concat stream)));
            ("Access-Control-Expose-Headers", "Upload-Offset")])).
Proof.
  intros Hd Hs. apply tus_session_Some in Hs as (data' & meta & Hd' & Hm & Hp & _).
  unfold Tus.tus_upload_chunk. rewrite Hd, Hm.
  do 2 guard_fails. by rewrite Hp, write_stream_file.
Qed.

Lemma tus_upload_chunk_conflict fs upload_id stream current_user upload_offset
    offset declared :
  tus_session STORAGE_DIR fs upload_id = Some (offset, declared) →
  offset ≠ upload_offset →
  Tus.tus_upload_chunk STORAGE_DIR fs upload_id stream upload_offset
    "application/offset+octet-stream" current_user
  = (fs, [],
     Raise (HTTPException 409
              ("Upload offset mismatch. Expected " +:+ Py.str offset
               +:+ ", got " +:+ Py.str upload_offset))).
Proof.
  intros Hs Hne. apply tus_session_Some in Hs as (data & meta & Hd & Hm & Hp & ->).
  unfold Tus.tus_upload_chunk. rewrite Hd, Hm.
  guard_fails. by guard_holds.
Qed.

Lemma tus_session_after_chunk fs upload_id (data' : list byte) offset declared :
  tus_session STORAGE_DIR fs upload_id = Some (offset, declared) →
  tus_session STORAGE_DIR
    (<[Tus.get_upload_path STORAGE_DIR upload_id := data']> fs) upload_id
  = Some (Py.len data', declared).
Proof.
  intros Hs. apply tus_session_Some in Hs as (d & meta & Hd & Hm & Hp & ->).
  apply tus_session_Some. exists data', meta.
  rewrite lookup_insert_eq, lookup_insert_ne by apply upload_path_ne_metadata_path.
  done.
Qed.

(* The data file after a sequence of calls with successive offsets. *)
Lemma tus_accept_chunks_content calls : ∀ fs upload_id current_user data declared,
  fs !! Tus.get_upload_path STORAGE_DIR upload_id = Some data →
  tus_session STORAGE_DIR fs upload_id = Some (Py.len data, declared) →
  successive (Py.len data) calls →
  let fs' := tus_accept_chunks STORAGE_DIR fs upload_id current_user calls in
  fs' !! Tus.get_upload_path STORAGE_DIR upload_id = Some (data ++ payloads calls) ∧
  tus_session STORAGE_DIR fs' upload_id
  = Some (Py.len data + Py.len (payloads calls), declared).
Proof.
  induction calls as [|c rest IH];
    intros fs upload_id current_user data declared Hd Hs Hsucc.
  - cbn. unfold payloads. cbn. rewrite app_nil_r. split; [done|].
    rewrite Hs. do 2 f_equal. unfold Py.len. cbn. lia.
  - destruct Hsucc as [Hc Hsucc]. cbn [tus_accept_chunks]. rewrite Hc.
    erewrite tus_upload_chunk_accepts by done. cbn [fst concat]. rewrite app_nil_r.
    unfold payloads. cbn [map concat]. fold (payloads rest).
    specialize (IH (<[Tus.get_upload_path STORAGE_DIR upload_id := data ++ payload c]> fs)
                   upload_id current_user (data ++ payload c) declared).
    destruct IH as [IH1 IH2].
    + apply lookup_insert_eq.
    + eapply tus_session_after_chunk; eauto.
    + unfold Py.len in *. rewrite length_app. by rewrite Nat2Z.inj_add.
    + rewrite IH1, IH2. rewrite <- (assoc_L (++)). split; [done|].
      do 2 f_equal. unfold Py.len. rewrite !length_app. lia.
Qed.

(* The session [tus_create_upload] leaves: the declared length it was
   given, at the size of whatever data file was already there. *)
Lemma tus_create_upload_session fs request_url upload_length upload_metadata current_user :
  upload_length <= Tus.MAX_FILE_SIZE →
  let upload_id := Tus.make_upload_id current_user upload_length upload_metadata in
  ∃ fs' location,
    Tus.tus_create_upload STORAGE_DIR fs request_url upload_length upload_metadata
      current_user
    = (fs', Ok (mkResponse 201
                  [("Tus-Resumable", Tus.TUS_VERSION);
                   ("Location", location);
                   ("Upload-Offset", "0");
                   ("Access-Control-Expose-Headers", "Location, Upload-Offset")])) ∧
    location = Py.rstrip_slash request_url +:+ "/" +:+ upload_id ∧
    tus_session STORAGE_DIR fs' upload_id
    = Some (Py.len (default [] (fs !! Tus.get_upload_path STORAGE_DIR upload_id)),
            upload_length).
Proof.
  intros Hle upload_id. unfold Tus.tus_create_upload.
  rewrite bool_decide_eq_false_2 by lia. fold upload_id.
  do 2 eexists. split; [reflexivity|]. split; [done|].
  apply tus_session_Some. unfold Tus.touch.
  rewrite (lookup_insert_ne _ (Tus.get_metadata_path STORAGE_DIR upload_id))
    by (intros H; symmetry in H; by apply upload_path_ne_metadata_path in H).
  destruct (fs !! Tus.get_upload_path STORAGE_DIR upload_id) as [data|] eqn:Hd.
  - exists data. eexists.
    rewrite lookup_insert_ne
      by (intros H; symmetry in H; by apply upload_path_ne_metadata_path in H).
    rewrite Hd, lookup_insert_eq. repeat split; try done.
    apply metadata_roundtrip.
  - exists []. eexists. rewrite lookup_insert_eq.
    rewrite lookup_insert_ne by apply upload_path_ne_metadata_path.
    rewrite lookup_insert_eq. repeat split; try done.
    apply metadata_roundtrip.
Qed.

End TusFacts.

(** ** Whole uploads: the stored artifact *)

Section Claims.
Local Open Scope Z_scope.

(** C1, as stated, fails: both halves of a ten-byte upload arrive at
    correct successive offsets, the session expected another hash, and it
    ends FAILED with nothing stored. *)
Lemma accept_chunks_hash_mismatch_fails :
  successive 0 Scenario.two_halves ∧
  Py.len (payloads Scenario.two_halves) = 10 ∧
  UploadSession.upload_length <$> uploads (Scenario.created (Some "00")) !! "upload-1"
    = Some 10 ∧
  UploadSession.status <$> uploads Scenario.failed !! "upload-1" = Some FAILED ∧
  stored_files Scenario.failed = [] ∧
  fs Scenario.failed = ∅.
Proof. vm_compute. repeat split; reflexivity. Qed.

(* Calls that carry no byte at all leave the world as it was: each one
   returns before anything is written, credited or finalized. *)
Lemma accept_chunks_zero_length storage_dir w upload_id current_user calls :
  Py.len (payloads calls) = 0 →
  accept_chunks storage_dir w upload_id current_user calls = w.
Proof.
  intros Hlen. apply len_nil_inv in Hlen. revert w.
  induction calls as [|c rest IH]; intros w; [done|].
  unfold payloads in Hlen. cbn [map concat] in Hlen.
  apply app_eq_nil in Hlen as [Hc Hrest].
  cbn [accept_chunks]. rewrite Hc.
  replace (fst (Uploads.patch_upload storage_dir w upload_id [] current_user
                  (claimed_offset c) (served_at c))) with w; [by apply IH|].
  unfold Uploads.patch_upload.
  destruct (Uploads.load_upload w upload_id current_user) as [upload|e]; [|done].
  cbn. by repeat case_bool_decide.
Qed.

(** C1, as stated, fails for a declared length of zero as well: the calls
    that total zero bytes are the empty sequence and empty chunks, and these
    never reach the finalizer; the session stays PENDING with nothing
    stored, even when the hash of the empty file was expected. *)
Lemma zero_length_session_is_never_finalized :
  let w := fst (Uploads.create_upload Scenario.world0
                  (Scenario.request (Some (SHA256.hexdigest [])) 0) Scenario.alice
                  "upload-1" 100) in
  let calls := [mkCall 0 [] 101] in
  successive 0 calls ∧
  Py.len (payloads calls) = 0 ∧
  UploadSession.upload_length <$> uploads w !! "upload-1" = Some 0 ∧
  accept_chunks Scenario.storage w "upload-1" Scenario.alice calls = w ∧
  accept_chunks Scenario.storage w "upload-1" Scenario.alice [] = w ∧
  UploadSession.status <$> uploads w !! "upload-1" = Some PENDING ∧
  stored_files w = [] ∧
  fs w = ∅.
Proof. vm_compute. repeat split; reflexivity. Qed.

(** C1, as stated, fails for the TUS handler: when both halves of a
    ten-byte upload have arrived, [tus_upload_chunk] has logged the upload as
    complete and done nothing else.  The storage holds the two files of the
    upload and no other: the bytes stay in the data file under [uploads],
    and nothing records a hash, a size or a status. *)
Lemma tus_complete_upload_is_not_finalized :
  tus_session Scenario.storage Scenario.tus_created Scenario.tus_id = Some (0, 10) ∧
  successive 0 Scenario.two_halves ∧
  Py.len (payloads Scenario.two_halves) = 10 ∧
  snd (fst (Tus.tus_upload_chunk Scenario.storage Scenario.tus_half Scenario.tus_id
              [Scenario.zeros 5] 5 "application/offset+octet-stream" Scenario.alice))
  = ["Upload " +:+ Scenario.tus_id +:+ " complete: 10 bytes"] ∧
  tus_accept_chunks Scenario.storage Scenario.tus_created Scenario.tus_id
    Scenario.alice Scenario.two_halves
  = <[Tus.get_upload_path Scenario.storage Scenario.tus_id := Scenario.zeros 10]>
      Scenario.tus_created ∧
  dom (tus_accept_chunks Scenario.storage Scenario.tus_created Scenario.tus_id
         Scenario.alice Scenario.two_halves)
  = {[ Tus.get_upload_path Scenario.storage Scenario.tus_id;
       Tus.get_metadata_path Scenario.storage Scenario.tus_id ]}.
Proof. vm_compute. repeat split; reflexivity. Qed.

(** C1 (amended): for every sequence of calls with correct successive
    offsets whose payloads total exactly the declared length, on a fresh
    session (PENDING, offset 0, nothing written) of positive declared length
    whose file name is a plain name and whose expected hash is the hash of
    the concatenated payloads, [patch_upload] finalizes: the session ends
    COMPLETE at the declared length, and the stored artifact and its
    recorded [StoredFile] carry the bytes, the size and the hash of the
    concatenation of the payloads in order.  The TUS handler has no
    finalization: after such a sequence its data file holds that
    concatenation and its offset is the declared length. *)
Theorem accept_chunks_stores_concatenation :
  (∀ storage_dir w upload_id current_user calls upload trip,
     uploads w !! upload_id = Some upload →
     trips w !! UploadSession.trip_id upload = Some trip →
     Trip.user_id trip = User.id current_user →
     UploadSession.status upload = PENDING →
     UploadSession.offset upload = 0 →
     fs w !! Storage.get_upload_path storage_dir upload_id = None →
     Pathlib.plain_name (UploadSession.filename upload) = true →
     successive 0 calls →
     Py.len (payloads calls) = UploadSession.upload_length upload →
     0 < UploadSession.upload_length upload →
     UploadSession.sha256 upload = Some (SHA256.hexdigest (payloads calls)) →
     let w' := accept_chunks storage_dir w upload_id current_user calls in
     ∃ upload',
       uploads w' !! upload_id = Some upload' ∧
       UploadSession.status upload' = COMPLETE ∧
       UploadSession.offset upload' = UploadSession.upload_length upload ∧
       fs w' !! final_path storage_dir upload = Some (payloads calls) ∧
       stored_file_of upload (SHA256.hexdigest (payloads calls))
         (UploadSession.upload_length upload) ∈ stored_files w') ∧
  (∀ STORAGE_DIR fs upload_id current_user calls declared,
     fs !! Tus.get_upload_path STORAGE_DIR upload_id = Some [] →
     tus_session STORAGE_DIR fs upload_id = Some (0, declared) →
     successive 0 calls →
     Py.len (payloads calls) = declared →
     let fs' := tus_accept_chunks STORAGE_DIR fs upload_id current_user calls in
     fs' !! Tus.get_upload_path STORAGE_DIR upload_id = Some (payloads calls) ∧
     tus_session STORAGE_DIR fs' upload_id = Some (declared, declared)).
Proof.
  split.
  - intros storage_dir w upload_id current_user calls upload trip
      Hu Ht Hown Hs Ho Hfs Hname Hsucc Htot Hpos Hsha.
    assert (Hpa : partial_artifact storage_dir w upload_id = [])
      by (unfold partial_artifact; by rewrite Hfs).
    pose proof (accept_chunks_completes storage_dir calls w upload_id current_user
                  upload trip Hu Ht Hown) as H.
    rewrite Hpa in H. cbn [app] in H. apply H.
    + by rewrite Hs.
    + by rewrite Ho.
    + by rewrite Ho.
    + lia.
    + lia.
    + done.
  - intros STORAGE_DIR fs upload_id current_user calls declared Hd Hs Hsucc Htot.
    destruct (tus_accept_chunks_content STORAGE_DIR calls fs upload_id current_user
                [] declared Hd Hs Hsucc) as [H1 H2].
    cbn [app] in H1. split; [done|]. rewrite H2.
    change (Py.len []) with 0. by rewrite Z.add_0_l, Htot.
Qed.

(** C1, witness: the scenario of the specification, ten zero bytes in two
    halves with the expected hash of ten zero bytes, on both handlers. *)
Lemma accept_chunks_stores_concatenation_witness :
  (∃ upload',
     uploads (accept_chunks Scenario.storage (Scenario.created (Some Scenario.H10))
                "upload-1" Scenario.alice Scenario.two_halves) !! "upload-1"
     = Some upload' ∧
     UploadSession.status upload' = COMPLETE ∧
     UploadSession.offset upload' = 10 ∧
     fs (accept_chunks Scenario.storage (Scenario.created (Some Scenario.H10))
           "upload-1" Scenario.alice Scenario.two_halves)
       !! "storage/segments/seg-1/ride.mp4"
     = Some (Scenario.zeros 10) ∧
     StoredFile.mk "seg-1" VIDEO_MP4 "segments/seg-1/ride.mp4" Scenario.H10 10
     ∈ stored_files (accept_chunks Scenario.storage (Scenario.created (Some Scenario.H10))
                       "upload-1" Scenario.alice Scenario.two_halves)) ∧
  (tus_accept_chunks Scenario.storage Scenario.tus_created Scenario.tus_id
     Scenario.alice Scenario.two_halves
     !! Tus.get_upload_path Scenario.storage Scenario.tus_id
   = Some (Scenario.zeros 10) ∧
   tus_session Scenario.storage
     (tus_accept_chunks Scenario.storage Scenario.tus_created Scenario.tus_id
        Scenario.alice Scenario.two_halves) Scenario.tus_id
   = Some (10, 10)).
Proof.
  split.
  - apply (proj1 accept_chunks_stores_concatenation Scenario.storage
             (Scenario.created (Some Scenario.H10)) "upload-1" Scenario.alice
             Scenario.two_halves
             (UploadSession.mk "trip-1" "seg-1" "ride.mp4" VIDEO_MP4
                (Some Scenario.H10) 10 0 PENDING 100)
             (Trip.mk "alice"));
      vm_compute; try reflexivity; auto.
  - apply (proj2 accept_chunks_stores_concatenation Scenario.storage
             Scenario.tus_created Scenario.tus_id Scenario.alice
             Scenario.two_halves 10);
      vm_compute; try reflexivity; auto.
Defined.

(** ** The offset invariant *)

(** C2, as stated, fails: a first chunk of twelve bytes on a session that
    declared ten is credited whole, and the offset passes the declared
    length. *)
Lemma patch_upload_overshoots_declared_length :
  (fun u => (UploadSession.offset u, UploadSession.upload_length u))
    <$> uploads (fst (Uploads.patch_upload Scenario.storage
                        (Scenario.created (Some Scenario.H10)) "upload-1"
                        (Scenario.zeros 12) Scenario.alice 0 101)) !! "upload-1"
  = Some (12, 10).
Proof. vm_compute. reflexivity. Qed.

(** C2 (amended): a session is created at offset 0; every [patch_upload]
    (finalization included) keeps the session, keeps its declared length,
    never decreases its offset and keeps it non-negative, and the new offset
    is the old one or the old one plus the whole payload; the bound
    [offset <= declared length] is preserved when the payload fits in what
    remains.  The offset of a TUS upload, the size of its data file, never
    decreases either. *)
Theorem received_offset_invariant :
  (∀ w payload current_user new_id now w' r,
     Uploads.create_upload w payload current_user new_id now = (w', Ok r) →
     UploadRead.offset r = 0 ∧
     UploadSession.offset <$> uploads w' !! new_id = Some 0) ∧
  (∀ storage_dir w upload_id body current_user upload_offset now upload,
     uploads w !! upload_id = Some upload →
     ∃ upload',
       uploads (fst (Uploads.patch_upload storage_dir w upload_id body current_user
                       upload_offset now)) !! upload_id = Some upload' ∧
       UploadSession.upload_length upload' = UploadSession.upload_length upload ∧
       UploadSession.offset upload <= UploadSession.offset upload' ∧
       (UploadSession.offset upload' = UploadSession.offset upload ∨
        UploadSession.offset upload' = UploadSession.offset upload + Py.len body) ∧
       (0 <= UploadSession.offset upload → 0 <= UploadSession.offset upload') ∧
       (UploadSession.offset upload <= UploadSession.upload_length upload →
        UploadSession.offset upload + Py.len body <= UploadSession.upload_length upload →
        UploadSession.offset upload' <= UploadSession.upload_length upload')) ∧
  (∀ STORAGE_DIR fs upload_id stream upload_offset content_type current_user offset,
     Tus.received_offset STORAGE_DIR fs upload_id = Some offset →
     ∃ offset',
       Tus.received_offset STORAGE_DIR
         (fst (fst (Tus.tus_upload_chunk STORAGE_DIR fs upload_id stream upload_offset
                      content_type current_user))) upload_id = Some offset' ∧
       0 <= offset <= offset').
Proof.
  split; [|split].
  - intros w payload current_user new_id now w' r. unfold Uploads.create_upload.
    destruct (trips w !! _); [|intros [=]].
    destruct (segments w !! _); [|intros [=]].
    destruct (_ || _); [intros [=]|].
    destruct (uploads w !! new_id); [intros [=]|].
    intros [= <- <-]. cbn. by rewrite lookup_insert_eq.
  - intros storage_dir w upload_id body current_user upload_offset now upload Hu.
    destruct (Uploads.patch_upload storage_dir w upload_id body current_user
                upload_offset now) as [w' r] eqn:Hp.
    pose proof (len_nonneg body) as Hb.
    destruct (patch_upload_step storage_dir _ _ _ _ _ _ _ _ _ Hu Hp)
      as [->|(_ & _ & _ & _ & _ & s & Hup)]; cbn [fst].
    + exists upload. repeat split; auto; lia.
    + eexists. rewrite Hup, lookup_insert_eq. split; [done|]. cbn.
      repeat split; auto; lia.
  - intros STORAGE_DIR fs upload_id stream upload_offset content_type current_user
      offset. unfold Tus.received_offset, Tus.tus_upload_chunk.
    destruct (fs !! Tus.get_upload_path STORAGE_DIR upload_id) as [data|] eqn:Hd;
      [|done].
    intros [= <-]. pose proof (len_nonneg data) as Hn.
    destruct (fs !! Tus.get_metadata_path STORAGE_DIR upload_id);
      [|cbn; rewrite Hd; eauto with lia].
    case_bool_decide; [cbn; rewrite Hd; eauto with lia|].
    case_bool_decide; [cbn; rewrite Hd; eauto with lia|].
    destruct (Py.int _); [|cbn; rewrite Hd; eauto with lia].
    rewrite write_stream_file. cbn. rewrite lookup_insert_eq. cbn.
    eexists. split; [done|]. rewrite len_app.
    pose proof (len_nonneg (concat stream)). lia.
Qed.

(** C2, witness: the first half of the ten-byte scenario, on both handlers. *)
Lemma received_offset_invariant_witness :
  (UploadRead.offset
     (UploadRead.mk "upload-1" "trip-1" "seg-1" "ride.mp4" VIDEO_MP4
        (Some Scenario.H10) 10 0 PENDING) = 0 ∧
   UploadSession.offset <$> uploads (Scenario.created (Some Scenario.H10)) !! "upload-1"
   = Some 0) ∧
  (∃ upload',
     uploads (fst (Uploads.patch_upload Scenario.storage
                     (Scenario.created (Some Scenario.H10)) "upload-1"
                     (Scenario.zeros 5) Scenario.alice 0 101)) !! "upload-1"
     = Some upload' ∧
     UploadSession.upload_length upload' = 10 ∧
     0 <= UploadSession.offset upload' ∧
     (UploadSession.offset upload' = 0 ∨ UploadSession.offset upload' = 0 + 5) ∧
     (0 <= 0 → 0 <= UploadSession.offset upload') ∧
     (0 <= 10 → 0 + 5 <= 10 →
      UploadSession.offset upload' <= UploadSession.upload_length upload')) ∧
  (∃ offset',
     Tus.received_offset Scenario.storage
       (fst (fst (Tus.tus_upload_chunk Scenario.storage Scenario.tus_created
                    Scenario.tus_id [Scenario.zeros 5] 0
                    "application/offset+octet-stream" Scenario.alice)))
       Scenario.tus_id = Some offset' ∧
     0 <= 0 <= offset').
Proof.
  split; [|split].
  - refine (proj1 received_offset_invariant Scenario.world0
              (Scenario.request (Some Scenario.H10) 10) Scenario.alice "upload-1" 100
              (Scenario.created (Some Scenario.H10))
              (UploadRead.mk "upload-1" "trip-1" "seg-1" "ride.mp4" VIDEO_MP4
                 (Some Scenario.H10) 10 0 PENDING) _).
    vm_compute. reflexivity.
  - refine (proj1 (proj2 received_offset_invariant) Scenario.storage
              (Scenario.created (Some Scenario.H10)) "upload-1" (Scenario.zeros 5)
              Scenario.alice 0 101
              (UploadSession.mk "trip-1" "seg-1" "ride.mp4" VIDEO_MP4
                 (Some Scenario.H10) 10 0 PENDING 100) _).
    vm_compute. reflexivity.
  - refine (proj2 (proj2 received_offset_invariant) Scenario.storage
              Scenario.tus_created Scenario.tus_id [Scenario.zeros 5] 0
              "application/offset+octet-stream" Scenario.alice 0 _).
    vm_compute. reflexivity.
Defined.

(** ** Terminal sessions *)

(* A COMPLETE session rejects every call and is left as it was. *)
Lemma complete_session_rejects_chunks storage_dir w upload_id body current_user
    upload_offset now upload trip :
  uploads w !! upload_id = Some upload →
  trips w !! UploadSession.trip_id upload = Some trip →
  Trip.user_id trip = User.id current_user →
  UploadSession.status upload = COMPLETE →
  Uploads.patch_upload storage_dir w upload_id body current_user upload_offset now
  = (w, Raise AlreadyTerminal).
Proof. intros. eapply patch_upload_complete; eauto using load_upload_owned. Qed.

(** C3: the code departs from the claim on FAILED sessions.  The session
    of [Scenario.failed] is FAILED at offset 10; a zero-byte call at offset 10
    succeeds, a call at a stale offset is answered with an offset conflict,
    and neither is answered with [AlreadyTerminal]. *)
Theorem failed_session_is_not_terminal :
  UploadSession.status <$> uploads Scenario.failed !! "upload-1" = Some FAILED ∧
  Uploads.patch_upload Scenario.storage Scenario.failed "upload-1" []
    Scenario.alice 10 103
  = (Scenario.failed, Ok (mkResponse 204 [("Upload-Offset", "10")])) ∧
  Uploads.patch_upload Scenario.storage Scenario.failed "upload-1" (Scenario.zeros 5)
    Scenario.alice 5 103
  = (Scenario.failed, Raise OffsetConflict).
Proof. vm_compute. repeat split; reflexivity. Qed.

(* A session that a direct PUT left FAILED at offset 0 takes chunks again:
   the bytes are written and the session is RECEIVING. *)
Lemma failed_session_accepts_bytes :
  let w1 := fst (Uploads.direct_put_upload Scenario.storage
                   (Scenario.created (Some "00")) "upload-1" [Scenario.zeros 10]
                   Scenario.alice) in
  let w2 := fst (Uploads.patch_upload Scenario.storage w1 "upload-1" (Scenario.zeros 5)
                   Scenario.alice 0 103) in
  UploadSession.status <$> uploads w1 !! "upload-1" = Some FAILED ∧
  UploadSession.status <$> uploads w2 !! "upload-1" = Some RECEIVING ∧
  fs w2 !! "storage/uploads/upload-1" = Some (Scenario.zeros 5).
Proof. vm_compute. repeat split; reflexivity. Qed.

(** ** Stale offsets *)

(** C4: on a session that is neither COMPLETE nor FAILED, a call whose
    claimed offset differs from the session's offset fails with
    [OffsetConflict] and the world, offset and partial artifact included, is
    left as it was; so does the identical resend of a call that advanced the
    offset.  [tus_upload_chunk], asked with the protocol's content type,
    answers a stale offset with its 409 and leaves the storage as it was. *)
Theorem stale_offset_is_rejected :
  (∀ storage_dir w upload_id body current_user upload_offset now upload trip,
     uploads w !! upload_id = Some upload →
     trips w !! UploadSession.trip_id upload = Some trip →
     Trip.user_id trip = User.id current_user →
     UploadSession.status upload ≠ COMPLETE →
     UploadSession.status upload ≠ FAILED →
     upload_offset ≠ UploadSession.offset upload →
     Uploads.patch_upload storage_dir w upload_id body current_user upload_offset now
     = (w, Raise OffsetConflict)) ∧
  (∀ storage_dir w upload_id body current_user upload_offset now now' upload w' r
     upload',
     uploads w !! upload_id = Some upload →
     Uploads.patch_upload storage_dir w upload_id body current_user upload_offset now
     = (w', r) →
     uploads w' !! upload_id = Some upload' →
     UploadSession.offset upload' ≠ UploadSession.offset upload →
     UploadSession.status upload' ≠ COMPLETE →
     UploadSession.status upload' ≠ FAILED →
     Uploads.patch_upload storage_dir w' upload_id body current_user upload_offset now'
     = (w', Raise OffsetConflict)) ∧
  (∀ STORAGE_DIR fs upload_id stream current_user upload_offset offset declared,
     tus_session STORAGE_DIR fs upload_id = Some (offset, declared) →
     upload_offset ≠ offset →
     Tus.tus_upload_chunk STORAGE_DIR fs upload_id stream upload_offset
       "application/offset+octet-stream" current_user
     = (fs, [],
        Raise (HTTPException 409
                 ("Upload offset mismatch. Expected " +:+ Py.str offset
                  +:+ ", got " +:+ Py.str upload_offset)))).
Proof.
  split; [|split].
  - intros storage_dir w upload_id body current_user upload_offset now upload trip
      Hu Ht Hown Hs _ Ho.
    eapply patch_upload_offset_mismatch; eauto using load_upload_owned.
  - intros storage_dir w upload_id body current_user upload_offset now now' upload
      w' r upload' Hu Hp Hu' Hadv Hs Hf.
    destruct (patch_upload_step storage_dir _ _ _ _ _ _ _ _ _ Hu Hp)
      as [->|(Hl & _ & Ho & Hb & Ht & s & Hup)]; [congruence|].
    apply load_upload_Ok in Hl as (_ & trip & Htrip & Hown).
    rewrite Hup, lookup_insert_eq in Hu'. injection Hu' as <-.
    eapply patch_upload_offset_mismatch; [| done |].
    + eapply load_upload_owned; [rewrite Hup; apply lookup_insert_eq| |done].
      cbn. by rewrite Ht.
    + cbn in *. congruence.
  - intros STORAGE_DIR fs upload_id stream current_user upload_offset offset declared
      Hs Hne. eapply tus_upload_chunk_conflict; eauto.
Qed.

(** C4, witness: after the first half of the ten-byte scenario the session
    is at offset 5; a call at offset 3 and the resend of the first half are
    both rejected, and so is the resend to the TUS handler. *)
Lemma stale_offset_is_rejected_witness :
  Uploads.patch_upload Scenario.storage (Scenario.half (Some Scenario.H10))
    "upload-1" (Scenario.zeros 2) Scenario.alice 3 102
  = (Scenario.half (Some Scenario.H10), Raise OffsetConflict) ∧
  Uploads.patch_upload Scenario.storage (Scenario.half (Some Scenario.H10))
    "upload-1" (Scenario.zeros 5) Scenario.alice 0 102
  = (Scenario.half (Some Scenario.H10), Raise OffsetConflict) ∧
  Tus.tus_upload_chunk Scenario.storage Scenario.tus_half Scenario.tus_id
    [Scenario.zeros 5] 0 "application/offset+octet-stream" Scenario.alice
  = (Scenario.tus_half, [],
     Raise (HTTPException 409
              ("Upload offset mismatch. Expected " +:+ Py.str 5
               +:+ ", got " +:+ Py.str 0))).
Proof.
  split; [|split].
  - refine (proj1 stale_offset_is_rejected Scenario.storage
              (Scenario.half (Some Scenario.H10)) "upload-1"
              (Scenario.zeros 2) Scenario.alice 3 102
              (UploadSession.mk "trip-1" "seg-1" "ride.mp4" VIDEO_MP4
                 (Some Scenario.H10) 10 5 RECEIVING 101)
              (Trip.mk "alice") _ _ _ _ _ _);
      vm_compute; first [reflexivity | discriminate].
  - refine (proj1 (proj2 stale_offset_is_rejected) Scenario.storage
              (Scenario.created (Some Scenario.H10)) "upload-1" (Scenario.zeros 5)
              Scenario.alice 0 101 102
              (UploadSession.mk "trip-1" "seg-1" "ride.mp4" VIDEO_MP4
                 (Some Scenario.H10) 10 0 PENDING 100)
              (Scenario.half (Some Scenario.H10))
              (Ok (mkResponse 204 [("Upload-Offset", "5")]))
              (UploadSession.mk "trip-1" "seg-1" "ride.mp4" VIDEO_MP4
                 (Some Scenario.H10) 10 5 RECEIVING 101) _ _ _ _ _ _);
      vm_compute; first [reflexivity | discriminate].
  - refine (proj2 (proj2 stale_offset_is_rejected) Scenario.storage
              Scenario.tus_half Scenario.tus_id [Scenario.zeros 5] Scenario.alice 0 5 10 _ _);
      vm_compute; first [reflexivity | discriminate].
Defined.

(** ** Finalization without an expected hash *)

(* Whatever the bytes, a session without an expected hash fails the
   comparison [computed_sha != upload.sha256] of [patch_upload]. *)
Lemma patch_upload_no_expected_hash storage_dir w upload_id body current_user now
    upload trip :
  uploads w !! upload_id = Some upload →
  trips w !! UploadSession.trip_id upload = Some trip →
  Trip.user_id trip = User.id current_user →
  UploadSession.status upload ≠ COMPLETE →
  body ≠ [] →
  Py.len (partial_artifact storage_dir w upload_id) = UploadSession.offset upload →
  UploadSession.offset upload + Py.len body >= UploadSession.upload_length upload →
  UploadSession.sha256 upload = None →
  ∃ w',
    Uploads.patch_upload storage_dir w upload_id body current_user
      (UploadSession.offset upload) now = (w', Raise ChecksumMismatch) ∧
    UploadSession.status <$> uploads w' !! upload_id = Some FAILED ∧
    stored_files w' = stored_files w.
Proof.
  intros Hu Ht Hown Hs Hb Hlen Hge Hsha.
  destruct (patch_upload_completing_mismatch storage_dir w upload_id body current_user
              now upload) as (w' & Hp & Hup & _ & _ & Hsf & _);
    eauto using load_upload_owned.
  { by rewrite Hsha. }
  exists w'. split; [done|]. split; [|done]. by rewrite Hup, lookup_insert_eq.
Qed.

(* [direct_put_upload] compares only a hash that was given. *)
Lemma direct_put_upload_no_expected_hash storage_dir w upload_id stream current_user
    upload trip :
  uploads w !! upload_id = Some upload →
  trips w !! UploadSession.trip_id upload = Some trip →
  Trip.user_id trip = User.id current_user →
  UploadSession.sha256 upload = None →
  ∃ w',
    Uploads.direct_put_upload storage_dir w upload_id stream current_user
    = (w', Ok [("status", JStr "ok");
               ("sha", JStr (SHA256.hexdigest (concat stream)));
               ("size", JInt (Py.len (concat stream)))]) ∧
    UploadSession.status <$> uploads w' !! upload_id = Some COMPLETE ∧
    stored_files w'
    = stored_files w ++
        [stored_file_of upload (SHA256.hexdigest (concat stream))
           (Py.len (concat stream))].
Proof.
  intros Hu Ht Hown Hsha. unfold Uploads.direct_put_upload.
  erewrite load_upload_owned by done.
  unfold Storage.finalize_upload. cbn [fs set_fs]. rewrite lookup_insert_eq.
  rewrite Hsha. cbn [Uploads.sha_given_and_differs].
  eexists. split; [reflexivity|].
  match goal with |- context [Uploads.record_stored_file ?w ?u ?s ?n] =>
    destruct (record_stored_file_fields w u s n) as (_ & Hup & _ & Hsf) end.
  cbn [uploads set_uploads set_fs stored_files]. rewrite Hsf.
  by rewrite lookup_insert_eq.
Qed.

(** C5: the code departs from the claim.  Alice's ten-byte session is
    created without an expected hash; the chunk that completes it is answered
    with [ChecksumMismatch], the session is FAILED, no [StoredFile] is
    recorded and no artifact is left in storage. *)
Theorem patch_upload_without_expected_hash_fails :
  UploadSession.sha256 <$> uploads (Scenario.half None) !! "upload-1" = Some None ∧
  snd (Uploads.patch_upload Scenario.storage (Scenario.half None) "upload-1"
         (Scenario.zeros 5) Scenario.alice 5 102)
  = Raise ChecksumMismatch ∧
  UploadSession.status
    <$> uploads (fst (Uploads.patch_upload Scenario.storage (Scenario.half None)
                        "upload-1" (Scenario.zeros 5) Scenario.alice 5 102))
        !! "upload-1"
  = Some FAILED ∧
  stored_files (fst (Uploads.patch_upload Scenario.storage (Scenario.half None)
                       "upload-1" (Scenario.zeros 5) Scenario.alice 5 102)) = [] ∧
  fs (fst (Uploads.patch_upload Scenario.storage (Scenario.half None)
             "upload-1" (Scenario.zeros 5) Scenario.alice 5 102)) = ∅.
Proof. vm_compute. repeat split; reflexivity. Qed.

(** ** Creation *)

(** C6, as stated, fails: [create_upload] has no size limit.  A session
    declaring two gibibytes, twice the maximum the TUS endpoint allows, is
    created PENDING at offset 0. *)
Lemma create_upload_has_no_size_limit :
  Tus.MAX_FILE_SIZE < 2147483648 ∧
  snd (Uploads.create_upload Scenario.world0 (Scenario.request None 2147483648)
         Scenario.alice "upload-1" 100)
  = Ok (UploadRead.mk "upload-1" "trip-1" "seg-1" "ride.mp4" VIDEO_MP4 None
          2147483648 0 PENDING).
Proof. vm_compute. split; reflexivity. Qed.

(** C6 (amended): [tus_create_upload] fails with [TooLarge] and leaves the
    storage untouched when the declared length exceeds [MAX_FILE_SIZE];
    otherwise it answers 201 with offset 0 and leaves an upload with the
    declared length, whose data file is empty unless one of that id was
    already there.  [create_upload], for a trip and a segment of the caller
    and a fresh id, returns and stores a session with status PENDING and
    offset 0, whatever length is declared. *)
Theorem create_checks :
  (∀ STORAGE_DIR fs request_url upload_length upload_metadata current_user,
     upload_length > Tus.MAX_FILE_SIZE →
     Tus.tus_create_upload STORAGE_DIR fs request_url upload_length upload_metadata
       current_user = (fs, Raise TooLarge)) ∧
  (∀ STORAGE_DIR fs request_url upload_length upload_metadata current_user,
     upload_length <= Tus.MAX_FILE_SIZE →
     ∃ fs' response,
       Tus.tus_create_upload STORAGE_DIR fs request_url upload_length upload_metadata
         current_user = (fs', Ok response) ∧
       status_code response = 201 ∧
       header "Upload-Offset" (headers response) = Some "0" ∧
       tus_session STORAGE_DIR fs'
         (Tus.make_upload_id current_user upload_length upload_metadata)
       = Some (Py.len (default [] (fs !! Tus.get_upload_path STORAGE_DIR
                                          (Tus.make_upload_id current_user upload_length
                                             upload_metadata))),
               upload_length)) ∧
  (∀ w payload current_user new_id now trip segment,
     trips w !! UploadCreateRequest.trip_id payload = Some trip →
     segments w !! UploadCreateRequest.segment_id payload = Some segment →
     Segment.trip_id segment = UploadCreateRequest.trip_id payload →
     Trip.user_id trip = User.id current_user →
     uploads w !! new_id = None →
     ∃ w' r upload,
       Uploads.create_upload w payload current_user new_id now = (w', Ok r) ∧
       UploadRead.id r = new_id ∧
       UploadRead.status r = PENDING ∧
       UploadRead.offset r = 0 ∧
       UploadRead.upload_length r = UploadCreateRequest.upload_length payload ∧
       uploads w' !! new_id = Some upload ∧
       UploadSession.status upload = PENDING ∧
       UploadSession.offset upload = 0 ∧
       UploadSession.upload_length upload = UploadCreateRequest.upload_length payload).
Proof.
  split; [|split].
  - intros STORAGE_DIR fs request_url upload_length upload_metadata current_user Hgt.
    unfold Tus.tus_create_upload. by rewrite bool_decide_eq_true_2.
  - intros STORAGE_DIR fs request_url upload_length upload_metadata current_user Hle.
    destruct (tus_create_upload_session STORAGE_DIR fs request_url upload_length
                upload_metadata current_user Hle) as (fs' & loc & Hc & _ & Hs).
    exists fs'. eexists. split; [exact Hc|]. repeat split; done.
  - intros w payload current_user new_id now trip segment Ht Hseg Hst Hown Hnew.
    unfold Uploads.create_upload. rewrite Ht, Hseg, Hnew.
    rewrite bool_decide_eq_false_2 by (intros H; by apply H).
    rewrite bool_decide_eq_false_2 by (intros H; by apply H).
    cbn [orb]. do 3 eexists. split; [reflexivity|]. cbn.
    rewrite lookup_insert_eq. repeat split; done.
Qed.

(** C6, witness: a TUS creation of two gibibytes, one of ten bytes, and
    Alice's database session of two gibibytes. *)
Lemma create_checks_witness :
  Tus.tus_create_upload Scenario.storage ∅ Scenario.url 2147483648 None Scenario.alice
  = (∅, Raise TooLarge) ∧
  (∃ fs' response,
     Tus.tus_create_upload Scenario.storage ∅ Scenario.url 10 None Scenario.alice
     = (fs', Ok response) ∧
     status_code response = 201 ∧
     header "Upload-Offset" (headers response) = Some "0" ∧
     tus_session Scenario.storage fs' (Tus.make_upload_id Scenario.alice 10 None)
     = Some (0, 10)) ∧
  (∃ w' r upload,
     Uploads.create_upload Scenario.world0 (Scenario.request None 2147483648)
       Scenario.alice "upload-1" 100 = (w', Ok r) ∧
     UploadRead.id r = "upload-1" ∧
     UploadRead.status r = PENDING ∧
     UploadRead.offset r = 0 ∧
     UploadRead.upload_length r = 2147483648 ∧
     uploads w' !! "upload-1" = Some upload ∧
     UploadSession.status upload = PENDING ∧
     UploadSession.offset upload = 0 ∧
     UploadSession.upload_length upload = 2147483648).
Proof.
  split; [|split].
  - refine (proj1 create_checks Scenario.storage ∅ Scenario.url 2147483648 None
              Scenario.alice _). vm_compute. reflexivity.
  - refine (proj1 (proj2 create_checks) Scenario.storage ∅ Scenario.url 10 None
              Scenario.alice _). vm_compute. discriminate.
  - refine (proj2 (proj2 create_checks) Scenario.world0
              (Scenario.request None 2147483648) Scenario.alice "upload-1" 100
              (Trip.mk "alice") (Segment.mk "trip-1" None None) _ _ _ _ _);
      vm_compute; reflexivity.
Defined.

(** ** Queries *)

(** C7, as stated, fails: the TUS handlers never compare the caller with
    the creator of an upload.  Bob queries the upload Alice created and is
    given its offset and length. *)
Lemma tus_check_offset_ignores_caller :
  User.id Scenario.bob ≠ User.id Scenario.alice ∧
  Tus.tus_check_offset Scenario.storage Scenario.tus_created Scenario.tus_id
    Scenario.bob
  = Ok (mkResponse 200
          [("Tus-Resumable", "1.0.0"); ("Upload-Offset", "0"); ("Upload-Length", "10");
           ("Cache-Control", "no-store");
           ("Access-Control-Expose-Headers", "Upload-Offset, Upload-Length")]).
Proof. split; [discriminate|]. vm_compute. reflexivity. Qed.

(** C7 (amended): [head_upload] and [patch_upload] fail with [NotFound]
    when the session does not exist or belongs to a trip of another user,
    and a successful [head_upload] returns the session's offset and
    declared length.  [tus_check_offset] and [tus_upload_chunk] fail with
    [NotFound] when the upload has no data file or no metadata file, whoever
    calls, and a successful [tus_check_offset] returns the size of the data
    file and the declared length read from the metadata file. *)
Theorem query_offset_results :
  (∀ w upload_id current_user,
     uploads w !! upload_id = None →
     Uploads.head_upload w upload_id current_user = Raise NotFound ∧
     ∀ storage_dir body upload_offset now,
       Uploads.patch_upload storage_dir w upload_id body current_user upload_offset now
       = (w, Raise NotFound)) ∧
  (∀ w upload_id current_user upload trip,
     uploads w !! upload_id = Some upload →
     trips w !! UploadSession.trip_id upload = Some trip →
     Trip.user_id trip ≠ User.id current_user →
     Uploads.head_upload w upload_id current_user = Raise NotFound ∧
     ∀ storage_dir body upload_offset now,
       Uploads.patch_upload storage_dir w upload_id body current_user upload_offset now
       = (w, Raise NotFound)) ∧
  (∀ w upload_id current_user response,
     Uploads.head_upload w upload_id current_user = Ok response →
     ∃ upload,
       uploads w !! upload_id = Some upload ∧
       header "Upload-Offset" (headers response)
       = Some (Py.str (UploadSession.offset upload)) ∧
       header "Upload-Length" (headers response)
       = Some (Py.str (UploadSession.upload_length upload))) ∧
  (∀ STORAGE_DIR fs upload_id current_user,
     fs !! Tus.get_upload_path STORAGE_DIR upload_id = None ∨
     fs !! Tus.get_metadata_path STORAGE_DIR upload_id = None →
     Tus.tus_check_offset STORAGE_DIR fs upload_id current_user = Raise NotFound ∧
     ∀ stream upload_offset content_type,
       Tus.tus_upload_chunk STORAGE_DIR fs upload_id stream upload_offset content_type
         current_user = (fs, [], Raise NotFound)) ∧
  (∀ STORAGE_DIR fs upload_id current_user response,
     Tus.tus_check_offset STORAGE_DIR fs upload_id current_user = Ok response →
     ∃ offset declared,
       tus_session STORAGE_DIR fs upload_id = Some (offset, declared) ∧
       header "Upload-Offset" (headers response) = Some (Py.str offset) ∧
       header "Upload-Length" (headers response) = Some (Py.str declared)).
Proof.
  split; [|split; [|split; [|split]]].
  - intros w upload_id current_user Hu.
    pose proof (load_upload_missing w upload_id current_user Hu) as Hl.
    split; [unfold Uploads.head_upload; by rewrite Hl|].
    intros. unfold Uploads.patch_upload. by rewrite Hl.
  - intros w upload_id current_user upload trip Hu Ht Hne.
    pose proof (load_upload_not_owner w upload_id current_user upload trip Hu Ht Hne)
      as Hl.
    split; [unfold Uploads.head_upload; by rewrite Hl|].
    intros. unfold Uploads.patch_upload. by rewrite Hl.
  - intros w upload_id current_user response. unfold Uploads.head_upload.
    destruct (Uploads.load_upload w upload_id current_user) as [u|e] eqn:Hl; [|done].
    intros [= <-]. apply load_upload_Ok in Hl as [Hu _]. by exists u.
  - intros STORAGE_DIR fs upload_id current_user Hmiss.
    unfold Tus.tus_check_offset, Tus.tus_upload_chunk.
    destruct Hmiss as [-> | ->]; [done|].
    by destruct (fs !! Tus.get_upload_path STORAGE_DIR upload_id).
  - intros STORAGE_DIR fs upload_id current_user response.
    unfold Tus.tus_check_offset, tus_session.
    destruct (fs !! Tus.get_upload_path _ _) as [data|]; [|done].
    destruct (fs !! Tus.get_metadata_path _ _) as [meta|]; [|done].
    destruct (Py.int _) as [n|]; [|done].
    intros [= <-]. by exists (Py.len data), n.
Qed.

(** C7, witness: Bob asks for Alice's session, and Alice for her own and
    for her TUS upload. *)
Lemma query_offset_results_witness :
  (Uploads.head_upload Scenario.world0 "upload-1" Scenario.alice = Raise NotFound ∧
   ∀ storage_dir body upload_offset now,
     Uploads.patch_upload storage_dir Scenario.world0 "upload-1" body
       Scenario.alice upload_offset now
     = (Scenario.world0, Raise NotFound)) ∧
  (∃ offset declared,
     tus_session Scenario.storage Scenario.tus_half Scenario.tus_id
     = Some (offset, declared) ∧
     header "Upload-Offset"
       [("Tus-Resumable", "1.0.0"); ("Upload-Offset", "5"); ("Upload-Length", "10");
        ("Cache-Control", "no-store");
        ("Access-Control-Expose-Headers", "Upload-Offset, Upload-Length")]
     = Some (Py.str offset) ∧
     header "Upload-Length"
       [("Tus-Resumable", "1.0.0"); ("Upload-Offset", "5"); ("Upload-Length", "10");
        ("Cache-Control", "no-store");
        ("Access-Control-Expose-Headers", "Upload-Offset, Upload-Length")]
     = Some (Py.str declared)) ∧
  (Uploads.head_upload (Scenario.created None) "upload-1" Scenario.bob = Raise NotFound ∧
   ∀ storage_dir body upload_offset now,
     Uploads.patch_upload storage_dir (Scenario.created None) "upload-1" body
       Scenario.bob upload_offset now
     = (Scenario.created None, Raise NotFound)) ∧
  (∃ upload,
     uploads (Scenario.created None) !! "upload-1" = Some upload ∧
     header "Upload-Offset" [("Upload-Offset", "0"); ("Upload-Length", "10")]
     = Some (Py.str (UploadSession.offset upload)) ∧
     header "Upload-Length" [("Upload-Offset", "0"); ("Upload-Length", "10")]
     = Some (Py.str (UploadSession.upload_length upload))) ∧
  (Tus.tus_check_offset Scenario.storage ∅ Scenario.tus_id Scenario.alice
   = Raise NotFound ∧
   ∀ stream upload_offset content_type,
     Tus.tus_upload_chunk Scenario.storage ∅ Scenario.tus_id stream upload_offset
       content_type Scenario.alice = (∅, [], Raise NotFound)).
Proof.
  split; [|split; [|split; [|split]]].
  - refine (proj1 query_offset_results Scenario.world0 "upload-1" Scenario.alice _).
    vm_compute. reflexivity.
  - refine (proj2 (proj2 (proj2 (proj2 query_offset_results))) Scenario.storage
              Scenario.tus_half Scenario.tus_id Scenario.alice
              (mkResponse 200
                 [("Tus-Resumable", "1.0.0"); ("Upload-Offset", "5");
                  ("Upload-Length", "10"); ("Cache-Control", "no-store");
                  ("Access-Control-Expose-Headers", "Upload-Offset, Upload-Length")])
              _).
    vm_compute. reflexivity.
  - refine (proj1 (proj2 query_offset_results) (Scenario.created None) "upload-1"
              Scenario.bob
              (UploadSession.mk "trip-1" "seg-1" "ride.mp4" VIDEO_MP4 None 10 0
                 PENDING 100)
              (Trip.mk "alice") _ _ _);
      vm_compute; first [reflexivity | discriminate].
  - refine (proj1 (proj2 (proj2 query_offset_results)) (Scenario.created None)
              "upload-1" Scenario.alice
              (mkResponse 204 [("Upload-Offset", "0"); ("Upload-Length", "10")]) _).
    vm_compute. reflexivity.
  - refine (proj1 (proj2 (proj2 (proj2 query_offset_results))) Scenario.storage ∅
              Scenario.tus_id Scenario.alice _).
    left. vm_compute. reflexivity.
Defined.

(** ** Session ids *)

(** C8: the code departs from the claim.  The id [tus_create_upload]
    gives is a hash of the caller, the length and the metadata: the same
    request made anywhere yields the same response, hence the same id, and in
    particular Alice's second creation of a ten-byte upload, made after five
    bytes of the first arrived, returns the same location and is the same
    upload, already at offset 5.  A request without metadata and one whose
    metadata is the text [None] share their id too. *)
Theorem tus_create_upload_same_request_same_id :
  (∀ STORAGE_DIR fs fs' request_url upload_length upload_metadata current_user,
     snd (Tus.tus_create_upload STORAGE_DIR fs request_url upload_length
            upload_metadata current_user)
     = snd (Tus.tus_create_upload STORAGE_DIR fs' request_url upload_length
              upload_metadata current_user)) ∧
  (∀ current_user upload_length,
     Tus.make_upload_id current_user upload_length None
     = Tus.make_upload_id current_user upload_length (Some "None")) ∧
  (response_header "Location"
     (snd (Tus.tus_create_upload Scenario.storage ∅ Scenario.url 10 None Scenario.alice))
   = Some "http://server/tus/files/f7a5d93593f44ca1" ∧
   response_header "Location"
     (snd (Tus.tus_create_upload Scenario.storage Scenario.tus_half Scenario.url 10 None
             Scenario.alice))
   = Some "http://server/tus/files/f7a5d93593f44ca1" ∧
   tus_session Scenario.storage Scenario.tus_half Scenario.tus_id = Some (5, 10) ∧
   tus_session Scenario.storage
     (fst (Tus.tus_create_upload Scenario.storage Scenario.tus_half Scenario.url 10 None
             Scenario.alice)) Scenario.tus_id
   = Some (5, 10)).
Proof.
  split; [|split].
  - intros. unfold Tus.tus_create_upload. by case_bool_decide.
  - reflexivity.
  - vm_compute. repeat split; reflexivity.
Qed.

(** ** Zero-byte chunks *)

(** C9: on a session that is neither COMPLETE nor FAILED, a call with an
    empty payload at the session's offset succeeds, reports that offset and
    leaves the whole world, and so the offset, the status and the partial
    artifact, as it was.  [tus_upload_chunk], asked with the protocol's
    content type for a stream that carries no byte, does the same on the
    storage. *)
Theorem zero_byte_chunk_changes_nothing :
  (∀ storage_dir w upload_id current_user now upload trip,
     uploads w !! upload_id = Some upload →
     trips w !! UploadSession.trip_id upload = Some trip →
     Trip.user_id trip = User.id current_user →
     UploadSession.status upload ≠ COMPLETE →
     UploadSession.status upload ≠ FAILED →
     Uploads.patch_upload storage_dir w upload_id [] current_user
       (UploadSession.offset upload) now
     = (w, Ok (mkResponse 204
                 [("Upload-Offset", Py.str (UploadSession.offset upload))]))) ∧
  (∀ STORAGE_DIR fs upload_id stream current_user offset declared,
     tus_session STORAGE_DIR fs upload_id = Some (offset, declared) →
     concat stream = [] →
     ∃ printed,
       Tus.tus_upload_chunk STORAGE_DIR fs upload_id stream offset
         "application/offset+octet-stream" current_user
       = (fs, printed,
          Ok (mkResponse 204
                [("Tus-Resumable", Tus.TUS_VERSION);
                 ("Upload-Offset", Py.str offset);
                 ("Access-Control-Expose-Headers", "Upload-Offset")]))).
Proof.
  split.
  - intros storage_dir w upload_id current_user now upload trip Hu Ht Hown Hs _.
    eapply patch_upload_empty; eauto using load_upload_owned.
  - intros STORAGE_DIR fs upload_id stream current_user offset declared Hs Hnil.
    pose proof Hs as Hs'.
    apply tus_session_Some in Hs' as (data & meta & Hd & Hm & Hp & ->).
    erewrite tus_upload_chunk_accepts by done.
    rewrite Hnil, app_nil_r. rewrite insert_id by done. eauto.
Qed.

(** C9, witness: a zero-byte call at offset 5 after the first half of the
    ten-byte scenario, on both handlers. *)
Lemma zero_byte_chunk_changes_nothing_witness :
  Uploads.patch_upload Scenario.storage (Scenario.half (Some Scenario.H10))
    "upload-1" [] Scenario.alice 5 102
  = (Scenario.half (Some Scenario.H10),
     Ok (mkResponse 204 [("Upload-Offset", Py.str 5)])) ∧
  (∃ printed,
     Tus.tus_upload_chunk Scenario.storage Scenario.tus_half Scenario.tus_id [[]; []] 5
       "application/offset+octet-stream" Scenario.alice
     = (Scenario.tus_half, printed,
        Ok (mkResponse 204
              [("Tus-Resumable", Tus.TUS_VERSION);
               ("Upload-Offset", Py.str 5);
               ("Access-Control-Expose-Headers", "Upload-Offset")]))).
Proof.
  split.
  - refine (proj1 zero_byte_chunk_changes_nothing Scenario.storage
              (Scenario.half (Some Scenario.H10)) "upload-1" Scenario.alice 102
              (UploadSession.mk "trip-1" "seg-1" "ride.mp4" VIDEO_MP4
                 (Some Scenario.H10) 10 5 RECEIVING 101)
              (Trip.mk "alice") _ _ _ _ _);
      vm_compute; first [reflexivity | discriminate].
  - refine (proj2 zero_byte_chunk_changes_nothing Scenario.storage Scenario.tus_half
              Scenario.tus_id [[]; []] Scenario.alice 5 10 _ _);
      vm_compute; reflexivity.
Defined.

(** ** Failed sessions *)

(** C10, as stated, fails: a chunk of twelve bytes completes a session that
    declared ten and expected another hash; the session is FAILED and
    [head_upload] reports offset 12, not the declared length 10. *)
Lemma failed_session_offset_exceeds_declared_length :
  snd (Uploads.patch_upload Scenario.storage (Scenario.created (Some "00")) "upload-1"
         (Scenario.zeros 12) Scenario.alice 0 101)
  = Raise ChecksumMismatch ∧
  UploadSession.status
    <$> uploads (fst (Uploads.patch_upload Scenario.storage
                        (Scenario.created (Some "00")) "upload-1" (Scenario.zeros 12)
                        Scenario.alice 0 101)) !! "upload-1"
  = Some FAILED ∧
  Uploads.head_upload
    (fst (Uploads.patch_upload Scenario.storage (Scenario.created (Some "00"))
            "upload-1" (Scenario.zeros 12) Scenario.alice 0 101))
    "upload-1" Scenario.alice
  = Ok (mkResponse 204 [("Upload-Offset", "12"); ("Upload-Length", "10")]).
Proof. vm_compute. repeat split; reflexivity. Qed.

(** C10 (amended): when [patch_upload] fails a session on the checksum, the
    offset is not rolled back: the session is FAILED at the offset credited
    before the hash check, the old offset plus the whole payload, which is at
    least the declared length and is the declared length when the payload
    ends exactly there; [head_upload] by the owner reports that offset with
    the declared length, no [StoredFile] was recorded and no artifact is at
    the final path. *)
Theorem failed_session_keeps_credited_offset :
  ∀ storage_dir w upload_id body current_user upload_offset now upload w',
    uploads w !! upload_id = Some upload →
    Uploads.patch_upload storage_dir w upload_id body current_user upload_offset now
    = (w', Raise ChecksumMismatch) →
    ∃ upload',
      uploads w' !! upload_id = Some upload' ∧
      UploadSession.status upload' = FAILED ∧
      UploadSession.upload_length upload' = UploadSession.upload_length upload ∧
      UploadSession.offset upload' = UploadSession.offset upload + Py.len body ∧
      UploadSession.offset upload' >= UploadSession.upload_length upload' ∧
      (UploadSession.offset upload + Py.len body = UploadSession.upload_length upload →
       UploadSession.offset upload' = UploadSession.upload_length upload') ∧
      Uploads.head_upload w' upload_id current_user
      = Ok (mkResponse 204
              [("Upload-Offset", Py.str (UploadSession.offset upload'));
               ("Upload-Length", Py.str (UploadSession.upload_length upload'))]) ∧
      stored_files w' = stored_files w ∧
      fs w' !! final_path storage_dir upload = None.
Proof.
  intros storage_dir w upload_id body current_user upload_offset now upload w' Hu Hp.
  destruct (patch_upload_mismatch_inv storage_dir _ _ _ _ _ _ _ _ Hu Hp)
    as (Hup & Ht & Hsf & Hfs & Hl & Hge).
  apply load_upload_Ok in Hl as (_ & trip & Htrip & Hown).
  assert (Hh : Uploads.load_upload w' upload_id current_user
               = Ok (UploadSession.set_status FAILED (credited upload body now))).
  { eapply load_upload_owned; [rewrite Hup; apply lookup_insert_eq| |done].
    cbn. by rewrite Ht. }
  eexists. split; [rewrite Hup; apply lookup_insert_eq|]. cbn.
  split; [done|]. split; [done|]. split; [done|]. split; [lia|]. split; [done|].
  split; [|done]. unfold Uploads.head_upload. by rewrite Hh.
Qed.

(** C10, witness: the second half of the ten-byte scenario arrives while
    another hash was expected. *)
Lemma failed_session_keeps_credited_offset_witness :
  ∃ upload',
    uploads Scenario.failed !! "upload-1" = Some upload' ∧
    UploadSession.status upload' = FAILED ∧
    UploadSession.upload_length upload' = 10 ∧
    UploadSession.offset upload' = 5 + 5 ∧
    UploadSession.offset upload' >= UploadSession.upload_length upload' ∧
    (5 + 5 = 10 → UploadSession.offset upload' = UploadSession.upload_length upload') ∧
    Uploads.head_upload Scenario.failed "upload-1" Scenario.alice
    = Ok (mkResponse 204
            [("Upload-Offset", Py.str (UploadSession.offset upload'));
             ("Upload-Length", Py.str (UploadSession.upload_length upload'))]) ∧
    stored_files Scenario.failed = [] ∧
    fs Scenario.failed !! "storage/segments/seg-1/ride.mp4" = None.
Proof.
  refine (failed_session_keeps_credited_offset Scenario.storage
            (Scenario.half (Some "00")) "upload-1" (Scenario.zeros 5) Scenario.alice 5
            102
            (UploadSession.mk "trip-1" "seg-1" "ride.mp4" VIDEO_MP4 (Some "00") 10 5
               RECEIVING 101)
            Scenario.failed _ _);
    vm_compute; reflexivity.
Defined.

End Claims.

(** * Further properties of the handlers *)

(** ** Strings, paths and the read loop *)

Section MoreBasics.
Local Open Scope Z_scope.

Lemma string_app_inj_r (a b s : string) : a +:+ s = b +:+ s → a = b.
Proof.
  revert b. induction a as [|c a IH]; intros [|d b] H.
  - done.
  - apply (f_equal String.length) in H.
    rewrite !string_app_length in H. simpl in H. lia.
  - apply (f_equal String.length) in H.
    rewrite !string_app_length in H. simpl in H. lia.
  - injection H as -> H. f_equal. by apply IH.
Qed.

Lemma string_app_assoc (a b c : string) : (a +:+ b) +:+ c = a +:+ (b +:+ c).
Proof.
  induction a as [|x a IH]; [done|].
  change (String x ((a +:+ b) +:+ c) = String x (a +:+ (b +:+ c))).
  by rewrite IH.
Qed.

Lemma metadata_path_as_upload_path STORAGE_DIR upload_id :
  Tus.get_metadata_path STORAGE_DIR upload_id
  = Tus.get_upload_path STORAGE_DIR (upload_id +:+ ".metadata").
Proof. reflexivity. Qed.

Lemma metadata_path_ne_upload_path STORAGE_DIR upload_id :
  Tus.get_metadata_path STORAGE_DIR upload_id ≠ Tus.get_upload_path STORAGE_DIR upload_id.
Proof. intros H. symmetry in H. by apply upload_path_ne_metadata_path in H. Qed.

Lemma tus_upload_path_inj STORAGE_DIR a b :
  Tus.get_upload_path STORAGE_DIR a = Tus.get_upload_path STORAGE_DIR b → a = b.
Proof.
  unfold Tus.get_upload_path, path_join. intros H.
  apply string_app_inj_l in H. by injection H.
Qed.

(* The temporary file of a direct PUT or a multipart upload is never the
   final path of a segment file. *)
Lemma uploads_dir_ne_segments_dir storage_dir a b c :
  storage_dir // "uploads" // a ≠ storage_dir // "segments" // b // c.
Proof.
  unfold path_join. rewrite !string_app_assoc. intros H.
  apply string_app_inj_l in H. discriminate.
Qed.

Lemma read_size_pos : (0 < Uploads.read_size)%nat.
Proof. unfold Uploads.read_size. lia. Qed.

(* With a turn of the loop to spare for every byte, the loop writes the
   whole file behind what was written. *)
Lemma copy_file_all fuel : ∀ file out,
  (length file < fuel)%nat → Uploads.copy_file fuel file out = out ++ file.
Proof.
  pose proof read_size_pos as Hpos.
  induction fuel as [|fuel IH]; intros file out Hlt; [lia|].
  cbn [Uploads.copy_file]. case_bool_decide as He.
  - destruct file as [|b file]; [by rewrite app_nil_r|].
    destruct Uploads.read_size; [lia|]. done.
  - rewrite IH.
    + by rewrite <- (assoc_L (++)), firstn_skipn.
    + rewrite length_skipn. destruct file as [|b file]; [done|].
      cbn [length] in *. lia.
Qed.

Lemma copy_file_whole file : Uploads.copy_file (S (length file)) file [] = file.
Proof. rewrite copy_file_all by lia. done. Qed.

End MoreBasics.

(** ** Paths: where the handlers' joins are [pathlib]'s *)

Section PathlibFacts.

Example pathlib_parse_texts :
  map (fun s => Pathlib.str (Pathlib.parse s))
    [""; "."; ".."; "/"; "//"; "///"; "//a"; "///a"; "a/"; "a//b"; "./a"; "a/./b";
     "a/.."; "/a/b/"; "./storage"]
  = ["."; "."; ".."; "/"; "//"; "/"; "//a"; "/a"; "a"; "a/b"; "a"; "a/b";
     "a/.."; "/a/b"; "storage"].
Proof. reflexivity. Qed.

Lemma split_no_sep s :
  forallb (fun c => negb (Pathlib.is_sep c)) (list_ascii_of_string s) = true →
  Pathlib.split s = [s].
Proof.
  induction s as [|c s IH]; [done|]. cbn [list_ascii_of_string forallb Pathlib.split].
  intros [Hc Hs]%andb_true_iff.
  apply negb_true_iff in Hc. rewrite Hc. by rewrite (IH Hs).
Qed.

Lemma plain_name_inv name :
  Pathlib.plain_name name = true →
  Pathlib.is_part name = true ∧ name ≠ ".." ∧
  forallb (fun c => negb (Pathlib.is_sep c)) (list_ascii_of_string name) = true.
Proof.
  unfold Pathlib.plain_name.
  intros [[Hp Hd]%andb_true_iff Hs]%andb_true_iff.
  apply negb_true_iff, bool_decide_eq_false in Hd. done.
Qed.

(* A plain name is a path of its own single component. *)
Lemma parse_plain name :
  Pathlib.plain_name name = true → Pathlib.parse name = Pathlib.mk "" [name].
Proof.
  intros (Hp & _ & Hs)%plain_name_inv. unfold Pathlib.parse.
  rewrite (split_no_sep _ Hs). cbn [List.filter]. rewrite Hp. f_equal.
  destruct name as [|c name]; [done|].
  cbn [list_ascii_of_string forallb] in Hs.
  apply andb_true_iff in Hs as [Hc _]. apply negb_true_iff in Hc.
  cbn [Pathlib.parse_root]. by rewrite Hc.
Qed.

Lemma joinpath_plain p name :
  Pathlib.plain_name name = true →
  Pathlib.joinpath p name = Pathlib.mk (Pathlib.root p) (Pathlib.parts p ++ [name]).
Proof. intros H. unfold Pathlib.joinpath. by rewrite (parse_plain _ H). Qed.

Lemma join_snoc ps name :
  ps ≠ [] → Pathlib.join (ps ++ [name]) = Pathlib.join ps // name.
Proof.
  induction ps as [|p ps IH]; [done|]. intros _.
  destruct ps as [|q ps]; [done|].
  change (p +:+ "/" +:+ Pathlib.join ((q :: ps) ++ [name])
          = (p +:+ "/" +:+ Pathlib.join (q :: ps)) // name).
  rewrite IH by done. unfold path_join. by rewrite !string_app_assoc.
Qed.

(* Joining a plain name to a path with a component writes the name behind
   the text of the path: there [path_join] is [pathlib]'s join. *)
Lemma path_join_is_pathlib p name :
  Pathlib.plain_name name = true →
  Pathlib.parts p ≠ [] →
  Pathlib.str (Pathlib.joinpath p name) = Pathlib.str p // name ∧
  Pathlib.parts (Pathlib.joinpath p name) ≠ [].
Proof.
  intros Hn Hp. rewrite (joinpath_plain _ _ Hn). split.
  - unfold Pathlib.str. cbn [Pathlib.root Pathlib.parts].
    rewrite (bool_decide_eq_false_2 (Pathlib.parts p ++ [name] = []))
      by (by destruct (Pathlib.parts p)).
    rewrite (bool_decide_eq_false_2 (Pathlib.parts p = [])) by done.
    rewrite !andb_false_r, join_snoc by done.
    unfold path_join. by rewrite string_app_assoc.
  - cbn [Pathlib.parts]. by destruct (Pathlib.parts p).
Qed.

(* What was joined to a directory is what [relative_to] the directory
   returns. *)
Lemma relative_to_joined p names :
  Pathlib.relative_to (Pathlib.mk (Pathlib.root p) (Pathlib.parts p ++ names)) p
  = Ok (Pathlib.mk "" names).
Proof.
  unfold Pathlib.relative_to. cbn [Pathlib.root Pathlib.parts].
  rewrite bool_decide_eq_true_2 by (by rewrite take_app_length).
  by rewrite drop_app_length.
Qed.

(* The ids and file names with the suffix a handler appends are plain
   names as well. *)
Lemma plain_name_suffix name suffix :
  Pathlib.plain_name name = true →
  forallb (fun c => negb (Pathlib.is_sep c)) (list_ascii_of_string suffix) = true →
  (2 ≤ String.length suffix)%nat →
  Pathlib.plain_name (name +:+ suffix) = true.
Proof.
  intros (Hp & _ & Hs)%plain_name_inv Hsuf Hlen.
  assert (Hl : (3 ≤ String.length (name +:+ suffix))%nat).
  { rewrite string_app_length. destruct name as [|c name]; [done|]. simpl. lia. }
  unfold Pathlib.plain_name, Pathlib.is_part.
  rewrite list_ascii_of_string_app, forallb_app, Hs, Hsuf.
  rewrite !bool_decide_eq_false_2; [done|..];
    intros He; rewrite He in Hl; simpl in Hl; lia.
Qed.

(** The final path of a segment file (lines 97-99 of [uploads.py]) and the
    [storage_uri] recorded for it (line 110) are the texts [pathlib] gives,
    for a storage directory with a component (any but [.], [/] and [//]),
    written as [pathlib] writes it, and plain names for the segment and the
    file. *)
Lemma final_path_is_pathlib storage_dir upload sha size :
  Pathlib.str (Pathlib.parse storage_dir) = storage_dir →
  Pathlib.parts (Pathlib.parse storage_dir) ≠ [] →
  Pathlib.plain_name (UploadSession.segment_id upload) = true →
  Pathlib.plain_name (UploadSession.filename upload) = true →
  let dest_dir :=
    Pathlib.joinpath (Pathlib.joinpath (Pathlib.parse storage_dir) "segments")
      (UploadSession.segment_id upload) in
  let final := Pathlib.joinpath dest_dir (UploadSession.filename upload) in
  Pathlib.str final = final_path storage_dir upload ∧
  ∃ relative,
    Pathlib.relative_to final (Pathlib.parse storage_dir) = Ok relative ∧
    Pathlib.str relative = StoredFile.storage_uri (stored_file_of upload sha size).
Proof.
  intros Hstr Hparts Hseg Hfile dest_dir final.
  assert (Hsegments : Pathlib.plain_name "segments" = true) by reflexivity.
  destruct (path_join_is_pathlib _ _ Hsegments Hparts) as [H1 Hp1].
  destruct (path_join_is_pathlib _ _ Hseg Hp1) as [H2 Hp2].
  destruct (path_join_is_pathlib _ _ Hfile Hp2) as [H3 _].
  split.
  - unfold final, dest_dir, final_path. by rewrite H3, H2, H1, Hstr.
  - exists (Pathlib.mk "" ["segments"; UploadSession.segment_id upload;
                           UploadSession.filename upload]).
    split; [|reflexivity].
    unfold final, dest_dir.
    rewrite (joinpath_plain _ _ Hfile), (joinpath_plain _ _ Hseg),
      (joinpath_plain _ _ Hsegments).
    cbn [Pathlib.root Pathlib.parts]. rewrite <- !(assoc_L (++)).
    apply relative_to_joined.
Qed.

(** The two files of a TUS upload (lines 19-26 of [tus_upload.py]) are at
    the paths [pathlib] gives, for such a storage directory and an id that
    is a plain name. *)
Lemma tus_paths_are_pathlib STORAGE_DIR upload_id :
  Pathlib.str (Pathlib.parse STORAGE_DIR) = STORAGE_DIR →
  Pathlib.parts (Pathlib.parse STORAGE_DIR) ≠ [] →
  Pathlib.plain_name upload_id = true →
  let uploads := Pathlib.joinpath (Pathlib.parse STORAGE_DIR) "uploads" in
  Pathlib.str (Pathlib.joinpath uploads upload_id)
  = Tus.get_upload_path STORAGE_DIR upload_id ∧
  Pathlib.str (Pathlib.joinpath uploads (upload_id +:+ ".metadata"))
  = Tus.get_metadata_path STORAGE_DIR upload_id.
Proof.
  intros Hstr Hparts Hid uploads.
  assert (Huploads : Pathlib.plain_name "uploads" = true) by reflexivity.
  assert (Hmeta : Pathlib.plain_name (upload_id +:+ ".metadata") = true)
    by (apply plain_name_suffix; [done|reflexivity|simpl; lia]).
  destruct (path_join_is_pathlib _ _ Huploads Hparts) as [H1 Hp1].
  destruct (path_join_is_pathlib _ _ Hid Hp1) as [H2 _].
  destruct (path_join_is_pathlib _ _ Hmeta Hp1) as [H3 _].
  unfold uploads, Tus.get_upload_path, Tus.get_metadata_path.
  by rewrite H2, H3, H1, Hstr.
Qed.

(** A file name that is no plain name: with a file name that starts with
    a slash the final path leaves the storage directory, and [relative_to]
    (line 110 of [uploads.py]) raises. *)
Example absolute_filename_leaves_storage :
  let dest_dir :=
    Pathlib.joinpath (Pathlib.joinpath (Pathlib.parse "storage") "segments") "seg-1" in
  let final := Pathlib.joinpath dest_dir "/tmp/evil.mp4" in
  Pathlib.str final = "/tmp/evil.mp4" ∧
  Pathlib.relative_to final (Pathlib.parse "storage") = Raise ValueError.
Proof. split; reflexivity. Qed.

(** Ids that are no plain names: [./abc] names the files of [abc], and [.]
    and [..] name the uploads directory and the storage directory. *)
Example upload_ids_that_are_no_plain_names :
  let uploads := Pathlib.joinpath (Pathlib.parse "storage") "uploads" in
  Pathlib.str (Pathlib.joinpath uploads "./abc") = "storage/uploads/abc" ∧
  Pathlib.str (Pathlib.joinpath uploads "./abc.metadata") = "storage/uploads/abc.metadata" ∧
  Pathlib.str (Pathlib.joinpath uploads ".") = "storage/uploads" ∧
  Pathlib.str (Pathlib.joinpath uploads "..") = "storage/uploads/..".
Proof. repeat split; reflexivity. Qed.

End PathlibFacts.

(** ** The length of an upload id *)

Section DigestLength.

Lemma round_length W st t : length st = 8%nat → length (SHA256.round W st t) = 8%nat.
Proof.
  destruct st as [|a [|b [|c [|d [|e [|f [|g [|h [|i st]]]]]]]]]; try discriminate.
  done.
Qed.

Lemma rounds_length W ts : ∀ st,
  length st = 8%nat → length (fold_left (SHA256.round W) ts st) = 8%nat.
Proof.
  induction ts as [|t ts IH]; intros st H; [done|].
  cbn [fold_left]. by apply IH, round_length.
Qed.

Lemma compress_length st block :
  length st = 8%nat → length (SHA256.compress st block) = 8%nat.
Proof.
  intros H. unfold SHA256.compress.
  rewrite List.length_map, List.length_combine, rounds_length, H by done. done.
Qed.

Lemma digest_words_length msg : length (SHA256.digest_words msg) = 8%nat.
Proof.
  unfold SHA256.digest_words.
  generalize (SHA256.blocks
                (length (SHA256.be_words (length (SHA256.pad (map to_N msg)))
                           (SHA256.pad (map to_N msg))))
                (SHA256.be_words (length (SHA256.pad (map to_N msg)))
                   (SHA256.pad (map to_N msg)))).
  intros bl. assert (H : length SHA256.H0 = 8%nat) by done.
  revert H. generalize SHA256.H0. induction bl as [|b bl IH]; intros st H; [done|].
  cbn [fold_left]. by apply IH, compress_length.
Qed.

Lemma concat_words_length ws :
  String.length (String.concat "" (map SHA256.hex_word ws)) = (8 * length ws)%nat.
Proof.
  induction ws as [|w ws IH]; [done|].
  cbn [map String.concat]. destruct ws as [|w' ws].
  - done.
  - cbn [map] in *. rewrite string_app_length.
    change (String.length (SHA256.hex_word w)) with 8%nat.
    change ("" +:+ String.concat "" (SHA256.hex_word w' :: map SHA256.hex_word ws))
      with (String.concat "" (SHA256.hex_word w' :: map SHA256.hex_word ws)).
    rewrite IH. cbn [length]. lia.
Qed.

(* A digest is 64 characters long. *)
Lemma hexdigest_length msg : String.length (SHA256.hexdigest msg) = 64%nat.
Proof.
  unfold SHA256.hexdigest. by rewrite concat_words_length, digest_words_length.
Qed.

Lemma substring_prefix_length n : ∀ s,
  (n <= String.length s)%nat → String.length (substring 0 n s) = n.
Proof.
  induction n as [|n IH]; intros [|c s] H; simpl in *; try done; try lia.
  f_equal. apply IH. lia.
Qed.

End DigestLength.

(** ** TUS uploads: cancelling, independence, framing *)

Section TusExtras.
Local Open Scope Z_scope.

(** X1: for an id that is a plain name (not empty, without [/], neither
    [.] nor [..]: the ids that name a file in the uploads directory),
    [tus_delete_upload] answers 204 whether the upload exists or not and
    whoever calls; afterwards the upload is gone: querying it and sending a
    chunk to it fail with 404, and deleting it again changes nothing. *)
Theorem tus_delete_upload_removes_upload :
  ∀ STORAGE_DIR (fs : gmap string (list byte)) upload_id current_user,
    Pathlib.plain_name upload_id = true →
    snd (Tus.tus_delete_upload STORAGE_DIR fs upload_id current_user)
    = Ok (mkResponse 204 [("Tus-Resumable", "1.0.0")]) ∧
    tus_session STORAGE_DIR
      (fst (Tus.tus_delete_upload STORAGE_DIR fs upload_id current_user)) upload_id
    = None ∧
    (∀ user,
       Tus.tus_check_offset STORAGE_DIR
         (fst (Tus.tus_delete_upload STORAGE_DIR fs upload_id current_user))
         upload_id user
       = Raise NotFound) ∧
    (∀ stream upload_offset content_type user,
       Tus.tus_upload_chunk STORAGE_DIR
         (fst (Tus.tus_delete_upload STORAGE_DIR fs upload_id current_user))
         upload_id stream upload_offset content_type user
       = (fst (Tus.tus_delete_upload STORAGE_DIR fs upload_id current_user), [],
          Raise NotFound)) ∧
    (∀ user,
       fst (Tus.tus_delete_upload STORAGE_DIR
              (fst (Tus.tus_delete_upload STORAGE_DIR fs upload_id current_user))
              upload_id user)
       = fst (Tus.tus_delete_upload STORAGE_DIR fs upload_id current_user)).
Proof.
  intros STORAGE_DIR fs upload_id current_user Hid.
  unfold Tus.tus_delete_upload. cbn [fst snd].
  set (up := Tus.get_upload_path STORAGE_DIR upload_id).
  set (mp := Tus.get_metadata_path STORAGE_DIR upload_id).
  assert (Hup : delete mp (delete up fs) !! up = None).
  { rewrite lookup_delete_ne by apply metadata_path_ne_upload_path.
    apply lookup_delete_eq. }
  assert (Hmp : delete mp (delete up fs) !! mp = None) by apply lookup_delete_eq.
  split; [done|]. split; [|split; [|split]].
  - unfold tus_session. fold up. by rewrite Hup.
  - intros user. unfold Tus.tus_check_offset. fold up. by rewrite Hup.
  - intros stream upload_offset content_type user.
    unfold Tus.tus_upload_chunk. fold up. by rewrite Hup.
  - intros user. rewrite (delete_id _ up) by done. by rewrite delete_id.
Qed.

(** X1, witness: Alice's upload, five bytes in, deleted by Bob. *)
Lemma tus_delete_upload_removes_upload_witness :
  snd (Tus.tus_delete_upload Scenario.storage Scenario.tus_half Scenario.tus_id
         Scenario.bob)
  = Ok (mkResponse 204 [("Tus-Resumable", "1.0.0")]) ∧
  tus_session Scenario.storage
    (fst (Tus.tus_delete_upload Scenario.storage Scenario.tus_half Scenario.tus_id
            Scenario.bob)) Scenario.tus_id
  = None ∧
  (∀ user,
     Tus.tus_check_offset Scenario.storage
       (fst (Tus.tus_delete_upload Scenario.storage Scenario.tus_half Scenario.tus_id
               Scenario.bob))
       Scenario.tus_id user
     = Raise NotFound) ∧
  (∀ stream upload_offset content_type user,
     Tus.tus_upload_chunk Scenario.storage
       (fst (Tus.tus_delete_upload Scenario.storage Scenario.tus_half Scenario.tus_id
               Scenario.bob))
       Scenario.tus_id stream upload_offset content_type user
     = (fst (Tus.tus_delete_upload Scenario.storage Scenario.tus_half Scenario.tus_id
               Scenario.bob), [],
        Raise NotFound)) ∧
  (∀ user,
     fst (Tus.tus_delete_upload Scenario.storage
            (fst (Tus.tus_delete_upload Scenario.storage Scenario.tus_half
                    Scenario.tus_id Scenario.bob))
            Scenario.tus_id user)
     = fst (Tus.tus_delete_upload Scenario.storage Scenario.tus_half Scenario.tus_id
              Scenario.bob)).
Proof.
  refine (tus_delete_upload_removes_upload Scenario.storage Scenario.tus_half
            Scenario.tus_id Scenario.bob _).
  vm_compute. reflexivity.
Defined.

(** X2: the handlers of one upload leave the files of another upload as
    they are, provided both ids are plain names (without [/], and none of
    the empty id, [.] and [..]: otherwise two ids can name the same files),
    the two ids differ and neither is the other followed by [.metadata]
    (the data file of [x.metadata] is the metadata file of [x]). *)
Theorem tus_uploads_are_independent :
  ∀ STORAGE_DIR (fs : gmap string (list byte)) upload_id other,
    Pathlib.plain_name upload_id = true →
    Pathlib.plain_name other = true →
    other ≠ upload_id →
    other ≠ upload_id +:+ ".metadata" →
    upload_id ≠ other +:+ ".metadata" →
    (∀ stream upload_offset content_type user,
       fst (fst (Tus.tus_upload_chunk STORAGE_DIR fs upload_id stream upload_offset
                   content_type user)) !! Tus.get_upload_path STORAGE_DIR other
       = fs !! Tus.get_upload_path STORAGE_DIR other ∧
       fst (fst (Tus.tus_upload_chunk STORAGE_DIR fs upload_id stream upload_offset
                   content_type user)) !! Tus.get_metadata_path STORAGE_DIR other
       = fs !! Tus.get_metadata_path STORAGE_DIR other) ∧
    (∀ user,
       fst (Tus.tus_delete_upload STORAGE_DIR fs upload_id user)
         !! Tus.get_upload_path STORAGE_DIR other
       = fs !! Tus.get_upload_path STORAGE_DIR other ∧
       fst (Tus.tus_delete_upload STORAGE_DIR fs upload_id user)
         !! Tus.get_metadata_path STORAGE_DIR other
       = fs !! Tus.get_metadata_path STORAGE_DIR other) ∧
    (∀ request_url upload_length upload_metadata user,
       upload_id = Tus.make_upload_id user upload_length upload_metadata →
       fst (Tus.tus_create_upload STORAGE_DIR fs request_url upload_length
              upload_metadata user) !! Tus.get_upload_path STORAGE_DIR other
       = fs !! Tus.get_upload_path STORAGE_DIR other ∧
       fst (Tus.tus_create_upload STORAGE_DIR fs request_url upload_length
              upload_metadata user) !! Tus.get_metadata_path STORAGE_DIR other
       = fs !! Tus.get_metadata_path STORAGE_DIR other).
Proof.
  intros STORAGE_DIR fs upload_id other Hplain Hother Hne Hom Hmo.
  assert (H1 : Tus.get_upload_path STORAGE_DIR upload_id
               ≠ Tus.get_upload_path STORAGE_DIR other)
    by (intros H; apply tus_upload_path_inj in H; congruence).
  assert (H2 : Tus.get_upload_path STORAGE_DIR upload_id
               ≠ Tus.get_metadata_path STORAGE_DIR other)
    by (rewrite metadata_path_as_upload_path; intros H;
        apply tus_upload_path_inj in H; congruence).
  assert (H3 : Tus.get_metadata_path STORAGE_DIR upload_id
               ≠ Tus.get_upload_path STORAGE_DIR other)
    by (rewrite metadata_path_as_upload_path; intros H;
        apply tus_upload_path_inj in H; congruence).
  assert (H4 : Tus.get_metadata_path STORAGE_DIR upload_id
               ≠ Tus.get_metadata_path STORAGE_DIR other).
  { rewrite !metadata_path_as_upload_path. intros H.
    apply tus_upload_path_inj, string_app_inj_r in H. congruence. }
  split; [|split].
  - intros stream upload_offset content_type user. unfold Tus.tus_upload_chunk.
    destruct (fs !! Tus.get_upload_path STORAGE_DIR upload_id) as [data|]; [|done].
    destruct (fs !! Tus.get_metadata_path STORAGE_DIR upload_id); [|done].
    case_bool_decide; [done|]. case_bool_decide; [done|].
    destruct (Py.int _); [|done]. rewrite write_stream_file. cbn [fst].
    by rewrite !lookup_insert_ne.
  - intros user. unfold Tus.tus_delete_upload. cbn [fst].
    by rewrite !lookup_delete_ne.
  - intros request_url upload_length upload_metadata user Hid.
    unfold Tus.tus_create_upload. case_bool_decide; [done|]. cbn [fst].
    rewrite <- Hid. unfold Tus.touch. destruct (_ !! Tus.get_upload_path STORAGE_DIR upload_id);
      by rewrite ?lookup_insert_ne.
Qed.

(** X2, witness: a chunk to Alice's upload and its deletion, seen from
    another id. *)
Lemma tus_uploads_are_independent_witness :
  (∀ stream upload_offset content_type user,
     fst (fst (Tus.tus_upload_chunk Scenario.storage Scenario.tus_created
                 Scenario.tus_id stream upload_offset content_type user))
       !! Tus.get_upload_path Scenario.storage "0123456789abcdef"
     = Scenario.tus_created !! Tus.get_upload_path Scenario.storage "0123456789abcdef" ∧
     fst (fst (Tus.tus_upload_chunk Scenario.storage Scenario.tus_created
                 Scenario.tus_id stream upload_offset content_type user))
       !! Tus.get_metadata_path Scenario.storage "0123456789abcdef"
     = Scenario.tus_created
         !! Tus.get_metadata_path Scenario.storage "0123456789abcdef") ∧
  (∀ user,
     fst (Tus.tus_delete_upload Scenario.storage Scenario.tus_created
            Scenario.tus_id user)
       !! Tus.get_upload_path Scenario.storage "0123456789abcdef"
     = Scenario.tus_created !! Tus.get_upload_path Scenario.storage "0123456789abcdef" ∧
     fst (Tus.tus_delete_upload Scenario.storage Scenario.tus_created
            Scenario.tus_id user)
       !! Tus.get_metadata_path Scenario.storage "0123456789abcdef"
     = Scenario.tus_created
         !! Tus.get_metadata_path Scenario.storage "0123456789abcdef") ∧
  (∀ request_url upload_length upload_metadata user,
     Scenario.tus_id = Tus.make_upload_id user upload_length upload_metadata →
     fst (Tus.tus_create_upload Scenario.storage Scenario.tus_created request_url
            upload_length upload_metadata user)
       !! Tus.get_upload_path Scenario.storage "0123456789abcdef"
     = Scenario.tus_created !! Tus.get_upload_path Scenario.storage "0123456789abcdef" ∧
     fst (Tus.tus_create_upload Scenario.storage Scenario.tus_created request_url
            upload_length upload_metadata user)
       !! Tus.get_metadata_path Scenario.storage "0123456789abcdef"
     = Scenario.tus_created
         !! Tus.get_metadata_path Scenario.storage "0123456789abcdef").
Proof.
  refine (tus_uploads_are_independent Scenario.storage Scenario.tus_created
            Scenario.tus_id "0123456789abcdef" _ _ _ _ _);
    vm_compute; first [reflexivity | discriminate].
Defined.

(** X3: a chunk sent to an existing upload with another content type than
    [application/offset+octet-stream] is refused with 415 whatever offset it
    claims, and nothing is written or printed. *)
Theorem tus_upload_chunk_wrong_content_type :
  ∀ STORAGE_DIR (fs : gmap string (list byte)) upload_id stream upload_offset
    content_type current_user data meta,
    fs !! Tus.get_upload_path STORAGE_DIR upload_id = Some data →
    fs !! Tus.get_metadata_path STORAGE_DIR upload_id = Some meta →
    content_type ≠ "application/offset+octet-stream" →
    Tus.tus_upload_chunk STORAGE_DIR fs upload_id stream upload_offset content_type
      current_user
    = (fs, [],
       Raise (HTTPException 415
                "Content-Type must be application/offset+octet-stream")).
Proof.
  intros STORAGE_DIR fs upload_id stream upload_offset content_type current_user
    data meta Hd Hm Hct.
  unfold Tus.tus_upload_chunk. rewrite Hd, Hm. by guard_holds.
Qed.

(** X3, witness: five bytes sent as [application/octet-stream] at a stale
    offset. *)
Lemma tus_upload_chunk_wrong_content_type_witness :
  Tus.tus_upload_chunk Scenario.storage Scenario.tus_half Scenario.tus_id
    [Scenario.zeros 5] 0 "application/octet-stream" Scenario.alice
  = (Scenario.tus_half, [],
     Raise (HTTPException 415
              "Content-Type must be application/offset+octet-stream")).
Proof.
  refine (tus_upload_chunk_wrong_content_type Scenario.storage Scenario.tus_half
            Scenario.tus_id [Scenario.zeros 5] 0 "application/octet-stream"
            Scenario.alice (Scenario.zeros 5) (Py.encode ("10" +:+ String "010" ""))
            _ _ _);
    vm_compute; first [reflexivity | discriminate].
Defined.

(** X4: after a chunk was accepted, [tus_check_offset] reports, to any
    caller, the offset the chunk's response reported: the offset before
    plus the bytes of the stream, with the declared length unchanged. *)
Theorem tus_chunk_then_check_offset :
  ∀ STORAGE_DIR (fs : gmap string (list byte)) upload_id stream current_user user
    offset declared,
    tus_session STORAGE_DIR fs upload_id = Some (offset, declared) →
    response_header "Upload-Offset"
      (snd (Tus.tus_upload_chunk STORAGE_DIR fs upload_id stream offset
              "application/offset+octet-stream" current_user))
    = Some (Py.str (offset + Py.len (concat stream))) ∧
    Tus.tus_check_offset STORAGE_DIR
      (fst (fst (Tus.tus_upload_chunk STORAGE_DIR fs upload_id stream offset
                   "application/offset+octet-stream" current_user)))
      upload_id user
    = Ok (mkResponse 200
            [("Tus-Resumable", "1.0.0");
             ("Upload-Offset", Py.str (offset + Py.len (concat stream)));
             ("Upload-Length", Py.str declared);
             ("Cache-Control", "no-store");
             ("Access-Control-Expose-Headers", "Upload-Offset, Upload-Length")]).
Proof.
  intros STORAGE_DIR fs upload_id stream current_user user offset declared Hs.
  pose proof Hs as Hs'.
  apply tus_session_Some in Hs' as (data & meta & Hd & Hm & Hp & ->).
  erewrite tus_upload_chunk_accepts by done. cbn [fst snd response_header headers].
  rewrite len_app. split; [done|].
  unfold Tus.tus_check_offset.
  rewrite lookup_insert_eq, lookup_insert_ne by apply upload_path_ne_metadata_path.
  by rewrite Hm, Hp, len_app.
Qed.

(** X4, witness: the second half of ten bytes after the first. *)
Lemma tus_chunk_then_check_offset_witness :
  response_header "Upload-Offset"
    (snd (Tus.tus_upload_chunk Scenario.storage Scenario.tus_half Scenario.tus_id
            [Scenario.zeros 2; Scenario.zeros 3] 5 "application/offset+octet-stream"
            Scenario.alice))
  = Some (Py.str (5 + Py.len (concat [Scenario.zeros 2; Scenario.zeros 3]))) ∧
  Tus.tus_check_offset Scenario.storage
    (fst (fst (Tus.tus_upload_chunk Scenario.storage Scenario.tus_half Scenario.tus_id
                 [Scenario.zeros 2; Scenario.zeros 3] 5
                 "application/offset+octet-stream" Scenario.alice)))
    Scenario.tus_id Scenario.bob
  = Ok (mkResponse 200
          [("Tus-Resumable", "1.0.0");
           ("Upload-Offset",
            Py.str (5 + Py.len (concat [Scenario.zeros 2; Scenario.zeros 3])));
           ("Upload-Length", Py.str 10);
           ("Cache-Control", "no-store");
           ("Access-Control-Expose-Headers", "Upload-Offset, Upload-Length")]).
Proof.
  refine (tus_chunk_then_check_offset Scenario.storage Scenario.tus_half
            Scenario.tus_id [Scenario.zeros 2; Scenario.zeros 3] Scenario.alice
            Scenario.bob 5 10 _).
  vm_compute. reflexivity.
Defined.

(** X5: right after [tus_create_upload] accepted a declared length,
    [tus_check_offset] on the id it gave returns that length, and as offset
    the size of the data file of that id that was already there, 0 when
    there was none: creation never truncates. *)
Theorem tus_create_then_check_offset :
  ∀ STORAGE_DIR (fs : gmap string (list byte)) request_url upload_length
    upload_metadata current_user user,
    upload_length <= Tus.MAX_FILE_SIZE →
    Tus.tus_check_offset STORAGE_DIR
      (fst (Tus.tus_create_upload STORAGE_DIR fs request_url upload_length
              upload_metadata current_user))
      (Tus.make_upload_id current_user upload_length upload_metadata) user
    = Ok (mkResponse 200
            [("Tus-Resumable", "1.0.0");
             ("Upload-Offset",
              Py.str (Py.len (default []
                                (fs !! Tus.get_upload_path STORAGE_DIR
                                         (Tus.make_upload_id current_user upload_length
                                            upload_metadata)))));
             ("Upload-Length", Py.str upload_length);
             ("Cache-Control", "no-store");
             ("Access-Control-Expose-Headers", "Upload-Offset, Upload-Length")]) ∧
    fst (Tus.tus_create_upload STORAGE_DIR fs request_url upload_length
           upload_metadata current_user)
      !! Tus.get_upload_path STORAGE_DIR
           (Tus.make_upload_id current_user upload_length upload_metadata)
    = Some (default []
              (fs !! Tus.get_upload_path STORAGE_DIR
                       (Tus.make_upload_id current_user upload_length
                          upload_metadata))).
Proof.
  intros STORAGE_DIR fs request_url upload_length upload_metadata current_user user
    Hle.
  destruct (tus_create_upload_session STORAGE_DIR fs request_url upload_length
              upload_metadata current_user Hle) as (fs' & loc & Hc & _ & Hs).
  rewrite Hc. cbn [fst].
  pose proof Hs as Hs'.
  apply tus_session_Some in Hs' as (data & meta & Hd & Hm & Hp & Hlen).
  unfold Tus.tus_check_offset. rewrite Hd, Hm, Hp, <- Hlen. split; [done|].
  f_equal.
  revert Hc Hd. unfold Tus.tus_create_upload. guard_fails. intros [= <-].
  unfold Tus.touch.
  rewrite (lookup_insert_ne _ (Tus.get_metadata_path STORAGE_DIR _))
    by apply metadata_path_ne_upload_path.
  destruct (fs !! Tus.get_upload_path STORAGE_DIR _) as [d|] eqn:E.
  - rewrite lookup_insert_ne
      by apply metadata_path_ne_upload_path.
    rewrite E. by intros [= <-].
  - rewrite lookup_insert_eq. by intros [= <-].
Qed.

(** X5, witness: Alice creates her ten-byte upload again after five bytes
    arrived. *)
Lemma tus_create_then_check_offset_witness :
  Tus.tus_check_offset Scenario.storage
    (fst (Tus.tus_create_upload Scenario.storage Scenario.tus_half Scenario.url 10
            None Scenario.alice))
    (Tus.make_upload_id Scenario.alice 10 None) Scenario.alice
  = Ok (mkResponse 200
          [("Tus-Resumable", "1.0.0");
           ("Upload-Offset",
            Py.str (Py.len (default []
                              (Scenario.tus_half
                                 !! Tus.get_upload_path Scenario.storage
                                      (Tus.make_upload_id Scenario.alice 10 None)))));
           ("Upload-Length", Py.str 10);
           ("Cache-Control", "no-store");
           ("Access-Control-Expose-Headers", "Upload-Offset, Upload-Length")]) ∧
  fst (Tus.tus_create_upload Scenario.storage Scenario.tus_half Scenario.url 10 None
         Scenario.alice)
    !! Tus.get_upload_path Scenario.storage (Tus.make_upload_id Scenario.alice 10 None)
  = Some (default []
            (Scenario.tus_half
               !! Tus.get_upload_path Scenario.storage
                    (Tus.make_upload_id Scenario.alice 10 None))).
Proof.
  refine (tus_create_then_check_offset Scenario.storage Scenario.tus_half
            Scenario.url 10 None Scenario.alice Scenario.alice _).
  vm_compute. discriminate.
Defined.

(** X6: deleting an upload and creating it again with the same request
    starts it over: the upload is at offset 0 with the declared length,
    whatever had been received. *)
Theorem tus_delete_then_create_restarts :
  ∀ STORAGE_DIR (fs : gmap string (list byte)) request_url upload_length
    upload_metadata current_user,
    upload_length <= Tus.MAX_FILE_SIZE →
    tus_session STORAGE_DIR
      (fst (Tus.tus_create_upload STORAGE_DIR
              (fst (Tus.tus_delete_upload STORAGE_DIR fs
                      (Tus.make_upload_id current_user upload_length upload_metadata)
                      current_user))
              request_url upload_length upload_metadata current_user))
      (Tus.make_upload_id current_user upload_length upload_metadata)
    = Some (0, upload_length).
Proof.
  intros STORAGE_DIR fs request_url upload_length upload_metadata current_user Hle.
  destruct (tus_create_upload_session STORAGE_DIR
              (fst (Tus.tus_delete_upload STORAGE_DIR fs
                      (Tus.make_upload_id current_user upload_length upload_metadata)
                      current_user))
              request_url upload_length upload_metadata current_user Hle)
    as (fs' & loc & Hc & _ & Hs).
  rewrite Hc. cbn [fst]. rewrite Hs. do 2 f_equal.
  unfold Tus.tus_delete_upload. cbn [fst].
  rewrite lookup_delete_ne by apply metadata_path_ne_upload_path.
  by rewrite lookup_delete_eq.
Qed.

(** X6, witness: Alice's upload, five bytes in, deleted and created again. *)
Lemma tus_delete_then_create_restarts_witness :
  tus_session Scenario.storage
    (fst (Tus.tus_create_upload Scenario.storage
            (fst (Tus.tus_delete_upload Scenario.storage Scenario.tus_half
                    (Tus.make_upload_id Scenario.alice 10 None) Scenario.alice))
            Scenario.url 10 None Scenario.alice))
    (Tus.make_upload_id Scenario.alice 10 None)
  = Some (0, 10).
Proof.
  refine (tus_delete_then_create_restarts Scenario.storage Scenario.tus_half
            Scenario.url 10 None Scenario.alice _).
  vm_compute. discriminate.
Defined.

(** X7: the maximum size [tus_options_create] advertises in [Tus-Max-Size]
    is the bound [tus_create_upload] enforces: a creation is refused with
    413 exactly when the declared length exceeds the advertised number. *)
Theorem tus_max_size_is_advertised :
  ∀ STORAGE_DIR (fs : gmap string (list byte)) request_url upload_length
    upload_metadata current_user,
    ∃ advertised,
      header "Tus-Max-Size" (headers Tus.tus_options_create) ≫= Py.int
      = Some advertised ∧
      (snd (Tus.tus_create_upload STORAGE_DIR fs request_url upload_length
              upload_metadata current_user) = Raise TooLarge
       ↔ upload_length > advertised).
Proof.
  intros STORAGE_DIR fs request_url upload_length upload_metadata current_user.
  exists Tus.MAX_FILE_SIZE. split.
  - cbn [Tus.tus_options_create headers header]. cbn. apply int_str.
  - unfold Tus.tus_create_upload. by case_bool_decide.
Qed.

(** X8: every id [tus_create_upload] gives is 16 characters long, so the
    id of one upload is never the id of another followed by [.metadata]:
    uploads made with different ids do not share a file. *)
Theorem tus_upload_id_length :
  ∀ current_user upload_length upload_metadata,
    String.length (Tus.make_upload_id current_user upload_length upload_metadata)
    = 16%nat ∧
    ∀ other_user other_length other_metadata,
      Tus.make_upload_id current_user upload_length upload_metadata
      ≠ Tus.make_upload_id other_user other_length other_metadata +:+ ".metadata".
Proof.
  assert (Hlen : ∀ u l m, String.length (Tus.make_upload_id u l m) = 16%nat).
  { intros. unfold Tus.make_upload_id. apply substring_prefix_length.
    rewrite hexdigest_length. lia. }
  intros current_user upload_length upload_metadata. split; [apply Hlen|].
  intros other_user other_length other_metadata H.
  apply (f_equal String.length) in H.
  rewrite string_app_length, !Hlen in H. simpl in H. lia.
Qed.

(** X9: [tus_upload_chunk] only ever appends: whatever it is asked and
    whatever it answers, the data file it leaves starts with the data file it
    found. *)
Theorem tus_upload_chunk_appends_only :
  ∀ STORAGE_DIR (fs : gmap string (list byte)) upload_id stream upload_offset
    content_type current_user data,
    fs !! Tus.get_upload_path STORAGE_DIR upload_id = Some data →
    ∃ data',
      fst (fst (Tus.tus_upload_chunk STORAGE_DIR fs upload_id stream upload_offset
                  content_type current_user))
        !! Tus.get_upload_path STORAGE_DIR upload_id = Some data' ∧
      data `prefix_of` data' ∧
      (data' = data ∨ data' = data ++ concat stream).
Proof.
  intros STORAGE_DIR fs upload_id stream upload_offset content_type current_user
    data Hd.
  unfold Tus.tus_upload_chunk. rewrite Hd.
  destruct (fs !! Tus.get_metadata_path STORAGE_DIR upload_id);
    [|exists data; cbn; auto].
  case_bool_decide; [exists data; cbn; auto|].
  case_bool_decide; [exists data; cbn; auto|].
  destruct (Py.int _); [|exists data; cbn; auto].
  rewrite write_stream_file. cbn [fst]. rewrite lookup_insert_eq.
  eexists. split; [done|]. split; [by apply prefix_app_r|by right].
Qed.

(** X9, witness: five more bytes on Alice's upload. *)
Lemma tus_upload_chunk_appends_only_witness :
  ∃ data',
    fst (fst (Tus.tus_upload_chunk Scenario.storage Scenario.tus_half Scenario.tus_id
                [Scenario.zeros 5] 5 "application/offset+octet-stream"
                Scenario.alice))
      !! Tus.get_upload_path Scenario.storage Scenario.tus_id = Some data' ∧
    Scenario.zeros 5 `prefix_of` data' ∧
    (data' = Scenario.zeros 5 ∨ data' = Scenario.zeros 5 ++ concat [Scenario.zeros 5]).
Proof.
  refine (tus_upload_chunk_appends_only Scenario.storage Scenario.tus_half
            Scenario.tus_id [Scenario.zeros 5] 5 "application/offset+octet-stream"
            Scenario.alice (Scenario.zeros 5) _).
  vm_compute. reflexivity.
Defined.

End TusExtras.

(** ** Sessions: creation and queries *)

Section UploadsExtras.
Local Open Scope Z_scope.

(** X10: [create_upload], [presign_upload] and [multipart_upload] refuse
    the same requests with 404 [Trip or segment not found] and change
    nothing: the trip or the segment does not exist, the segment belongs to
    another trip, or the trip belongs to another user. *)
Theorem creation_refused_changes_nothing :
  ∀ storage_dir w payload current_user new_id now file tmp_name,
    (trips w !! UploadCreateRequest.trip_id payload = None ∨
     segments w !! UploadCreateRequest.segment_id payload = None ∨
     (∃ segment,
        segments w !! UploadCreateRequest.segment_id payload = Some segment ∧
        Segment.trip_id segment ≠ UploadCreateRequest.trip_id payload) ∨
     (∃ trip,
        trips w !! UploadCreateRequest.trip_id payload = Some trip ∧
        Trip.user_id trip ≠ User.id current_user)) →
    Uploads.create_upload w payload current_user new_id now
    = (w, Raise (HTTPException 404 "Trip or segment not found")) ∧
    Uploads.presign_upload w payload current_user new_id now
    = (w, Raise (HTTPException 404 "Trip or segment not found")) ∧
    Uploads.multipart_upload storage_dir w file
      (UploadCreateRequest.trip_id payload) (UploadCreateRequest.segment_id payload)
      (UploadCreateRequest.filename payload) (UploadCreateRequest.file_type payload)
      (UploadCreateRequest.sha256 payload) current_user tmp_name
    = (w, Raise (HTTPException 404 "Trip or segment not found")).
Proof.
  intros storage_dir w payload current_user new_id now file tmp_name H.
  unfold Uploads.create_upload, Uploads.presign_upload, Uploads.multipart_upload.
  destruct (trips w !! UploadCreateRequest.trip_id payload) as [trip|] eqn:Ht;
    [|done].
  destruct (segments w !! UploadCreateRequest.segment_id payload) as [segment|]
    eqn:Hs; [|done].
  assert (Hb : bool_decide (Segment.trip_id segment ≠ UploadCreateRequest.trip_id payload)
               || bool_decide (Trip.user_id trip ≠ User.id current_user) = true).
  { destruct H as [H|[H|[(s & Hs' & H)|(t & Ht' & H)]]]; try done.
    - simplify_eq. by rewrite bool_decide_eq_true_2.
    - simplify_eq. rewrite (bool_decide_eq_true_2 (Trip.user_id _ ≠ _)) by done.
      by rewrite orb_true_r. }
  by rewrite Hb.
Qed.

(** X10, witness: Bob asks for an upload to Alice's trip. *)
Lemma creation_refused_changes_nothing_witness :
  Uploads.create_upload Scenario.world0 (Scenario.request None 10) Scenario.bob
    "upload-2" 100
  = (Scenario.world0, Raise (HTTPException 404 "Trip or segment not found")) ∧
  Uploads.presign_upload Scenario.world0 (Scenario.request None 10) Scenario.bob
    "upload-2" 100
  = (Scenario.world0, Raise (HTTPException 404 "Trip or segment not found")) ∧
  Uploads.multipart_upload Scenario.storage Scenario.world0 (Scenario.zeros 10)
    "trip-1" "seg-1" "ride.mp4" VIDEO_MP4 None Scenario.bob Scenario.tmp_name
  = (Scenario.world0, Raise (HTTPException 404 "Trip or segment not found")).
Proof.
  refine (creation_refused_changes_nothing Scenario.storage Scenario.world0
            (Scenario.request None 10) Scenario.bob "upload-2" 100 (Scenario.zeros 10)
            Scenario.tmp_name _).
  right. right. right. exists (Trip.mk "alice").
  split; vm_compute; first [reflexivity | discriminate].
Defined.

(** X11: a session [create_upload] stored is there for its owner:
    [head_upload] on the new id reports offset 0 and the declared length;
    every other session answers [head_upload] as before, and no file, trip,
    segment or stored file is touched. *)
Theorem create_then_head_upload :
  ∀ w payload current_user new_id now trip segment,
    trips w !! UploadCreateRequest.trip_id payload = Some trip →
    segments w !! UploadCreateRequest.segment_id payload = Some segment →
    Segment.trip_id segment = UploadCreateRequest.trip_id payload →
    Trip.user_id trip = User.id current_user →
    uploads w !! new_id = None →
    Uploads.head_upload
      (fst (Uploads.create_upload w payload current_user new_id now)) new_id
      current_user
    = Ok (mkResponse 204
            [("Upload-Offset", Py.str 0);
             ("Upload-Length", Py.str (UploadCreateRequest.upload_length payload))]) ∧
    (∀ other user,
       other ≠ new_id →
       Uploads.head_upload
         (fst (Uploads.create_upload w payload current_user new_id now)) other user
       = Uploads.head_upload w other user) ∧
    trips (fst (Uploads.create_upload w payload current_user new_id now)) = trips w ∧
    segments (fst (Uploads.create_upload w payload current_user new_id now))
    = segments w ∧
    stored_files (fst (Uploads.create_upload w payload current_user new_id now))
    = stored_files w ∧
    fs (fst (Uploads.create_upload w payload current_user new_id now)) = fs w.
Proof.
  intros w payload current_user new_id now trip segment Ht Hs Hst Hown Hnew.
  unfold Uploads.create_upload. rewrite Ht, Hs, Hnew. do 2 guard_fails.
  cbn [orb fst]. split; [|split; [|done]].
  - unfold Uploads.head_upload.
    rewrite (load_upload_owned _ _ _ _ trip (lookup_insert_eq _ _ _)); done.
  - intros other user Hne. unfold Uploads.head_upload, Uploads.load_upload.
    cbn [uploads set_uploads trips]. by rewrite lookup_insert_ne.
Qed.

(** X11, witness: Alice's session of ten bytes. *)
Lemma create_then_head_upload_witness :
  Uploads.head_upload
    (fst (Uploads.create_upload Scenario.world0 (Scenario.request None 10)
            Scenario.alice "upload-1" 100)) "upload-1" Scenario.alice
  = Ok (mkResponse 204
          [("Upload-Offset", Py.str 0);
           ("Upload-Length",
            Py.str (UploadCreateRequest.upload_length (Scenario.request None 10)))]) ∧
  (∀ other user,
     other ≠ "upload-1" →
     Uploads.head_upload
       (fst (Uploads.create_upload Scenario.world0 (Scenario.request None 10)
               Scenario.alice "upload-1" 100)) other user
     = Uploads.head_upload Scenario.world0 other user) ∧
  trips (fst (Uploads.create_upload Scenario.world0 (Scenario.request None 10)
                Scenario.alice "upload-1" 100)) = trips Scenario.world0 ∧
  segments (fst (Uploads.create_upload Scenario.world0 (Scenario.request None 10)
                   Scenario.alice "upload-1" 100)) = segments Scenario.world0 ∧
  stored_files (fst (Uploads.create_upload Scenario.world0 (Scenario.request None 10)
                       Scenario.alice "upload-1" 100))
  = stored_files Scenario.world0 ∧
  fs (fst (Uploads.create_upload Scenario.world0 (Scenario.request None 10)
             Scenario.alice "upload-1" 100)) = fs Scenario.world0.
Proof.
  refine (create_then_head_upload Scenario.world0 (Scenario.request None 10)
            Scenario.alice "upload-1" 100 (Trip.mk "alice")
            (Segment.mk "trip-1" None None) _ _ _ _ _);
    vm_compute; reflexivity.
Defined.

(** X12: [presign_upload] stores exactly the session [create_upload]
    stores and fails exactly when it fails; where [create_upload] answers
    with the session, [presign_upload] answers with its id and the path
    [/uploads/direct/] followed by that id. *)
Theorem presign_upload_as_create_upload :
  ∀ w payload current_user new_id now,
    fst (Uploads.presign_upload w payload current_user new_id now)
    = fst (Uploads.create_upload w payload current_user new_id now) ∧
    match snd (Uploads.create_upload w payload current_user new_id now) with
    | Ok r =>
        snd (Uploads.presign_upload w payload current_user new_id now)
        = Ok [("id", JStr (UploadRead.id r));
              ("upload_path", JStr ("/uploads/direct/" +:+ UploadRead.id r))]
    | Raise e =>
        snd (Uploads.presign_upload w payload current_user new_id now) = Raise e
    end.
Proof.
  intros w payload current_user new_id now.
  unfold Uploads.presign_upload, Uploads.create_upload.
  destruct (trips w !! _); [|done]. destruct (segments w !! _); [|done].
  destruct (_ || _); [done|]. by destruct (uploads w !! new_id).
Qed.

(** ** Direct PUT *)

(* The segment table after a finalized upload was recorded. *)
Lemma record_stored_file_segments w upload sha size :
  segments (Uploads.record_stored_file w upload sha size)
  = match segments w !! UploadSession.segment_id upload with
    | Some segment =>
        <[UploadSession.segment_id upload :=
            if bool_decide (UploadSession.file_type upload = VIDEO_MP4) then
              Segment.mk (Segment.trip_id segment) (Some size) (Some sha)
            else segment]> (segments w)
    | None => segments w
    end.
Proof.
  unfold Uploads.record_stored_file. cbn.
  by destruct (segments w !! UploadSession.segment_id upload).
Qed.

(* The comparison [upload.sha256 and computed_sha != upload.sha256] is
   false for no hash, an empty hash and the computed hash. *)
Lemma sha_given_and_differs_false sha expected :
  expected = None ∨ expected = Some "" ∨ expected = Some sha →
  Uploads.sha_given_and_differs sha expected = false.
Proof.
  intros [-> | [-> | ->]]; cbn.
  - done.
  - done.
  - rewrite (bool_decide_eq_false_2 (sha ≠ sha)).
    + apply andb_false_r.
    + intros Hne. by apply Hne.
Qed.

(** X13: [direct_put_upload] writes the whole body to the temporary file
    of the session and hands it to the finalizer; when the file name of the
    session is a plain name (so that the final path lies in the directory of
    the segment) and no hash is expected, or an empty one, or the one the
    finalizer computed, the session becomes COMPLETE whatever its status
    was, a [StoredFile] with the computed hash and size is appended, and the
    temporary file is gone from the storage the finalizer left. *)
Theorem direct_put_upload_completes :
  ∀ storage_dir w upload_id stream current_user upload trip fs2 sha size,
    uploads w !! upload_id = Some upload →
    trips w !! UploadSession.trip_id upload = Some trip →
    Trip.user_id trip = User.id current_user →
    Pathlib.plain_name (UploadSession.filename upload) = true →
    Storage.finalize_upload
      (<[storage_dir // "uploads" // (upload_id +:+ ".upload") := concat stream]> (fs w))
      (storage_dir // "uploads" // (upload_id +:+ ".upload"))
      (final_path storage_dir upload)
    = Ok (fs2, (sha, size)) →
    (UploadSession.sha256 upload = None ∨ UploadSession.sha256 upload = Some "" ∨
     UploadSession.sha256 upload = Some sha) →
    ∃ w',
      Uploads.direct_put_upload storage_dir w upload_id stream current_user
      = (w', Ok [("status", JStr "ok"); ("sha", JStr sha); ("size", JInt size)]) ∧
      uploads w' = <[upload_id := UploadSession.set_status COMPLETE upload]> (uploads w) ∧
      stored_files w' = stored_files w ++ [stored_file_of upload sha size] ∧
      trips w' = trips w ∧
      fs w' = delete (storage_dir // "uploads" // (upload_id +:+ ".upload")) fs2.
Proof.
  intros storage_dir w upload_id stream current_user upload trip fs2 sha size
    Hu Ht Hown Hname Hfin Hsha.
  unfold Uploads.direct_put_upload. erewrite load_upload_owned by done.
  cbn [fs set_fs]. fold (final_path storage_dir upload). rewrite Hfin.
  rewrite (sha_given_and_differs_false _ _ Hsha). eexists. split; [reflexivity|].
  match goal with |- context [Uploads.record_stored_file ?w ?u ?s ?n] =>
    destruct (record_stored_file_fields w u s n) as (Htr & Hup & Hf & Hsf) end.
  cbn [uploads set_uploads set_fs stored_files trips fs].
  rewrite Hsf, Htr, Hf, Hup. cbn [uploads set_fs stored_files trips fs]. done.
Qed.

(** X13, witness: ten zero bytes PUT to Alice's session, which expects
    their hash. *)
Lemma direct_put_upload_completes_witness :
  ∃ w',
    Uploads.direct_put_upload Scenario.storage (Scenario.created (Some Scenario.H10))
      "upload-1" [Scenario.zeros 4; Scenario.zeros 6] Scenario.alice
    = (w', Ok [("status", JStr "ok"); ("sha", JStr Scenario.H10); ("size", JInt 10)]) ∧
    uploads w'
    = <["upload-1" :=
          UploadSession.set_status COMPLETE
            (UploadSession.mk "trip-1" "seg-1" "ride.mp4" VIDEO_MP4
               (Some Scenario.H10) 10 0 PENDING 100)]>
        (uploads (Scenario.created (Some Scenario.H10))) ∧
    stored_files w'
    = stored_files (Scenario.created (Some Scenario.H10))
      ++ [stored_file_of
            (UploadSession.mk "trip-1" "seg-1" "ride.mp4" VIDEO_MP4
               (Some Scenario.H10) 10 0 PENDING 100) Scenario.H10 10] ∧
    trips w' = trips (Scenario.created (Some Scenario.H10)) ∧
    fs w'
    = delete (Scenario.storage // "uploads" // ("upload-1" +:+ ".upload"))
        {[ "storage/segments/seg-1/ride.mp4" := Scenario.zeros 10 ]}.
Proof.
  refine (direct_put_upload_completes Scenario.storage
            (Scenario.created (Some Scenario.H10)) "upload-1"
            [Scenario.zeros 4; Scenario.zeros 6] Scenario.alice
            (UploadSession.mk "trip-1" "seg-1" "ride.mp4" VIDEO_MP4
               (Some Scenario.H10) 10 0 PENDING 100)
            (Trip.mk "alice")
            {[ "storage/segments/seg-1/ride.mp4" := Scenario.zeros 10 ]}
            Scenario.H10 10 _ _ _ _ _ _);
    try (vm_compute; reflexivity).
  right. right. reflexivity.
Defined.



(** X15: [direct_put_upload] never writes the offset or the declared
    length of a session: whatever it is asked and whatever it answers,
    [head_upload] answers every caller afterwards as it did before. *)
Theorem direct_put_upload_keeps_head_upload :
  ∀ storage_dir w upload_id stream current_user user,
    Uploads.head_upload
      (fst (Uploads.direct_put_upload storage_dir w upload_id stream current_user))
      upload_id user
    = Uploads.head_upload w upload_id user.
Proof.
  intros storage_dir w upload_id stream current_user user.
  unfold Uploads.direct_put_upload.
  destruct (Uploads.load_upload w upload_id current_user) as [upload|e] eqn:Hl;
    [|done].
  apply load_upload_Ok in Hl as (Hu & trip & Ht & Hown).
  assert (Hhead : ∀ w' s,
            uploads w' = <[upload_id := UploadSession.set_status s upload]> (uploads w) →
            trips w' = trips w →
            Uploads.head_upload w' upload_id user = Uploads.head_upload w upload_id user).
  { intros w' s Hup Htr. unfold Uploads.head_upload, Uploads.load_upload.
    rewrite Hup, Htr, lookup_insert_eq, Hu. cbn. rewrite Ht.
    by case_bool_decide. }
  cbn [fs set_fs].
  destruct (Storage.finalize_upload _ _ _) as [[fs2 [sha size]]|e]; cbn [fst].
  - destruct (Uploads.sha_given_and_differs sha (UploadSession.sha256 upload)).
    + by apply (Hhead _ FAILED).
    + match goal with |- context [Uploads.record_stored_file ?w ?u ?s ?n] =>
        destruct (record_stored_file_fields w u s n) as (Htr & Hup & _ & _) end.
      apply (Hhead _ COMPLETE); cbn [uploads set_uploads set_fs trips];
        rewrite ?Hup, ?Htr; done.
  - unfold Uploads.head_upload, Uploads.load_upload. done.
Qed.

(** X16: [direct_put_upload] on a session that does not exist, or that
    belongs to a trip of another user, fails with 404 [Upload not found]
    before anything is written: the world is left as it was. *)
Theorem direct_put_upload_not_found :
  ∀ storage_dir w upload_id stream current_user,
    (uploads w !! upload_id = None ∨
     ∃ upload trip,
       uploads w !! upload_id = Some upload ∧
       trips w !! UploadSession.trip_id upload = Some trip ∧
       Trip.user_id trip ≠ User.id current_user) →
    Uploads.direct_put_upload storage_dir w upload_id stream current_user
    = (w, Raise NotFound).
Proof.
  intros storage_dir w upload_id stream current_user H.
  unfold Uploads.direct_put_upload.
  destruct H as [H|(upload & trip & Hu & Ht & Hne)].
  - by rewrite load_upload_missing.
  - by erewrite load_upload_not_owner.
Qed.

(** X16, witness: Bob PUTs to Alice's session. *)
Lemma direct_put_upload_not_found_witness :
  Uploads.direct_put_upload Scenario.storage (Scenario.created None) "upload-1"
    [Scenario.zeros 10] Scenario.bob
  = (Scenario.created None, Raise NotFound).
Proof.
  refine (direct_put_upload_not_found Scenario.storage (Scenario.created None)
            "upload-1" [Scenario.zeros 10] Scenario.bob _).
  right.
  exists (UploadSession.mk "trip-1" "seg-1" "ride.mp4" VIDEO_MP4 None 10 0 PENDING 100),
         (Trip.mk "alice").
  repeat split; vm_compute; first [reflexivity | discriminate].
Defined.

(** ** Multipart uploads *)

(** X17: [multipart_upload] copies the whole file, however long, to the
    temporary file and hands it to the finalizer; when the file name is a
    plain name (so that the final path lies in the directory of the segment)
    and no hash is expected, or an empty one, or the one the finalizer
    computed, it appends a
    [StoredFile] with the computed hash and size, sets the size and hash of
    the segment for an MP4 video and only then, creates no upload session,
    and leaves the storage of the finalizer without the temporary file. *)
Theorem multipart_upload_stores_file :
  ∀ storage_dir w file (trip_id segment_id : UUID) filename file_type expected
    current_user tmp_name trip segment fs2 sha size,
    trips w !! trip_id = Some trip →
    segments w !! segment_id = Some segment →
    Segment.trip_id segment = trip_id →
    Trip.user_id trip = User.id current_user →
    Pathlib.plain_name filename = true →
    Storage.finalize_upload
      (<[storage_dir // "uploads" // tmp_name := file]> (fs w))
      (storage_dir // "uploads" // tmp_name)
      (storage_dir // "segments" // segment_id // filename)
    = Ok (fs2, (sha, size)) →
    (expected = None ∨ expected = Some "" ∨ expected = Some sha) →
    Uploads.multipart_upload storage_dir w file trip_id segment_id filename file_type
      expected current_user tmp_name
    = (mkWorld (trips w)
         (if bool_decide (file_type = VIDEO_MP4) then
            <[segment_id := Segment.mk (Segment.trip_id segment) (Some size) (Some sha)]>
              (segments w)
          else segments w)
         (uploads w)
         (stored_files w
          ++ [StoredFile.mk segment_id file_type ("segments" // segment_id // filename)
                sha size])
         (delete (storage_dir // "uploads" // tmp_name) fs2),
       Ok [("status", JStr "ok");
           ("path", JStr (storage_dir // "segments" // segment_id // filename));
           ("sha", JStr sha); ("size", JInt size)]).
Proof.
  intros storage_dir w file trip_id segment_id filename file_type expected
    current_user tmp_name trip segment fs2 sha size Ht Hs Hst Hown Hname Hfin Hexp.
  unfold Uploads.multipart_upload. rewrite Ht, Hs. do 2 guard_fails.
  cbn [orb fs set_fs]. rewrite copy_file_whole, Hfin.
  rewrite (sha_given_and_differs_false _ _ Hexp).
  by case_bool_decide.
Qed.

(** X17, witness: ten zero bytes for Alice's segment, with their hash. *)
Lemma multipart_upload_stores_file_witness :
  Uploads.multipart_upload Scenario.storage Scenario.world0 (Scenario.zeros 10)
    "trip-1" "seg-1" "ride.mp4" VIDEO_MP4 (Some Scenario.H10) Scenario.alice
    Scenario.tmp_name
  = (mkWorld (trips Scenario.world0)
       (if bool_decide (VIDEO_MP4 = VIDEO_MP4) then
          <["seg-1" := Segment.mk (Segment.trip_id (Segment.mk "trip-1" None None))
                         (Some 10) (Some Scenario.H10)]> (segments Scenario.world0)
        else segments Scenario.world0)
       (uploads Scenario.world0)
       (stored_files Scenario.world0
        ++ [StoredFile.mk "seg-1" VIDEO_MP4 ("segments" // "seg-1" // "ride.mp4")
              Scenario.H10 10])
       (delete (Scenario.storage // "uploads" // Scenario.tmp_name)
          {[ "storage/segments/seg-1/ride.mp4" := Scenario.zeros 10 ]}),
     Ok [("status", JStr "ok");
         ("path", JStr (Scenario.storage // "segments" // "seg-1" // "ride.mp4"));
         ("sha", JStr Scenario.H10); ("size", JInt 10)]).
Proof.
  refine (multipart_upload_stores_file Scenario.storage Scenario.world0
            (Scenario.zeros 10) "trip-1" "seg-1" "ride.mp4" VIDEO_MP4
            (Some Scenario.H10) Scenario.alice Scenario.tmp_name (Trip.mk "alice")
            (Segment.mk "trip-1" None None)
            {[ "storage/segments/seg-1/ride.mp4" := Scenario.zeros 10 ]}
            Scenario.H10 10 _ _ _ _ _ _ _);
    try (vm_compute; reflexivity).
  right. right. reflexivity.
Defined.



(** ** Chunks: what a PATCH leaves *)

(** X19: a PATCH to one session never changes the row of another session,
    nor any trip, whatever it is asked and whatever it answers. *)
Theorem patch_upload_leaves_other_sessions :
  ∀ storage_dir w upload_id body current_user upload_offset now other,
    other ≠ upload_id →
    uploads (fst (Uploads.patch_upload storage_dir w upload_id body current_user
                    upload_offset now)) !! other
    = uploads w !! other ∧
    trips (fst (Uploads.patch_upload storage_dir w upload_id body current_user
                  upload_offset now))
    = trips w.
Proof.
  intros storage_dir w upload_id body current_user upload_offset now other Hne.
  destruct (Uploads.patch_upload storage_dir w upload_id body current_user
              upload_offset now) as [w' r] eqn:Hp. cbn [fst].
  destruct (uploads w !! upload_id) as [upload|] eqn:Hu.
  - destruct (patch_upload_step storage_dir _ _ _ _ _ _ _ _ _ Hu Hp)
      as [->|(_ & _ & _ & _ & Ht & s & Hup)]; [done|].
    by rewrite Hup, lookup_insert_ne.
  - revert Hp. unfold Uploads.patch_upload.
    rewrite load_upload_missing by done. by intros [= <- _].
Qed.

(** X19, witness: the first half sent to [upload-1], seen from
    [upload-2]. *)
Lemma patch_upload_leaves_other_sessions_witness :
  uploads (fst (Uploads.patch_upload Scenario.storage (Scenario.created None)
                  "upload-1" (Scenario.zeros 5) Scenario.alice 0 101)) !! "upload-2"
  = uploads (Scenario.created None) !! "upload-2" ∧
  trips (fst (Uploads.patch_upload Scenario.storage (Scenario.created None)
                "upload-1" (Scenario.zeros 5) Scenario.alice 0 101))
  = trips (Scenario.created None).
Proof.
  refine (patch_upload_leaves_other_sessions Scenario.storage (Scenario.created None)
            "upload-1" (Scenario.zeros 5) Scenario.alice 0 101 "upload-2" _).
  discriminate.
Defined.

(** X20: the chunk that reaches the declared length, when the file name
    of the session is a plain name (so that the final path lies in the
    directory of the segment), the writer took the chunk, the finalizer
    succeeded and the expected hash is the computed one:
    the PATCH answers 204 with the credited offset, the session is COMPLETE
    at that offset, a [StoredFile] with the computed hash and size is
    appended, the segment takes that size and hash when the file is an MP4
    video and is left alone otherwise, and the storage is the one the
    finalizer left. *)
Theorem patch_upload_completion_records :
  ∀ storage_dir w upload_id body current_user now upload trip fs1 fs2 sha size,
    uploads w !! upload_id = Some upload →
    trips w !! UploadSession.trip_id upload = Some trip →
    Trip.user_id trip = User.id current_user →
    UploadSession.status upload ≠ COMPLETE →
    body ≠ [] →
    Pathlib.plain_name (UploadSession.filename upload) = true →
    Storage.write_chunk (fs w) (Storage.get_upload_path storage_dir upload_id) body
      (UploadSession.offset upload) = Ok fs1 →
    UploadSession.offset upload + Py.len body >= UploadSession.upload_length upload →
    Storage.finalize_upload fs1 (Storage.get_upload_path storage_dir upload_id)
      (final_path storage_dir upload) = Ok (fs2, (sha, size)) →
    UploadSession.sha256 upload = Some sha →
    Uploads.patch_upload storage_dir w upload_id body current_user
      (UploadSession.offset upload) now
    = (mkWorld (trips w)
         (match segments w !! UploadSession.segment_id upload with
          | Some segment =>
              <[UploadSession.segment_id upload :=
                  if bool_decide (UploadSession.file_type upload = VIDEO_MP4) then
                    Segment.mk (Segment.trip_id segment) (Some size) (Some sha)
                  else segment]> (segments w)
          | None => segments w
          end)
         (<[upload_id := UploadSession.set_status COMPLETE (credited upload body now)]>
            (uploads w))
         (stored_files w ++ [stored_file_of upload sha size])
         fs2,
       Ok (mkResponse 204
             [("Upload-Offset", Py.str (UploadSession.offset upload + Py.len body))])).
Proof.
  intros storage_dir w upload_id body current_user now upload trip fs1 fs2 sha size
    Hu Ht Hown Hs Hb Hname Hw Hge Hfin Hsha.
  unfold Uploads.patch_upload. erewrite load_upload_owned by done.
  do 3 guard_fails. rewrite Hw.
  cbn [UploadSession.offset UploadSession.upload_length UploadSession.set_offset
       UploadSession.set_status UploadSession.set_updated_at UploadSession.sha256
       UploadSession.segment_id UploadSession.filename fs set_fs set_uploads].
  guard_holds. fold (final_path storage_dir upload). rewrite Hfin, Hsha.
  rewrite sha_differs_same.
  unfold Uploads.record_stored_file.
  cbn [UploadSession.offset UploadSession.upload_length UploadSession.set_offset
       UploadSession.set_status UploadSession.set_updated_at UploadSession.sha256
       UploadSession.segment_id UploadSession.filename UploadSession.file_type
       fs set_fs set_uploads set_stored_files set_segments segments stored_files
       uploads trips].
  destruct (segments w !! UploadSession.segment_id upload); cbn;
    by rewrite insert_insert_eq.
Qed.

(** X20, witness: the second half of ten zero bytes, with their hash
    expected. *)
Lemma patch_upload_completion_records_witness :
  Uploads.patch_upload Scenario.storage (Scenario.half (Some Scenario.H10)) "upload-1"
    (Scenario.zeros 5) Scenario.alice
    (UploadSession.offset
       (UploadSession.mk "trip-1" "seg-1" "ride.mp4" VIDEO_MP4 (Some Scenario.H10) 10 5
          RECEIVING 101)) 102
  = (Scenario.completed,
     Ok (mkResponse 204 [("Upload-Offset", Py.str (5 + Py.len (Scenario.zeros 5)))])).
Proof.
  refine (eq_trans
            (patch_upload_completion_records Scenario.storage
               (Scenario.half (Some Scenario.H10)) "upload-1" (Scenario.zeros 5)
               Scenario.alice 102
               (UploadSession.mk "trip-1" "seg-1" "ride.mp4" VIDEO_MP4
                  (Some Scenario.H10) 10 5 RECEIVING 101)
               (Trip.mk "alice")
               {[ "storage/uploads/upload-1" := Scenario.zeros 10 ]}
               {[ "storage/segments/seg-1/ride.mp4" := Scenario.zeros 10 ]}
               Scenario.H10 10 _ _ _ _ _ _ _ _ _ _) _);
    vm_compute; first [reflexivity | discriminate].
Defined.

(** X21: when the chunk writer refuses a chunk, [patch_upload] passes its
    exception on and credits nothing: the world is left as it was. *)
Theorem patch_upload_writer_failure :
  ∀ storage_dir w upload_id body current_user now upload trip e,
    uploads w !! upload_id = Some upload →
    trips w !! UploadSession.trip_id upload = Some trip →
    Trip.user_id trip = User.id current_user →
    UploadSession.status upload ≠ COMPLETE →
    body ≠ [] →
    Storage.write_chunk (fs w) (Storage.get_upload_path storage_dir upload_id) body
      (UploadSession.offset upload) = Raise e →
    Uploads.patch_upload storage_dir w upload_id body current_user
      (UploadSession.offset upload) now
    = (w, Raise e).
Proof.
  intros storage_dir w upload_id body current_user now upload trip e
    Hu Ht Hown Hs Hb Hw.
  unfold Uploads.patch_upload. erewrite load_upload_owned by done.
  do 3 guard_fails. by rewrite Hw.
Qed.

(** X21, witness: five bytes at offset 10 for the FAILED session, whose
    partial artifact is gone. *)
Lemma patch_upload_writer_failure_witness :
  Uploads.patch_upload Scenario.storage Scenario.failed "upload-1" (Scenario.zeros 5)
    Scenario.alice
    (UploadSession.offset
       (UploadSession.mk "trip-1" "seg-1" "ride.mp4" VIDEO_MP4 (Some "00") 10 10
          FAILED 102)) 103
  = (Scenario.failed, Raise WriterOffsetConflict).
Proof.
  refine (patch_upload_writer_failure Scenario.storage Scenario.failed "upload-1"
            (Scenario.zeros 5) Scenario.alice 103
            (UploadSession.mk "trip-1" "seg-1" "ride.mp4" VIDEO_MP4 (Some "00") 10 10
               FAILED 102)
            (Trip.mk "alice") WriterOffsetConflict _ _ _ _ _ _);
    vm_compute; first [reflexivity | discriminate].
Defined.

(** X22: after a PATCH that succeeded, [head_upload] by the same caller
    reports the offset the PATCH reported, with the declared length the
    session had. *)
Theorem patch_then_head_upload :
  ∀ storage_dir w upload_id body current_user upload_offset now upload w' response,
    uploads w !! upload_id = Some upload →
    Uploads.patch_upload storage_dir w upload_id body current_user upload_offset now
    = (w', Ok response) →
    ∃ reported,
      header "Upload-Offset" (headers response) = Some reported ∧
      Uploads.head_upload w' upload_id current_user
      = Ok (mkResponse 204
              [("Upload-Offset", reported);
               ("Upload-Length", Py.str (UploadSession.upload_length upload))]).
Proof.
  intros storage_dir w upload_id body current_user upload_offset now upload w'
    response Hu. unfold Uploads.patch_upload.
  destruct (Uploads.load_upload w upload_id current_user) as [u|e] eqn:Hl; [|done].
  pose proof Hl as Hl'. apply load_upload_Ok in Hl' as (Hu' & trip & Ht & Hown).
  assert (u = upload) as -> by congruence.
  assert (Hhead : ∀ w1 s,
            uploads w1
            = <[upload_id := UploadSession.set_status s (credited upload body now)]>
                (uploads w) →
            trips w1 = trips w →
            Uploads.head_upload w1 upload_id current_user
            = Ok (mkResponse 204
                    [("Upload-Offset",
                      Py.str (UploadSession.offset upload + Py.len body));
                     ("Upload-Length", Py.str (UploadSession.upload_length upload))])).
  { intros w1 s Hup Htr. unfold Uploads.head_upload.
    rewrite (load_upload_owned w1 upload_id current_user
               (UploadSession.set_status s (credited upload body now)) trip); [done| | |done].
    - rewrite Hup. apply lookup_insert_eq.
    - cbn. by rewrite Htr. }
  case_bool_decide; [done|]. case_bool_decide; [done|].
  case_bool_decide.
  { intros [= <- <-]. eexists. split; [done|].
    unfold Uploads.head_upload. by rewrite Hl. }
  destruct (Storage.write_chunk _ _ _ _) as [fs1|e]; [|done].
  cbn [UploadSession.offset UploadSession.upload_length UploadSession.set_offset
       UploadSession.set_status UploadSession.set_updated_at UploadSession.sha256
       UploadSession.segment_id UploadSession.filename fs set_fs set_uploads].
  case_bool_decide.
  - destruct (Storage.finalize_upload _ _ _) as [[fs2 [sha size]]|e]; [|done].
    destruct (Uploads.sha_differs sha (UploadSession.sha256 upload)); [done|].
    intros [= <- <-]. eexists. split; [done|].
    match goal with |- context [Uploads.record_stored_file ?w ?u ?s ?n] =>
      destruct (record_stored_file_fields w u s n) as (Htr & Hup & _ & _) end.
    apply (Hhead _ COMPLETE); cbn [uploads set_uploads trips];
      rewrite ?Hup, ?Htr; cbn; by rewrite ?insert_insert_eq.
  - intros [= <- <-]. eexists. split; [done|]. by apply (Hhead _ RECEIVING).
Qed.

(** X22, witness: the first half of ten bytes, then HEAD. *)
Lemma patch_then_head_upload_witness :
  ∃ reported,
    header "Upload-Offset" (headers (mkResponse 204 [("Upload-Offset", "5")]))
    = Some reported ∧
    Uploads.head_upload (Scenario.half None) "upload-1" Scenario.alice
    = Ok (mkResponse 204
            [("Upload-Offset", reported);
             ("Upload-Length",
              Py.str (UploadSession.upload_length
                        (UploadSession.mk "trip-1" "seg-1" "ride.mp4" VIDEO_MP4 None 10
                           0 PENDING 100)))]).
Proof.
  refine (patch_then_head_upload Scenario.storage (Scenario.created None) "upload-1"
            (Scenario.zeros 5) Scenario.alice 0 101
            (UploadSession.mk "trip-1" "seg-1" "ride.mp4" VIDEO_MP4 None 10 0 PENDING
               100)
            (Scenario.half None) (mkResponse 204 [("Upload-Offset", "5")]) _ _);
    vm_compute; reflexivity.
Defined.

(** X23: a COMPLETE session is closed to its owner's PATCHes: each one,
    whatever offset it claims and whatever it carries, fails with 409
    [Upload already complete], and no sequence of them changes the world. *)
Theorem complete_session_is_closed :
  ∀ storage_dir w upload_id current_user upload trip,
    uploads w !! upload_id = Some upload →
    trips w !! UploadSession.trip_id upload = Some trip →
    Trip.user_id trip = User.id current_user →
    UploadSession.status upload = COMPLETE →
    (∀ body upload_offset now,
       Uploads.patch_upload storage_dir w upload_id body current_user upload_offset now
       = (w, Raise (HTTPException 409 "Upload already complete"))) ∧
    (∀ calls, accept_chunks storage_dir w upload_id current_user calls = w).
Proof.
  intros storage_dir w upload_id current_user upload trip Hu Ht Hown Hs.
  assert (Hl : Uploads.load_upload w upload_id current_user = Ok upload)
    by eauto using load_upload_owned.
  split.
  - intros body upload_offset now. by apply (patch_upload_complete _ _ _ _ _ _ _ upload).
  - intros calls. by apply (accept_chunks_complete _ _ _ _ _ upload).
Qed.

(** X23, witness: the session that both halves completed. *)
Lemma complete_session_is_closed_witness :
  (∀ body upload_offset now,
     Uploads.patch_upload Scenario.storage Scenario.completed "upload-1" body
       Scenario.alice upload_offset now
     = (Scenario.completed, Raise (HTTPException 409 "Upload already complete"))) ∧
  (∀ calls,
     accept_chunks Scenario.storage Scenario.completed "upload-1" Scenario.alice calls
     = Scenario.completed).
Proof.
  refine (complete_session_is_closed Scenario.storage Scenario.completed "upload-1"
            Scenario.alice
            (UploadSession.mk "trip-1" "seg-1" "ride.mp4" VIDEO_MP4 (Some Scenario.H10)
               10 10 COMPLETE 102)
            (Trip.mk "alice") _ _ _ _);
    vm_compute; reflexivity.
Defined.

End UploadsExtras.
